(** * smartctl_exporter: the device report mapper

    A shallow embedding of [metrics.go]: the metric catalog, the
    [SMARTctl] mapper with its constructor [NewSMARTctl], the twelve
    mining sub-steps and [Collect].

    - [float64] is Rocq's primitive binary64 float; every arithmetic
      operation rounds on its own (no fused multiply-add).
    - A Go [string] is a [string] of bytes.
    - The libraries the mapper calls are modelled in modules named after
      the Go packages: [strings], [strconv], [gjson], [prometheus].  What
      they compute on text and numbers without any bearing on the mapper's
      control flow (trimming, case folding, number parsing and printing,
      the source text of a JSON value) is taken as an interface, [GoLib].
    - [prometheus.NewConstMetric] refuses a wrong number of label values
      and a label value that is not valid UTF-8 ([utf8.ValidString]);
      [MustNewConstMetric] panics on either.  The one law asked of the
      interface is that trimming leaves valid UTF-8 valid.
    - A method of [*SMARTctl] is a computation in the monad [Go]: it
      receives the mapper, may replace it, and either returns or panics.
      Sending on [smart.ch] appends to the list of metrics sent so far. *)

From Stdlib Require Import List String Ascii Bool PeanoNat ZArith Lia Permutation.
From Stdlib Require Import Floats.
Import ListNotations.
Local Open Scope string_scope.
Local Open Scope list_scope.

Set Implicit Arguments.
Set Warnings "-register-all".

(** ** JSON documents *)

(** A JSON value, as a parsed tree.  A number keeps its source token next
    to the parsed [float64]; an object keeps its members in document
    order, duplicate keys included. *)
Inductive JSON : Type :=
| JNull
| JFalse
| JTrue
| JNumber (raw : string) (num : float)
| JString (str : string)
| JArray (elems : list JSON)
| JObject (members : list (string * JSON)).

(** ** utf8: well-formed text *)

Module utf8.

(** Is the byte between [lo] and [hi], both included? *)
Definition inRange (lo hi : nat) (b : ascii) : bool :=
  Nat.leb lo (nat_of_ascii b) && Nat.leb (nat_of_ascii b) hi.

(** A continuation byte: 0x80 to 0xBF. *)
Definition continuation (b : ascii) : bool := inRange 128 191 b.

(** [utf8.ValidString(s)]: [s] is a sequence of well-formed UTF-8
    encodings (no overlong form, no surrogate, nothing above U+10FFFF). *)
Fixpoint ValidString (s : string) : bool :=
  match s with
  | EmptyString => true
  | String b0 rest0 =>
      if inRange 0 127 b0 then ValidString rest0
      else
        match rest0 with
        | EmptyString => false
        | String b1 rest1 =>
            if inRange 194 223 b0 then continuation b1 && ValidString rest1
            else
              match rest1 with
              | EmptyString => false
              | String b2 rest2 =>
                  if inRange 224 239 b0 then
                    (if inRange 224 224 b0 then inRange 160 191 b1
                     else if inRange 237 237 b0 then inRange 128 159 b1
                     else continuation b1)
                    && continuation b2 && ValidString rest2
                  else
                    match rest2 with
                    | EmptyString => false
                    | String b3 rest3 =>
                        if inRange 240 244 b0 then
                          (if inRange 240 240 b0 then inRange 144 191 b1
                           else if inRange 244 244 b0 then inRange 128 143 b1
                           else continuation b1)
                          && continuation b2 && continuation b3
                          && ValidString rest3
                        else false
                    end
              end
        end
  end.

End utf8.

(** ** Go library functions taken as an interface *)

Class GoLib : Type := {
  (** [strings.TrimSpace]: leading and trailing Unicode white space removed. *)
  lib_TrimSpace : string -> string;
  (** [strings.ToLower]. *)
  lib_ToLower : string -> string;
  (** [strconv.ParseFloat(s, 64)], the number returned; the error is
      dropped by the caller. *)
  lib_ParseFloat : string -> float;
  (** [strconv.FormatFloat(f, 'f', -1, 64)]. *)
  lib_FormatFloat : float -> string;
  (** The source text of an array or object, which gjson keeps in
      [Result.Raw]. *)
  lib_Raw : JSON -> string;
  (** [strings.TrimSpace] removes whole characters: what it leaves of
      well-formed text is well-formed. *)
  lib_TrimSpace_valid :
    forall s, utf8.ValidString s = true -> utf8.ValidString (lib_TrimSpace s) = true;
}.

Module strings.

Definition TrimSpace `{GoLib} (s : string) : string := lib_TrimSpace s.

Definition ToLower `{GoLib} (s : string) : string := lib_ToLower s.

(** [strings.Join(elems, sep)]. *)
Fixpoint Join (elems : list string) (sep : string) : string :=
  match elems with
  | [] => ""
  | [e] => e
  | e :: rest => e ++ sep ++ Join rest sep
  end.

End strings.

Module strconv.

Definition ParseFloat `{GoLib} (s : string) : float := lib_ParseFloat s.

Definition FormatFloat `{GoLib} (f : float) : string := lib_FormatFloat f.

(** [strconv.ParseBool]: the accepted spellings of true; every other
    string gives false (with or without an error, which the caller
    drops). *)
Definition ParseBool (s : string) : bool :=
  if string_dec s "1" then true
  else if string_dec s "t" then true
  else if string_dec s "T" then true
  else if string_dec s "TRUE" then true
  else if string_dec s "true" then true
  else if string_dec s "True" then true
  else false.

End strconv.

(** ** gjson: path lookup and coercions *)

Module gjson.

(** [gjson.Result] is a struct.  [Get] returns one for every path: the
    zero [Result] ([Missing]: type Null, empty raw text) when the path
    leads nowhere, the value found otherwise ([Found JNull] for a literal
    [null]). *)
Inductive Result : Type :=
| Missing
| Found (v : JSON).

(** The comparison [r == nil].  A [Result] is a struct value and never a
    nil pointer or interface: the comparison holds for no result. *)
Definition is_nil (r : Result) : bool := false.

(** [t.Exists()]: [t.Type != Null || len(t.Raw) != 0]. *)
Definition Exists (t : Result) : bool :=
  match t with
  | Missing => false
  | Found _ => true
  end.

(** The components of a path, split at the dots.  The mapper only uses
    paths of plain object keys (no wildcard, index, modifier or escape). *)
Fixpoint splitPath (path : string) : list string :=
  match path with
  | EmptyString => [EmptyString]
  | String c rest =>
      if Ascii.eqb c "."%char then EmptyString :: splitPath rest
      else match splitPath rest with
           | [] => [String c EmptyString]
           | k :: ks => String c k :: ks
           end
  end.

(** The lookup of one key among the members of an object, where
    [descend] follows the rest of the path in a member's value: the first
    member with the key whose value leads somewhere.  (For the last key of
    a path that is the first member with the key; before, a member with
    the key whose value leads nowhere is passed over.) *)
Fixpoint lookupWith (descend : JSON -> Result) (key : string)
    (members : list (string * JSON)) : Result :=
  match members with
  | [] => Missing
  | (k, v) :: rest =>
      if String.eqb k key then
        match descend v with
        | Found r => Found r
        | Missing => lookupWith descend key rest
        end
      else lookupWith descend key rest
  end.

Fixpoint getKeys (v : JSON) (keys : list string) : Result :=
  match keys with
  | [] => Found v
  | k :: ks =>
      match v with
      | JObject members => lookupWith (fun v' => getKeys v' ks) k members
      | _ => Missing
      end
  end.

(** [t.Get(path)]. *)
Definition Get (t : Result) (path : string) : Result :=
  match t with
  | Missing => Missing
  | Found v => getKeys v (splitPath path)
  end.

(** Is the token an optional minus sign followed by digits only? *)
Fixpoint allDigits (s : string) : bool :=
  match s with
  | EmptyString => true
  | String c rest =>
      (Nat.leb 48 (nat_of_ascii c) && Nat.leb (nat_of_ascii c) 57)
      && allDigits rest
  end.

Definition plainInteger (raw : string) : bool :=
  match raw with
  | EmptyString => false
  | String c rest => if Ascii.eqb c "-"%char then allDigits rest else allDigits raw
  end.

(** [t.Float()]. *)
Definition Float `{GoLib} (t : Result) : float :=
  match t with
  | Found JTrue => 1
  | Found (JString str) => strconv.ParseFloat str
  | Found (JNumber _ num) => num
  | _ => 0
  end.

(** [t.Bool()]. *)
Definition Bool `{GoLib} (t : Result) : bool :=
  match t with
  | Found JTrue => true
  | Found (JString str) => strconv.ParseBool (strings.ToLower str)
  | Found (JNumber _ num) => negb (PrimFloat.eqb num 0)
  | _ => false
  end.

(** [t.Array()]: nothing for a Null result, the elements of an array,
    and the result itself as the only element otherwise. *)
Definition Array (t : Result) : list Result :=
  match t with
  | Missing => []
  | Found JNull => []
  | Found (JArray elems) => map Found elems
  | Found v => [Found v]
  end.

(** The [(key, value)] pairs [t.ForEach] hands to its iterator, in order:
    the members of an object under their keys, the elements of an array
    under their indices, and any other existing value once, under the
    zero [Result]. *)
Fixpoint indexed (i : float) (elems : list JSON) : list (Result * Result) :=
  match elems with
  | [] => []
  | e :: rest => (Found (JNumber "" i), Found e) :: indexed (i + 1)%float rest
  end.

Definition entries (t : Result) : list (Result * Result) :=
  match t with
  | Missing => []
  | Found (JObject members) =>
      map (fun kv => (Found (JString (fst kv)), Found (snd kv))) members
  | Found (JArray elems) => indexed 0 elems
  | Found v => [(Missing, Found v)]
  end.

(** [t.String()]. *)
Definition String `{GoLib} (t : Result) : string :=
  match t with
  | Missing => ""
  | Found JNull => ""
  | Found JFalse => "false"
  | Found JTrue => "true"
  | Found (JNumber raw num) =>
      if plainInteger raw then raw else strconv.FormatFloat num
  | Found (JString str) => str
  | Found v => lib_Raw v
  end.

End gjson.

(** ** Calls that may panic *)

Inductive result (A : Type) : Type :=
| Return (a : A)
| Panic (err : string).

Arguments Return {A} a.
Arguments Panic {A} err.

(** ** prometheus: descriptors and constant metrics *)

Module prometheus.

(** [prometheus.Desc]: the fully qualified name, the help text and the
    names of the variable labels, in order. *)
Record Desc : Type := {
  fqName : string;
  help : string;
  variableLabels : list string;
}.

(** [prometheus.NewDesc(fqName, help, variableLabels, constLabels)]; the
    catalog passes [nil] for the constant labels everywhere. *)
Definition NewDesc (fqName help : string) (variableLabels : list string)
    (constLabels : option (list (string * string))) : Desc :=
  {| fqName := fqName; help := help; variableLabels := variableLabels |}.

Inductive ValueType : Type :=
| CounterValue
| GaugeValue
| UntypedValue.

(** A constant metric: one observation. *)
Record Metric : Type := {
  desc : Desc;
  valType : ValueType;
  val : float;
  labelValues : list string;
}.

(** The two errors of [validateLabelValues], each abridged to the part of
    its message that does not depend on the values. *)
Definition errInconsistentCardinality : string := "inconsistent label cardinality".

Definition errInvalidUTF8 : string := "label value is not valid UTF-8".

(** [validateLabelValues]: the number of values first, then each value. *)
Definition validateLabelValues (vals : list string) (expectedNumberOfValues : nat)
    : option string :=
  if negb (Nat.eqb (List.length vals) expectedNumberOfValues)
  then Some errInconsistentCardinality
  else if forallb utf8.ValidString vals then None
  else Some errInvalidUTF8.

(** [prometheus.NewConstMetric]: an error when the number of label values
    differs from the number of variable labels of the descriptor, or when
    a label value is not valid UTF-8.  (The descriptors of the catalog
    carry no error of their own: their names are legal and no label name
    is repeated.) *)
Definition NewConstMetric (d : Desc) (valueType : ValueType) (value : float)
    (labelValues : list string) : Metric + string :=
  match validateLabelValues labelValues (List.length (variableLabels d)) with
  | Some err => inr err
  | None =>
      inl {| desc := d; valType := valueType; val := value;
             labelValues := labelValues |}
  end.

(** [prometheus.MustNewConstMetric]: [NewConstMetric], panicking on its error. *)
Definition MustNewConstMetric (d : Desc) (valueType : ValueType) (value : float)
    (labelValues : list string) : result Metric :=
  match NewConstMetric d valueType value labelValues with
  | inl m => Return m
  | inr err => Panic err
  end.

(** The value an observation carries under a label name: label values are
    matched to the descriptor's label names by position. *)
Fixpoint lookup (name : string) (pairs : list (string * string)) : option string :=
  match pairs with
  | [] => None
  | (n, v) :: rest => if String.eqb n name then Some v else lookup name rest
  end.

Definition label (m : Metric) (name : string) : option string :=
  lookup name (combine (variableLabels (desc m)) (labelValues m)).

End prometheus.

Import prometheus.

(** ** The metric catalog (metrics.go) *)

Definition metricSmartctlVersion : Desc :=
  NewDesc "smartctl_version" "smartctl version"
    ["json_format_version"; "smartctl_version"; "svn_revision"; "build_info"]
    None.

Definition metricDeviceModel : Desc :=
  NewDesc "smartctl_device" "Device info"
    ["device"; "interface"; "protocol"; "model_family"; "model_name";
     "serial_number"; "ata_additional_product_id"; "firmware_version";
     "ata_version"; "sata_version"]
    None.

Definition metricDeviceCapacityBlocks : Desc :=
  NewDesc "smartctl_device_capacity_blocks" "Device capacity in blocks"
    ["device"; "model_family"; "model_name"; "serial_number"]
    None.

Definition metricDeviceCapacityBytes : Desc :=
  NewDesc "smartctl_device_capacity_bytes" "Device capacity in bytes"
    ["device"; "model_family"; "model_name"; "serial_number"]
    None.

Definition metricDeviceBlockSize : Desc :=
  NewDesc "smartctl_device_block_size" "Device block size"
    ["device"; "model_family"; "model_name"; "serial_number"; "blocks_type"]
    None.

Definition metricDeviceInterfaceSpeed : Desc :=
  NewDesc "smartctl_device_interface_speed" "Device interface speed, bits per second"
    ["device"; "model_family"; "model_name"; "serial_number"; "speed_type"]
    None.

Definition metricDeviceAttribute : Desc :=
  NewDesc "smartctl_device_attribute" "Device attributes"
    ["device"; "model_family"; "model_name"; "serial_number"; "attribute_name";
     "attribute_flags_short"; "attribute_flags_long"; "attribute_value_type";
     "attribute_id"]
    None.

Definition metricDevicePowerOnSeconds : Desc :=
  NewDesc "smartctl_device_power_on_seconds" "Device power on seconds"
    ["device"; "model_family"; "model_name"; "serial_number"]
    None.

Definition metricDeviceRotationRate : Desc :=
  NewDesc "smartctl_device_rotation_rate" "Device rotation rate"
    ["device"; "model_family"; "model_name"; "serial_number"]
    None.

Definition metricDeviceTemperature : Desc :=
  NewDesc "smartctl_device_temperature" "Device temperature celsius"
    ["device"; "model_family"; "model_name"; "serial_number"; "temperature_type"]
    None.

Definition metricDevicePowerCycleCount : Desc :=
  NewDesc "smartctl_device_power_cycle_count" "Device power cycle count"
    ["device"; "model_family"; "model_name"; "serial_number"]
    None.

Definition metricDeviceExitStatus : Desc :=
  NewDesc "smartctl_device_smartctl_exit_status" "Exit status of smartctl on device"
    ["device"; "model_family"; "model_name"; "serial_number"]
    None.

Definition metricDeviceStatistics : Desc :=
  NewDesc "smartctl_device_statistics" "Device statistics"
    ["device"; "model_family"; "model_name"; "serial_number"; "statistic_table";
     "statistic_name"; "statistic_flags_short"; "statistic_flags_long"]
    None.

Definition metricCriticalWarning : Desc :=
  NewDesc "smartctl_device_critical_warning" "Critical warning counter"
    ["device"; "model_family"; "model_name"; "serial_number"]
    None.

Definition metricAvailableSpare : Desc :=
  NewDesc "smartctl_device_available_spare" "Available spare"
    ["device"; "model_family"; "model_name"; "serial_number"]
    None.

Definition metricMediaErrors : Desc :=
  NewDesc "smartctl_device_media_errors" "Media errors counter"
    ["device"; "model_family"; "model_name"; "serial_number"]
    None.

Definition metricPercentageUsed : Desc :=
  NewDesc "smartctl_device_percentage_used" "Percentage Used"
    ["device"; "model_family"; "model_name"; "serial_number"]
    None.

Definition metricSmartStatus : Desc :=
  NewDesc "smartctl_device_smart_status" "Smart status"
    ["device"; "model_family"; "model_name"; "serial_number"]
    None.

(** The whole catalog, in declaration order. *)
Definition catalog : list Desc :=
  [metricSmartctlVersion; metricDeviceModel; metricDeviceCapacityBlocks;
   metricDeviceCapacityBytes; metricDeviceBlockSize; metricDeviceInterfaceSpeed;
   metricDeviceAttribute; metricDevicePowerOnSeconds; metricDeviceRotationRate;
   metricDeviceTemperature; metricDevicePowerCycleCount; metricDeviceExitStatus;
   metricDeviceStatistics; metricCriticalWarning; metricAvailableSpare;
   metricMediaErrors; metricPercentageUsed; metricSmartStatus].

(** ** The mapper *)

(** SMARTDevice - short info about device *)
Record SMARTDevice : Type := {
  device : string;
  serial : string;
  family : string;
  model : string;
}.

(** SMARTctl object.  [ch] holds the metrics sent on the channel so far,
    oldest first; the field [device] of the source is [smartDevice] here,
    the name [device] being taken by [SMARTDevice]. *)
Record SMARTctl : Type := {
  ch : list Metric;
  json : gjson.Result;
  smartDevice : SMARTDevice;
}.

(** What a method of [*SMARTctl] runs against: the struct its receiver
    points to, and the source of the start offsets the Go runtime draws
    for map iterations. *)
Record State : Type := {
  self : SMARTctl;
  fastrand : nat -> nat;
}.

Definition Go (A : Type) : Type := State -> result A * State.

Definition ret {A : Type} (a : A) : Go A := fun st => (Return a, st).

Definition bind {A B : Type} (m : Go A) (k : A -> Go B) : Go B :=
  fun st =>
    match m st with
    | (Return a, st') => k a st'
    | (Panic err, st') => (Panic err, st')
    end.

Declare Scope go_scope.
Delimit Scope go_scope with go.
Notation "x <- m ;; k" := (bind m (fun x => k))
  (at level 61, m at next level, right associativity) : go_scope.
Notation "m ;; k" := (bind m (fun _ => k))
  (at level 61, right associativity) : go_scope.
Local Open Scope go_scope.

(** The struct behind the receiver. *)
Definition receiver : Go SMARTctl := fun st => (Return (self st), st).

(** A library call that returns or panics. *)
Definition must {A : Type} (r : result A) : Go A := fun st => (r, st).

(** [smart.ch <- m] *)
Definition send (m : Metric) : Go unit :=
  fun st =>
    (Return tt,
     {| self := {| ch := ch (self st) ++ [m];
                   json := json (self st);
                   smartDevice := smartDevice (self st) |};
        fastrand := fastrand st |}).

(** [for _, x := range xs { body }] over a slice. *)
Fixpoint forRange {A : Type} (xs : list A) (body : A -> Go unit) : Go unit :=
  match xs with
  | [] => ret tt
  | x :: rest => body x ;; forRange rest body
  end.

(** The [i]-th place of [l] receives [x]. *)
Fixpoint insertAt {A : Type} (i : nat) (x : A) (l : list A) : list A :=
  match i, l with
  | 0, _ => x :: l
  | S _, [] => [x]
  | S i', y :: l' => y :: insertAt i' x l'
  end.

(** The order in which a map with the entries [l] is visited for a given
    draw of the runtime: Go leaves the order unspecified, every
    arrangement of the entries is possible, and [seed] picks one
    (0 picks the order of the literal). *)
Fixpoint permute {A : Type} (seed : nat) (l : list A) : list A :=
  match l with
  | [] => []
  | x :: l' =>
      insertAt (seed mod S (List.length l')) x
        (permute (seed / S (List.length l')) l')
  end.

Definition mapiterinit : Go nat :=
  fun st =>
    (Return (fastrand st 0),
     {| self := self st; fastrand := fun n => fastrand st (S n) |}).

(** [for key, value := range m { body }] over a map. *)
Definition forRangeMap {K V : Type} (m : list (K * V)) (body : K -> V -> Go unit)
    : Go unit :=
  seed <- mapiterinit ;;
  forRange (permute seed m) (fun kv => body (fst kv) (snd kv)).

(** [t.ForEach(iterator)]: the iteration stops when the iterator returns
    false. *)
Fixpoint forEachEntry (es : list (gjson.Result * gjson.Result))
    (iterator : gjson.Result -> gjson.Result -> Go bool) : Go unit :=
  match es with
  | [] => ret tt
  | (key, value) :: rest =>
      continue <- iterator key value ;;
      if continue then forEachEntry rest iterator else ret tt
  end.

Definition ForEach (t : gjson.Result)
    (iterator : gjson.Result -> gjson.Result -> Go bool) : Go unit :=
  forEachEntry (gjson.entries t) iterator.

Section Mapper.

Context `{GoLib}.

(** Modelled from the spec: [GetStringIfExists], a helper of the
    repository that is not among the sources.  The spec has the read of
    the additional product id default to the given string when the field
    is absent, and be the field's string value otherwise. *)
Definition GetStringIfExists (json : gjson.Result) (key : string) (def : string)
    : string :=
  let value := gjson.Get json key in
  if gjson.Exists value then gjson.String value else def.

(** Modelled from the spec: [GetFloatIfExists], a helper of the repository
    that is not among the sources.  The spec has each read through it
    default to the given number when the field is absent, and be the
    field's numeric value otherwise. *)
Definition GetFloatIfExists (json : gjson.Result) (key : string) (def : float)
    : float :=
  let value := gjson.Get json key in
  if gjson.Exists value then gjson.Float value else def.

(** NewSMARTctl is smartctl constructor.  [ch] is the channel as handed
    in, with whatever was sent on it before; the verbose log line is not
    modelled. *)
Definition NewSMARTctl (json : gjson.Result) (ch : list Metric) : SMARTctl :=
  {| ch := ch;
     json := json;
     smartDevice :=
       {| device := strings.TrimSpace (gjson.String (gjson.Get json "device.name"));
          serial := strings.TrimSpace (gjson.String (gjson.Get json "serial_number"));
          family := strings.TrimSpace (gjson.String (gjson.Get json "model_family"));
          model := strings.TrimSpace (gjson.String (gjson.Get json "model_name")) |} |}.

Definition mineExitStatus : Go unit :=
  smart <- receiver ;;
  m <- must (MustNewConstMetric
    metricDeviceExitStatus
    GaugeValue
    (gjson.Float (gjson.Get (json smart) "smartctl.exit_status"))
    [device (smartDevice smart);
     family (smartDevice smart);
     model (smartDevice smart);
     serial (smartDevice smart)]) ;;
  send m.

Definition mineDevice : Go unit :=
  smart <- receiver ;;
  let device_ := gjson.Get (json smart) "device" in
  m <- must (MustNewConstMetric
    metricDeviceModel
    GaugeValue
    1
    [device (smartDevice smart);
     gjson.String (gjson.Get device_ "type");
     gjson.String (gjson.Get device_ "protocol");
     family (smartDevice smart);
     model (smartDevice smart);
     serial (smartDevice smart);
     GetStringIfExists (json smart) "ata_additional_product_id" "unknown";
     gjson.String (gjson.Get (json smart) "firmware_version");
     gjson.String (gjson.Get (json smart) "ata_version.string");
     gjson.String (gjson.Get (json smart) "sata_version.string")]) ;;
  send m.

Definition mineCapacity : Go unit :=
  smart <- receiver ;;
  let capacity := gjson.Get (json smart) "user_capacity" in
  m <- must (MustNewConstMetric
    metricDeviceCapacityBlocks
    GaugeValue
    (gjson.Float (gjson.Get capacity "blocks"))
    [device (smartDevice smart);
     family (smartDevice smart);
     model (smartDevice smart);
     serial (smartDevice smart)]) ;;
  send m ;;
  m <- must (MustNewConstMetric
    metricDeviceCapacityBytes
    GaugeValue
    (gjson.Float (gjson.Get capacity "bytes"))
    [device (smartDevice smart);
     family (smartDevice smart);
     model (smartDevice smart);
     serial (smartDevice smart)]) ;;
  send m ;;
  forRange ["logical"; "physical"] (fun blockType =>
    m <- must (MustNewConstMetric
      metricDeviceBlockSize
      GaugeValue
      (gjson.Float (gjson.Get (json smart) (blockType ++ "_block_size")))
      [device (smartDevice smart);
       family (smartDevice smart);
       model (smartDevice smart);
       serial (smartDevice smart);
       blockType]) ;;
    send m).

Definition mineInterfaceSpeed : Go unit :=
  smart <- receiver ;;
  let iSpeed := gjson.Get (json smart) "interface_speed" in
  forRange ["max"; "current"] (fun speedType =>
    let tSpeed := gjson.Get iSpeed speedType in
    m <- must (MustNewConstMetric
      metricDeviceInterfaceSpeed
      GaugeValue
      (gjson.Float (gjson.Get tSpeed "units_per_second")
       * gjson.Float (gjson.Get tSpeed "bits_per_unit"))%float
      [device (smartDevice smart);
       family (smartDevice smart);
       model (smartDevice smart);
       serial (smartDevice smart);
       speedType]) ;;
    send m).

Definition mineLongFlags (json : gjson.Result) (flags : list string) : string :=
  let result :=
    fold_left
      (fun (result : list string) (flag : string) =>
         let jFlag := gjson.Get json flag in
         if gjson.Exists jFlag && gjson.Bool jFlag
         then result ++ [flag]
         else result)
      flags [] in
  strings.Join result ",".

Definition mineDeviceAttribute : Go unit :=
  smart <- receiver ;;
  forRange (gjson.Array (gjson.Get (json smart) "ata_smart_attributes.table"))
    (fun attribute =>
      let name := strings.TrimSpace (gjson.String (gjson.Get attribute "name")) in
      let flagsShort :=
        strings.TrimSpace (gjson.String (gjson.Get attribute "flags.string")) in
      let flagsLong := mineLongFlags (gjson.Get attribute "flags")
        ["prefailure";
         "updated_online";
         "performance";
         "error_rate";
         "event_count";
         "auto_keep"] in
      let id := gjson.String (gjson.Get attribute "id") in
      forRangeMap
        [("value", "value");
         ("worst", "worst");
         ("thresh", "thresh");
         ("raw", "raw.value")]
        (fun key path =>
          m <- must (MustNewConstMetric
            metricDeviceAttribute
            GaugeValue
            (gjson.Float (gjson.Get attribute path))
            [device (smartDevice smart);
             family (smartDevice smart);
             model (smartDevice smart);
             serial (smartDevice smart);
             name;
             flagsShort;
             flagsLong;
             key;
             id]) ;;
          send m)).

Definition minePowerOnSeconds : Go unit :=
  smart <- receiver ;;
  let pot := gjson.Get (json smart) "power_on_time" in
  m <- must (MustNewConstMetric
    metricDevicePowerOnSeconds
    CounterValue
    (GetFloatIfExists pot "hours" 0 * 60 * 60
     + GetFloatIfExists pot "minutes" 0 * 60)%float
    [device (smartDevice smart);
     family (smartDevice smart);
     model (smartDevice smart);
     serial (smartDevice smart)]) ;;
  send m.

Definition mineRotationRate : Go unit :=
  smart <- receiver ;;
  let rRate := GetFloatIfExists (json smart) "rotation_rate" 0 in
  if (0 <? rRate)%float then
    m <- must (MustNewConstMetric
      metricDeviceRotationRate
      GaugeValue
      rRate
      [device (smartDevice smart);
       family (smartDevice smart);
       model (smartDevice smart);
       serial (smartDevice smart)]) ;;
    send m
  else ret tt.

Definition mineTemperatures : Go unit :=
  smart <- receiver ;;
  let temperatures := gjson.Get (json smart) "temperature" in
  if gjson.Exists temperatures then
    ForEach temperatures (fun key value =>
      m <- must (MustNewConstMetric
        metricDeviceTemperature
        GaugeValue
        (gjson.Float value)
        [device (smartDevice smart);
         family (smartDevice smart);
         model (smartDevice smart);
         serial (smartDevice smart);
         gjson.String key]) ;;
      send m ;;
      ret true)
  else ret tt.

Definition minePowerCycleCount : Go unit :=
  smart <- receiver ;;
  m <- must (MustNewConstMetric
    metricDevicePowerCycleCount
    CounterValue
    (gjson.Float (gjson.Get (json smart) "power_cycle_count"))
    [device (smartDevice smart);
     family (smartDevice smart);
     model (smartDevice smart);
     serial (smartDevice smart)]) ;;
  send m.

Definition mineDeviceStatistics : Go unit :=
  smart <- receiver ;;
  forRange (gjson.Array (gjson.Get (json smart) "ata_device_statistics.pages"))
    (fun page =>
      let table := strings.TrimSpace (gjson.String (gjson.Get page "name")) in
      forRange (gjson.Array (gjson.Get page "table")) (fun statistic =>
        m <- must (MustNewConstMetric
          metricDeviceStatistics
          GaugeValue
          (gjson.Float (gjson.Get statistic "value"))
          [device (smartDevice smart);
           family (smartDevice smart);
           model (smartDevice smart);
           serial (smartDevice smart);
           table;
           strings.TrimSpace (gjson.String (gjson.Get statistic "name"));
           strings.TrimSpace (gjson.String (gjson.Get statistic "flags.string"));
           mineLongFlags (gjson.Get statistic "flags")
             ["valid";
              "normalized";
              "supports_dsn";
              "monitored_condition_met"]]) ;;
        send m)).

Definition mineNvmeSmartHealthInformationLog : Go unit :=
  smart <- receiver ;;
  let iHealth := gjson.Get (json smart) "nvme_smart_health_information_log" in
  if gjson.is_nil iHealth then ret tt
  else
    m <- must (MustNewConstMetric
      metricCriticalWarning
      GaugeValue
      (gjson.Float (gjson.Get iHealth "critical_warning"))
      [device (smartDevice smart);
       family (smartDevice smart);
       model (smartDevice smart);
       serial (smartDevice smart)]) ;;
    send m ;;
    m <- must (MustNewConstMetric
      metricAvailableSpare
      GaugeValue
      (gjson.Float (gjson.Get iHealth "available_spare"))
      [device (smartDevice smart);
       family (smartDevice smart);
       model (smartDevice smart);
       serial (smartDevice smart)]) ;;
    send m ;;
    m <- must (MustNewConstMetric
      metricMediaErrors
      GaugeValue
      (gjson.Float (gjson.Get iHealth "media_errors"))
      [device (smartDevice smart);
       family (smartDevice smart);
       model (smartDevice smart);
       serial (smartDevice smart)]) ;;
    send m ;;
    m <- must (MustNewConstMetric
      metricPercentageUsed
      GaugeValue
      (gjson.Float (gjson.Get iHealth "percentage_used"))
      [device (smartDevice smart);
       family (smartDevice smart);
       model (smartDevice smart);
       serial (smartDevice smart)]) ;;
    send m.

Definition mineSmartStatus : Go unit :=
  smart <- receiver ;;
  let iStatus := gjson.Get (json smart) "smart_status" in
  m <- must (MustNewConstMetric
    metricSmartStatus
    GaugeValue
    (gjson.Float (gjson.Get iStatus "passed"))
    [device (smartDevice smart);
     family (smartDevice smart);
     model (smartDevice smart);
     serial (smartDevice smart)]) ;;
  send m.

(** Collect metrics *)
Definition Collect : Go unit :=
  mineExitStatus ;;
  mineDevice ;;
  mineCapacity ;;
  mineInterfaceSpeed ;;
  mineDeviceAttribute ;;
  minePowerOnSeconds ;;
  mineRotationRate ;;
  mineTemperatures ;;
  minePowerCycleCount ;;
  mineDeviceStatistics ;;
  mineNvmeSmartHealthInformationLog ;;
  mineSmartStatus.

End Mapper.

(** ** A library instance and reports to run the mapper on

    The statements below hold for every [GoLib]; evaluating the mapper on
    a concrete report needs one.  [asciiLib] trims the ASCII white space
    and lowers the ASCII letters, and leaves every other byte as it is;
    it agrees with Go on the reports used here: ASCII text or the lone
    byte 0xFF, and no string that is read as a number or number that is
    printed through [FormatFloat]. *)

Definition isSpace (c : ascii) : bool :=
  match nat_of_ascii c with
  | 9 | 10 | 11 | 12 | 13 | 32 => true
  | _ => false
  end.

Fixpoint trimLeft (s : string) : string :=
  match s with
  | String c rest => if isSpace c then trimLeft rest else s
  | EmptyString => EmptyString
  end.

Fixpoint trimRight (s : string) : string :=
  match s with
  | EmptyString => EmptyString
  | String c rest =>
      match trimRight rest with
      | EmptyString => if isSpace c then EmptyString else String c EmptyString
      | rest' => String c rest'
      end
  end.

Definition lowerAscii (c : ascii) : ascii :=
  let n := nat_of_ascii c in
  if Nat.leb 65 n && Nat.leb n 90 then ascii_of_nat (n + 32) else c.

Fixpoint mapString (f : ascii -> ascii) (s : string) : string :=
  match s with
  | EmptyString => EmptyString
  | String c rest => String (f c) (mapString f rest)
  end.

(** White space trimmed at both ends. *)
Definition trimSpace (s : string) : string := trimRight (trimLeft s).

Definition asciiLib : GoLib.
Proof.
  refine {| lib_TrimSpace := trimSpace;
            lib_ToLower := mapString lowerAscii;
            lib_ParseFloat := fun _ => 0%float;
            lib_FormatFloat := fun _ => "";
            lib_Raw := fun _ => "";
            lib_TrimSpace_valid := _ |}.
  assert (Hspace : forall c, isSpace c = true -> nat_of_ascii c <= 32).
  { intros [[] [] [] [] [] [] [] []]; vm_compute; intros E;
      first [discriminate E | repeat constructor]. }
  assert (Hascii : forall c, isSpace c = true -> utf8.inRange 0 127 c = true).
  { intros c Hc. apply Hspace in Hc. unfold utf8.inRange.
    apply andb_true_intro. split; apply Nat.leb_le; lia. }
  assert (Hhigh : forall lo hi c,
             128 <= lo -> utf8.inRange lo hi c = true -> isSpace c = false).
  { intros lo hi c Hlo Hin. unfold utf8.inRange in Hin.
    apply andb_prop in Hin. destruct Hin as [Hin _]. apply Nat.leb_le in Hin.
    destruct (isSpace c) eqn:E; [|reflexivity]. apply Hspace in E. lia. }
  assert (Hkeep : forall c rest,
             isSpace c = false -> trimRight (String c rest) = String c (trimRight rest)).
  { intros c rest Hc. simpl. rewrite Hc. now destruct (trimRight rest). }
  assert (Hleft : forall s,
             utf8.ValidString s = true -> utf8.ValidString (trimLeft s) = true).
  { induction s as [|c rest IH]; intros Hs; [reflexivity|].
    cbn [trimLeft]. destruct (isSpace c) eqn:Hc; [|exact Hs].
    apply IH. cbn [utf8.ValidString] in Hs. now rewrite (Hascii c Hc) in Hs. }
  assert (Hright : forall n s,
             String.length s <= n ->
             utf8.ValidString s = true -> utf8.ValidString (trimRight s) = true).
  { induction n as [|n IH]; intros s Hn Hs.
    - destruct s; [reflexivity | simpl in Hn; lia].
    - destruct s as [|b0 rest0]; [reflexivity|].
      cbn [String.length] in Hn.
      destruct (utf8.inRange 0 127 b0) eqn:E0.
      + assert (Hrest : utf8.ValidString (trimRight rest0) = true).
        { apply IH; [lia|]. cbn [utf8.ValidString] in Hs. now rewrite E0 in Hs. }
        cbn [trimRight]. destruct (trimRight rest0) as [|c r].
        * destruct (isSpace b0); [reflexivity|].
          cbn [utf8.ValidString]. now rewrite E0.
        * cbn [utf8.ValidString]. rewrite E0. exact Hrest.
      + assert (H0 : isSpace b0 = false).
        { destruct (isSpace b0) eqn:E; [|reflexivity].
          rewrite (Hascii b0 E) in E0. discriminate. }
        rewrite (Hkeep b0 rest0 H0).
        cbn [utf8.ValidString] in Hs. rewrite E0 in Hs.
        destruct rest0 as [|b1 rest1]; [discriminate|].
        cbn [String.length] in Hn.
        destruct (utf8.inRange 194 223 b0) eqn:E2.
        * apply andb_prop in Hs. destruct Hs as [H1 Hs].
          rewrite (Hkeep b1 rest1 (Hhigh 128 191 b1 (le_n 128) H1)).
          cbn [utf8.ValidString]. rewrite E0, E2, H1.
          apply IH; [lia | exact Hs].
        * destruct rest1 as [|b2 rest2]; [discriminate|].
          cbn [String.length] in Hn.
          destruct (utf8.inRange 224 239 b0) eqn:E3.
          -- apply andb_prop in Hs. destruct Hs as [Hs Hrest].
             apply andb_prop in Hs. destruct Hs as [H1 H2].
             assert (Hs1 : isSpace b1 = false).
             { destruct (utf8.inRange 224 224 b0);
                 [exact (Hhigh 160 191 b1 ltac:(lia) H1)|].
               destruct (utf8.inRange 237 237 b0);
                 [exact (Hhigh 128 159 b1 ltac:(lia) H1)|].
               exact (Hhigh 128 191 b1 ltac:(lia) H1). }
             rewrite (Hkeep b1 _ Hs1).
             rewrite (Hkeep b2 _ (Hhigh 128 191 b2 ltac:(lia) H2)).
             cbn [utf8.ValidString]. rewrite E0, E2, E3, H1, H2.
             apply IH; [lia | exact Hrest].
          -- destruct rest2 as [|b3 rest3]; [discriminate|].
             cbn [String.length] in Hn.
             destruct (utf8.inRange 240 244 b0) eqn:E4; [|discriminate].
             apply andb_prop in Hs. destruct Hs as [Hs Hrest].
             apply andb_prop in Hs. destruct Hs as [Hs H3].
             apply andb_prop in Hs. destruct Hs as [H1 H2].
             assert (Hs1 : isSpace b1 = false).
             { destruct (utf8.inRange 240 240 b0);
                 [exact (Hhigh 144 191 b1 ltac:(lia) H1)|].
               destruct (utf8.inRange 244 244 b0);
                 [exact (Hhigh 128 143 b1 ltac:(lia) H1)|].
               exact (Hhigh 128 191 b1 ltac:(lia) H1). }
             rewrite (Hkeep b1 _ Hs1).
             rewrite (Hkeep b2 _ (Hhigh 128 191 b2 ltac:(lia) H2)).
             rewrite (Hkeep b3 _ (Hhigh 128 191 b3 ltac:(lia) H3)).
             cbn [utf8.ValidString]. rewrite E0, E2, E3, E4, H1, H2, H3.
             apply IH; [lia | exact Hrest]. }
  intros s Hs. unfold trimSpace.
  apply (Hright (String.length (trimLeft s))); [apply le_n|]. now apply Hleft.
Defined.

(** A mapper freshly built for a report, with nothing sent yet, and the
    runtime's draws. *)
Definition start `{GoLib} (json : gjson.Result) (rnd : nat -> nat) : State :=
  {| self := NewSMARTctl json []; fastrand := rnd |}.

(** A SATA disk report with every documented field, for a disk of the
    given serial number: one attribute, one temperature reading, one
    statistics page with one entry, and (not that a SATA disk has one) an
    NVMe health log. *)
Definition diskReport (serialNumber : string) : gjson.Result :=
  gjson.Found (JObject
    [("smartctl", JObject [("exit_status", JNumber "0" 0)]);
     ("device", JObject [("name", JString "/dev/sda");
                         ("type", JString "sat");
                         ("protocol", JString "ATA")]);
     ("model_family", JString "Seagate Barracuda");
     ("model_name", JString " ST1000DM003 ");
     ("serial_number", JString serialNumber);
     ("ata_additional_product_id", JString "none");
     ("firmware_version", JString "CC47");
     ("ata_version", JObject [("string", JString "ATA8-ACS")]);
     ("sata_version", JObject [("string", JString "SATA 3.0")]);
     ("user_capacity", JObject [("blocks", JNumber "1953525168" 1953525168);
                                ("bytes", JNumber "1000204886016" 1000204886016)]);
     ("logical_block_size", JNumber "512" 512);
     ("physical_block_size", JNumber "4096" 4096);
     ("interface_speed",
      JObject [("max", JObject [("units_per_second", JNumber "60" 60);
                                ("bits_per_unit", JNumber "100000000" 100000000)]);
               ("current", JObject [("units_per_second", JNumber "60" 60);
                                    ("bits_per_unit", JNumber "100000000" 100000000)])]);
     ("ata_smart_attributes",
      JObject [("table",
        JArray [JObject [("id", JNumber "5" 5);
                         ("name", JString "Reallocated_Sector_Ct");
                         ("value", JNumber "100" 100);
                         ("worst", JNumber "100" 100);
                         ("thresh", JNumber "10" 10);
                         ("flags", JObject [("string", JString "PO--CK ");
                                            ("prefailure", JTrue);
                                            ("updated_online", JTrue);
                                            ("performance", JFalse);
                                            ("error_rate", JFalse);
                                            ("event_count", JTrue);
                                            ("auto_keep", JTrue)]);
                         ("raw", JObject [("value", JNumber "0" 0)])]])]);
     ("power_on_time", JObject [("hours", JNumber "100" 100);
                                ("minutes", JNumber "30" 30)]);
     ("rotation_rate", JNumber "7200" 7200);
     ("temperature", JObject [("current", JNumber "35" 35)]);
     ("power_cycle_count", JNumber "42" 42);
     ("ata_device_statistics",
      JObject [("pages",
        JArray [JObject [("name", JString "General Statistics");
                         ("table",
                          JArray [JObject [("name", JString "Lifetime Power-On Resets");
                                           ("value", JNumber "42" 42);
                                           ("flags", JObject [("string", JString "V---");
                                                              ("valid", JTrue);
                                                              ("normalized", JFalse)])]])]])]);
     ("nvme_smart_health_information_log",
      JObject [("critical_warning", JNumber "0" 0);
               ("available_spare", JNumber "100" 100);
               ("media_errors", JNumber "0" 0);
               ("percentage_used", JNumber "1" 1)]);
     ("smart_status", JObject [("passed", JTrue)])]).

(** The report of a disk with the serial number Z1D5XXXX. *)
Definition fullReport : gjson.Result := diskReport "Z1D5XXXX".

(** The same report for a disk whose serial number is the single byte
    0xFF, which is not valid UTF-8. *)
Definition badSerialFullReport : gjson.Result :=
  diskReport (String "255"%char EmptyString).

(** The report of a device about which smartctl says nothing: [{}]. *)
Definition emptyReport : gjson.Result := gjson.Found (JObject []).

(** ** What a pass leaves behind *)

(** The mapper after [obs] has been sent on its channel. *)
Definition emit (smart : SMARTctl) (obs : list Metric) : SMARTctl :=
  {| ch := ch smart ++ obs; json := json smart; smartDevice := smartDevice smart |}.

Definition sends (st : State) (obs : list Metric) : State :=
  {| self := emit (self st) obs; fastrand := fastrand st |}.

(** The runtime after [k] map iterations have been started. *)
Definition draws (k : nat) (st : State) : State :=
  {| self := self st;
     fastrand := Nat.iter k (fun rnd n => rnd (S n)) (fastrand st) |}.

(** The four identity label values, in the order every descriptor of the
    catalog lists their names. *)
Definition identity (smart : SMARTctl) : list string :=
  [device (smartDevice smart);
   family (smartDevice smart);
   model (smartDevice smart);
   serial (smartDevice smart)].

(** An observation, as [MustNewConstMetric] builds it. *)
Definition observation (d : Desc) (valueType : ValueType) (value : float)
    (labels : list string) : Metric :=
  {| desc := d; valType := valueType; val := value; labelValues := labels |}.

Definition gauge (d : Desc) (value : float) (labels : list string) : Metric :=
  observation d GaugeValue value labels.

Definition counter (d : Desc) (value : float) (labels : list string) : Metric :=
  observation d CounterValue value labels.

(** Can the observation be built: are all its label values valid UTF-8? *)
Definition validMetric (m : Metric) : bool :=
  forallb utf8.ValidString (labelValues m).

(** The observations of a sequence up to the first that cannot be built. *)
Fixpoint upToInvalid (obs : list Metric) : list Metric :=
  match obs with
  | [] => []
  | m :: rest => if validMetric m then m :: upToInvalid rest else []
  end.

(** How the building of a sequence of observations ends: with a panic at
    the first label value that is not valid UTF-8, if there is one. *)
Definition outcome (obs : list Metric) : result unit :=
  if forallb validMetric obs then Return tt else Panic errInvalidUTF8.

(** A computation finishes on [obs] when it builds and sends the
    observations [obs] one after the other, returns if all could be
    built, and panics at the first that could not, with those before it
    sent. *)
Definition finishes (m : Go unit) (st : State) (obs : list Metric) : Prop :=
  exists k, m st = (outcome obs, draws k (sends st (upToInvalid obs))).

(** The entries of the map literal of [mineDeviceAttribute], as written. *)
Definition attributeValueTypes : list (string * string) :=
  [("value", "value");
   ("worst", "worst");
   ("thresh", "thresh");
   ("raw", "raw.value")].

Definition attributeFlags : list string :=
  ["prefailure"; "updated_online"; "performance"; "error_rate"; "event_count";
   "auto_keep"].

Definition statisticFlags : list string :=
  ["valid"; "normalized"; "supports_dsn"; "monitored_condition_met"].

Section Observations.

Context `{GoLib}.

(** The observation of one attribute under one entry of the map literal. *)
Definition attributeObservation (smart : SMARTctl) (attribute : gjson.Result)
    (kv : string * string) : Metric :=
  gauge metricDeviceAttribute
    (gjson.Float (gjson.Get attribute (snd kv)))
    (identity smart ++
     [strings.TrimSpace (gjson.String (gjson.Get attribute "name"));
      strings.TrimSpace (gjson.String (gjson.Get attribute "flags.string"));
      mineLongFlags (gjson.Get attribute "flags") attributeFlags;
      fst kv;
      gjson.String (gjson.Get attribute "id")]).

(** The observations of the attribute table when the successive map
    iterations start from the draws [rnd 0], [rnd 1], ... *)
Fixpoint attributeObservations (smart : SMARTctl) (rnd : nat -> nat)
    (attributes : list gjson.Result) : list Metric :=
  match attributes with
  | [] => []
  | attribute :: rest =>
      map (attributeObservation smart attribute) (permute (rnd 0) attributeValueTypes)
      ++ attributeObservations smart (fun n => rnd (S n)) rest
  end.

Definition statisticObservation (smart : SMARTctl) (page statistic : gjson.Result)
    : Metric :=
  gauge metricDeviceStatistics
    (gjson.Float (gjson.Get statistic "value"))
    (identity smart ++
     [strings.TrimSpace (gjson.String (gjson.Get page "name"));
      strings.TrimSpace (gjson.String (gjson.Get statistic "name"));
      strings.TrimSpace (gjson.String (gjson.Get statistic "flags.string"));
      mineLongFlags (gjson.Get statistic "flags") statisticFlags]).

Definition temperatureObservation (smart : SMARTctl)
    (entry : gjson.Result * gjson.Result) : Metric :=
  gauge metricDeviceTemperature
    (gjson.Float (snd entry))
    (identity smart ++ [gjson.String (fst entry)]).

(** The four observations of the NVMe health log. *)
Definition nvmeObservations (smart : SMARTctl) : list Metric :=
  let iHealth := gjson.Get (json smart) "nvme_smart_health_information_log" in
  [gauge metricCriticalWarning
     (gjson.Float (gjson.Get iHealth "critical_warning")) (identity smart);
   gauge metricAvailableSpare
     (gjson.Float (gjson.Get iHealth "available_spare")) (identity smart);
   gauge metricMediaErrors
     (gjson.Float (gjson.Get iHealth "media_errors")) (identity smart);
   gauge metricPercentageUsed
     (gjson.Float (gjson.Get iHealth "percentage_used")) (identity smart)].

Definition exitStatusObservations (smart : SMARTctl) : list Metric :=
  [gauge metricDeviceExitStatus
     (gjson.Float (gjson.Get (json smart) "smartctl.exit_status"))
     (identity smart)].

Definition deviceObservations (smart : SMARTctl) : list Metric :=
  let device_ := gjson.Get (json smart) "device" in
  [gauge metricDeviceModel 1
     [device (smartDevice smart);
      gjson.String (gjson.Get device_ "type");
      gjson.String (gjson.Get device_ "protocol");
      family (smartDevice smart);
      model (smartDevice smart);
      serial (smartDevice smart);
      GetStringIfExists (json smart) "ata_additional_product_id" "unknown";
      gjson.String (gjson.Get (json smart) "firmware_version");
      gjson.String (gjson.Get (json smart) "ata_version.string");
      gjson.String (gjson.Get (json smart) "sata_version.string")]].

Definition blockSizeObservation (smart : SMARTctl) (blockType : string) : Metric :=
  gauge metricDeviceBlockSize
    (gjson.Float (gjson.Get (json smart) (blockType ++ "_block_size")))
    (identity smart ++ [blockType]).

Definition capacityObservations (smart : SMARTctl) : list Metric :=
  let capacity := gjson.Get (json smart) "user_capacity" in
  [gauge metricDeviceCapacityBlocks
     (gjson.Float (gjson.Get capacity "blocks")) (identity smart);
   gauge metricDeviceCapacityBytes
     (gjson.Float (gjson.Get capacity "bytes")) (identity smart);
   blockSizeObservation smart "logical";
   blockSizeObservation smart "physical"].

Definition interfaceSpeedObservation (smart : SMARTctl) (speedType : string)
    : Metric :=
  let tSpeed := gjson.Get (gjson.Get (json smart) "interface_speed") speedType in
  gauge metricDeviceInterfaceSpeed
    (gjson.Float (gjson.Get tSpeed "units_per_second")
     * gjson.Float (gjson.Get tSpeed "bits_per_unit"))%float
    (identity smart ++ [speedType]).

Definition interfaceSpeedObservations (smart : SMARTctl) : list Metric :=
  [interfaceSpeedObservation smart "max";
   interfaceSpeedObservation smart "current"].

Definition powerOnObservations (smart : SMARTctl) : list Metric :=
  let pot := gjson.Get (json smart) "power_on_time" in
  [counter metricDevicePowerOnSeconds
     (GetFloatIfExists pot "hours" 0 * 60 * 60
      + GetFloatIfExists pot "minutes" 0 * 60)%float
     (identity smart)].

Definition rotationRateObservations (smart : SMARTctl) : list Metric :=
  let rRate := GetFloatIfExists (json smart) "rotation_rate" 0 in
  if (0 <? rRate)%float
  then [gauge metricDeviceRotationRate rRate (identity smart)]
  else [].

Definition temperatureObservations (smart : SMARTctl) : list Metric :=
  map (temperatureObservation smart)
    (gjson.entries (gjson.Get (json smart) "temperature")).

Definition powerCycleObservations (smart : SMARTctl) : list Metric :=
  [counter metricDevicePowerCycleCount
     (gjson.Float (gjson.Get (json smart) "power_cycle_count"))
     (identity smart)].

Definition statisticsObservations (smart : SMARTctl) : list Metric :=
  flat_map
    (fun page =>
       map (statisticObservation smart page)
         (gjson.Array (gjson.Get page "table")))
    (gjson.Array (gjson.Get (json smart) "ata_device_statistics.pages")).

Definition smartStatusObservations (smart : SMARTctl) : list Metric :=
  [gauge metricSmartStatus
     (gjson.Float (gjson.Get (gjson.Get (json smart) "smart_status") "passed"))
     (identity smart)].

(** The rows of the attribute table. *)
Definition attributeTable (smart : SMARTctl) : list gjson.Result :=
  gjson.Array (gjson.Get (json smart) "ata_smart_attributes.table").

(** Everything one pass sends, sub-step after sub-step. *)
Definition observations (smart : SMARTctl) (rnd : nat -> nat) : list Metric :=
  exitStatusObservations smart
  ++ deviceObservations smart
  ++ capacityObservations smart
  ++ interfaceSpeedObservations smart
  ++ attributeObservations smart rnd (attributeTable smart)
  ++ powerOnObservations smart
  ++ rotationRateObservations smart
  ++ temperatureObservations smart
  ++ powerCycleObservations smart
  ++ statisticsObservations smart
  ++ nvmeObservations smart
  ++ smartStatusObservations smart.

End Observations.

(** What a computation has sent, beyond what the channel held before. *)
Definition sentBy (m : Go unit) (st : State) : list Metric :=
  skipn (List.length (ch (self st))) (ch (self (snd (m st)))).

(** ** Readings used in the statements *)

(** The test [mineLongFlags] makes of one candidate: the flag exists in
    the sub-tree and is true. *)
Definition flagSet `{GoLib} (json : gjson.Result) (flag : string) : bool :=
  gjson.Exists (gjson.Get json flag) && gjson.Bool (gjson.Get json flag).

(** The flags [{prefailure: true, performance: false, auto_keep: true}]. *)
Definition flagsExample : gjson.Result :=
  gjson.Found (JObject [("prefailure", JTrue);
                        ("performance", JFalse);
                        ("auto_keep", JTrue)]).

(** A whole number as a [float64]. *)
Definition whole (z : Z) : float := PrimFloat.of_uint63 (Uint63.of_Z z).

(** For [z] whole hours, do [z*60*60] and [z*3600] round to the same
    [float64]? *)
Definition sameSeconds (z : Z) : bool :=
  Leibniz.eqb (whole z * 60 * 60)%float (whole z * 3600)%float.

(** One step of the check of [sameSeconds] over a range: the next number
    to check, and whether all went well so far. *)
Definition checkNext (s : Z * bool) : Z * bool :=
  (Z.succ (fst s), snd s && sameSeconds (fst s)).

(** A report whose maximum interface speed has no ["units_per_second"]
    and a ["bits_per_unit"] beyond the range of [float64], which
    [strconv.ParseFloat] reads as +Inf: [1e999]. *)
Definition overflowSpeedReport : gjson.Result :=
  gjson.Found (JObject
    [("interface_speed",
      JObject [("max", JObject [("bits_per_unit", JNumber "1e999" infinity)])])]).

(** A report whose maximum interface speed has no ["units_per_second"]. *)
Definition halfSpeedReport : gjson.Result :=
  gjson.Found (JObject
    [("interface_speed",
      JObject [("max", JObject [("bits_per_unit", JNumber "1000000000" 1000000000)])])]).

(** A report with the usual SATA encoding of 6 Gb/s. *)
Definition sataSpeedReport : gjson.Result :=
  gjson.Found (JObject
    [("interface_speed",
      JObject [("max", JObject [("units_per_second", JNumber "6" 6);
                                ("bits_per_unit", JNumber "1000000000" 1000000000)])])]).

(** Are the four identity label values valid UTF-8? *)
Definition validIdentity (smart : SMARTctl) : bool :=
  forallb utf8.ValidString (identity smart).

(** What a sequence of sub-steps sends when each is run in turn, on the
    state the one before it left, and the first panic ends the run. *)
Fixpoint sentInTurn (steps : list (Go unit)) (st : State) : list Metric :=
  match steps with
  | [] => []
  | step :: rest =>
      sentBy step st
      ++ match step st with
         | (Return _, st') => sentInTurn rest st'
         | (Panic _, _) => []
         end
  end.

(** Computations that do nothing but build and send observations and draw
    from the runtime. *)
Definition sendsOnly (m : Go unit) : Prop :=
  forall st, exists obs, finishes m st obs.

(** The sub-steps of a sequence called one after the other. *)
Fixpoint inTurn (steps : list (Go unit)) : Go unit :=
  match steps with
  | [] => ret tt
  | step :: rest =>
      match rest with
      | [] => step
      | _ :: _ => step ;; inTurn rest
      end
  end.

(** A report with 1.1 power-on hours (the nearest [float64]) and no
    minutes. *)
Definition fractionalHoursReport : gjson.Result :=
  gjson.Found (JObject
    [("power_on_time", JObject [("hours", JNumber "1.1" 0x1.199999999999ap+0)])]).

(** A spinning disk whose serial number is the single byte 0xFF, which is
    not valid UTF-8. *)
Definition badSerialReport : gjson.Result :=
  gjson.Found (JObject
    [("serial_number", JString (String "255"%char EmptyString));
     ("rotation_rate", JNumber "7200" 7200)]).

(** A solid-state disk that failed its self-test: rotation rate 0, the
    temperature given as a bare number, one statistics page without a
    table, and a maximum interface speed without ["bits_per_unit"]. *)
Definition failedSsdReport : gjson.Result :=
  gjson.Found (JObject
    [("smart_status", JObject [("passed", JFalse)]);
     ("rotation_rate", JNumber "0" 0);
     ("temperature", JNumber "35" 35);
     ("ata_device_statistics",
      JObject [("pages", JArray [JObject [("name", JString "General Statistics")]])]);
     ("interface_speed",
      JObject [("max", JObject [("units_per_second", JNumber "6" 6)])])]).

(** A report with a capacity in bytes only and a logical block size only. *)
Definition partialCapacityReport : gjson.Result :=
  gjson.Found (JObject
    [("user_capacity", JObject [("bytes", JNumber "1000204886016" 1000204886016)]);
     ("logical_block_size", JNumber "512" 512)]).

Section Declared.

Context `{GoLib}.

(** The identity labels of an observation, read by label name. *)
Definition carriesIdentity (smart : SMARTctl) (m : Metric) : Prop :=
  label m "device" = Some (device (smartDevice smart))
  /\ label m "model_family" = Some (family (smartDevice smart))
  /\ label m "model_name" = Some (model (smartDevice smart))
  /\ label m "serial_number" = Some (serial (smartDevice smart)).

(** What the labels beyond the identity hold, read by label name, for the
    metrics that have any. *)
Definition carriesOwnLabels (smart : SMARTctl) (m : Metric) : Prop :=
  (desc m = metricDeviceModel ->
   label m "interface"
   = Some (gjson.String (gjson.Get (gjson.Get (json smart) "device") "type"))
   /\ label m "protocol"
      = Some (gjson.String (gjson.Get (gjson.Get (json smart) "device") "protocol"))
   /\ label m "ata_additional_product_id"
      = Some (GetStringIfExists (json smart) "ata_additional_product_id" "unknown")
   /\ label m "firmware_version"
      = Some (gjson.String (gjson.Get (json smart) "firmware_version"))
   /\ label m "ata_version"
      = Some (gjson.String (gjson.Get (json smart) "ata_version.string"))
   /\ label m "sata_version"
      = Some (gjson.String (gjson.Get (json smart) "sata_version.string")))
  /\ (desc m = metricDeviceBlockSize ->
      exists blockType,
        In blockType ["logical"; "physical"]
        /\ label m "blocks_type" = Some blockType
        /\ val m = gjson.Float (gjson.Get (json smart) (blockType ++ "_block_size")))
  /\ (desc m = metricDeviceInterfaceSpeed ->
      exists speedType,
        In speedType ["max"; "current"]
        /\ label m "speed_type" = Some speedType)
  /\ (desc m = metricDeviceAttribute ->
      exists attribute kv,
        In attribute (attributeTable smart)
        /\ In kv attributeValueTypes
        /\ label m "attribute_name"
           = Some (strings.TrimSpace (gjson.String (gjson.Get attribute "name")))
        /\ label m "attribute_flags_short"
           = Some (strings.TrimSpace
                     (gjson.String (gjson.Get attribute "flags.string")))
        /\ label m "attribute_flags_long"
           = Some (mineLongFlags (gjson.Get attribute "flags") attributeFlags)
        /\ label m "attribute_value_type" = Some (fst kv)
        /\ label m "attribute_id"
           = Some (gjson.String (gjson.Get attribute "id"))
        /\ val m = gjson.Float (gjson.Get attribute (snd kv)))
  /\ (desc m = metricDeviceTemperature ->
      exists entry,
        In entry (gjson.entries (gjson.Get (json smart) "temperature"))
        /\ label m "temperature_type" = Some (gjson.String (fst entry))
        /\ val m = gjson.Float (snd entry))
  /\ (desc m = metricDeviceStatistics ->
      exists page statistic,
        In page (gjson.Array (gjson.Get (json smart) "ata_device_statistics.pages"))
        /\ In statistic (gjson.Array (gjson.Get page "table"))
        /\ label m "statistic_table"
           = Some (strings.TrimSpace (gjson.String (gjson.Get page "name")))
        /\ label m "statistic_name"
           = Some (strings.TrimSpace (gjson.String (gjson.Get statistic "name")))
        /\ label m "statistic_flags_short"
           = Some (strings.TrimSpace
                     (gjson.String (gjson.Get statistic "flags.string")))
        /\ label m "statistic_flags_long"
           = Some (mineLongFlags (gjson.Get statistic "flags") statisticFlags)).

(** An observation against a descriptor of the catalog with as many label
    values as the descriptor has label names, each value under the name
    it is meant for. *)
Definition wellLabelled (smart : SMARTctl) (m : Metric) : Prop :=
  In (desc m) catalog
  /\ List.length (labelValues m) = List.length (variableLabels (desc m))
  /\ carriesIdentity smart m
  /\ carriesOwnLabels smart m.

(** A well labelled observation that [NewConstMetric] builds. *)
Definition labelledAsDeclared (smart : SMARTctl) (m : Metric) : Prop :=
  wellLabelled smart m
  /\ NewConstMetric (desc m) (valType m) (val m) (labelValues m) = inl m.

(** The twelve sub-steps, in the order [Collect] calls them. *)
Definition subSteps : list (Go unit) :=
  [mineExitStatus; mineDevice; mineCapacity; mineInterfaceSpeed;
   mineDeviceAttribute; minePowerOnSeconds; mineRotationRate; mineTemperatures;
   minePowerCycleCount; mineDeviceStatistics; mineNvmeSmartHealthInformationLog;
   mineSmartStatus].

End Declared.

Section Passes.

Context `{GoLib}.

(** A pass over a report is deterministic when it sends the same sequence
    whatever the runtime draws for its map iterations. *)
Definition deterministicPass (json : gjson.Result) : Prop :=
  forall rnd1 rnd2 : nat -> nat,
    sentBy Collect (start json rnd1) = sentBy Collect (start json rnd2).

(** The sub-steps that iterate over no map: all but [mineDeviceAttribute]. *)
Definition mapFreeSubSteps : list (Go unit) :=
  [mineExitStatus; mineDevice; mineCapacity; mineInterfaceSpeed;
   minePowerOnSeconds; mineRotationRate; mineTemperatures;
   minePowerCycleCount; mineDeviceStatistics; mineNvmeSmartHealthInformationLog;
   mineSmartStatus].

(** The observations of the attribute table, row by row. *)
Fixpoint attributeBlocks (smart : SMARTctl) (rnd : nat -> nat)
    (attributes : list gjson.Result) : list (list Metric) :=
  match attributes with
  | [] => []
  | attribute :: rest =>
      map (attributeObservation smart attribute) (permute (rnd 0) attributeValueTypes)
      :: attributeBlocks smart (fun n => rnd (S n)) rest
  end.

(** The number of statistics entries over all pages. *)
Definition statisticsEntries (pages : list gjson.Result) : nat :=
  list_sum (map (fun page => List.length (gjson.Array (gjson.Get page "table"))) pages).

(** The counts of C4 as it is stated, for a report with every documented
    field: one observation for each of the steps 1, 2, 6, 9 and 12, two
    for step 4, three for step 3, and one per entry for the attribute
    table, the temperatures and the statistics. *)
Definition countsAsClaimed (json : gjson.Result) : Prop :=
  forall rnd,
    let st := start json rnd in
    List.length (sentBy mineExitStatus st) = 1
    /\ List.length (sentBy mineDevice st) = 1
    /\ List.length (sentBy mineCapacity st) = 3
    /\ List.length (sentBy mineInterfaceSpeed st) = 2
    /\ List.length (sentBy mineDeviceAttribute st)
       = List.length (attributeTable (self st))
    /\ List.length (sentBy minePowerOnSeconds st) = 1
    /\ List.length (sentBy mineTemperatures st)
       = List.length (gjson.entries (gjson.Get json "temperature"))
    /\ List.length (sentBy minePowerCycleCount st) = 1
    /\ List.length (sentBy mineDeviceStatistics st)
       = statisticsEntries
           (gjson.Array (gjson.Get json "ata_device_statistics.pages"))
    /\ List.length (sentBy mineSmartStatus st) = 1.

End Passes.

(** * Properties *)

(** ** The monad and the loops *)

Lemma emit_nil (smart : SMARTctl) : emit smart [] = smart.
Proof.
  destruct smart as [c j d]. unfold emit. simpl. now rewrite app_nil_r.
Qed.

Lemma sends_nil (st : State) : sends st [] = st.
Proof.
  destruct st as [smart rnd]. unfold sends. simpl. now rewrite emit_nil.
Qed.

Lemma sends_app (st : State) (a b : list Metric) :
  sends (sends st a) b = sends st (a ++ b).
Proof.
  unfold sends, emit. simpl. now rewrite app_assoc.
Qed.

Lemma draws_zero (st : State) : draws 0 st = st.
Proof.
  now destruct st.
Qed.

Lemma draws_sends (n : nat) (st : State) (a b : list Metric) :
  draws n (sends (draws 1 (sends st a)) b) = draws (S n) (sends st (a ++ b)).
Proof.
  unfold draws, sends, emit. simpl. rewrite app_assoc. f_equal.
  induction n as [|n IH]; simpl; auto. now rewrite IH.
Qed.

Lemma draws_draws (n k : nat) (st : State) (a b : list Metric) :
  draws k (sends (draws n (sends st a)) b) = draws (k + n) (sends st (a ++ b)).
Proof.
  unfold draws, sends, emit. simpl. rewrite app_assoc. f_equal.
  now rewrite Nat.iter_add.
Qed.

Lemma flat_map_single {A B : Type} (f : A -> B) (l : list A) :
  flat_map (fun x => [f x]) l = map f l.
Proof.
  induction l as [|x l IH]; simpl; congruence.
Qed.

(** ** Building observations until one fails *)

Lemma upToInvalid_all (obs : list Metric) :
  forallb validMetric obs = true -> upToInvalid obs = obs.
Proof.
  induction obs as [|m rest IH]; simpl; [reflexivity|].
  destruct (validMetric m); simpl; [|discriminate].
  intros Hrest. now rewrite IH.
Qed.

Lemma upToInvalid_app (a b : list Metric) :
  upToInvalid (a ++ b)
  = if forallb validMetric a then a ++ upToInvalid b else upToInvalid a.
Proof.
  induction a as [|m rest IH]; simpl; [reflexivity|].
  destruct (validMetric m); simpl; [|reflexivity].
  rewrite IH. now destruct (forallb validMetric rest).
Qed.

Lemma outcome_app (a b : list Metric) :
  outcome (a ++ b)
  = if forallb validMetric a then outcome b else Panic errInvalidUTF8.
Proof.
  unfold outcome. rewrite forallb_app.
  now destruct (forallb validMetric a).
Qed.

Lemma upToInvalid_incl (obs : list Metric) (m : Metric) :
  In m (upToInvalid obs) -> In m obs /\ validMetric m = true.
Proof.
  induction obs as [|m' rest IH]; simpl; [tauto|].
  destruct (validMetric m') eqn:E; simpl; [|tauto].
  intros [<-|Hin]; [auto|]. destruct (IH Hin). auto.
Qed.

Lemma upToInvalid_Forall (P : Metric -> Prop) (obs : list Metric) :
  Forall P obs -> Forall (fun m => P m /\ validMetric m = true) (upToInvalid obs).
Proof.
  intros HP. apply Forall_forall. intros m Hm.
  destruct (upToInvalid_incl _ _ Hm) as [Hin Hvalid].
  split; [|exact Hvalid]. now apply (proj1 (Forall_forall P obs) HP).
Qed.

Lemma finishes_exact (m : Go unit) (st : State) (obs : list Metric) :
  m st = (outcome obs, sends st (upToInvalid obs)) -> finishes m st obs.
Proof.
  intros E. exists 0. now rewrite draws_zero.
Qed.

Arguments finishes_exact {m st obs} _.

Lemma finishes_seq (m1 k : Go unit) (st : State) (o1 o2 : list Metric) :
  finishes m1 st o1 ->
  (forall n, finishes k (draws n (sends st o1)) o2) ->
  finishes (bind m1 (fun _ => k)) st (o1 ++ o2).
Proof.
  intros [n E1] Hk. unfold finishes, bind. rewrite E1.
  rewrite outcome_app, upToInvalid_app. unfold outcome at 1.
  destruct (forallb validMetric o1) eqn:Hvalid.
  - rewrite (upToInvalid_all _ Hvalid).
    destruct (Hk n) as [n' E2]. rewrite E2, draws_draws. now exists (n' + n).
  - now exists n.
Qed.

Lemma exact_seq (m1 k : Go unit) (st : State) (o1 o2 : list Metric) :
  m1 st = (outcome o1, sends st (upToInvalid o1)) ->
  finishes k (sends st o1) o2 ->
  finishes (bind m1 (fun _ => k)) st (o1 ++ o2).
Proof.
  intros E1 [n' E2]. unfold finishes, bind. rewrite E1.
  rewrite outcome_app, upToInvalid_app. unfold outcome at 1.
  destruct (forallb validMetric o1) eqn:Hvalid.
  - rewrite (upToInvalid_all _ Hvalid), E2.
    exists n'. unfold draws, sends, emit. simpl. now rewrite app_assoc.
  - exists 0. now rewrite draws_zero.
Qed.

Lemma seq_sends (m1 k : Go unit) (st : State) (o1 o2 : list Metric) :
  m1 st = (outcome o1, sends st (upToInvalid o1)) ->
  k (sends st o1) = (outcome o2, sends (sends st o1) (upToInvalid o2)) ->
  bind m1 (fun _ => k) st = (outcome (o1 ++ o2), sends st (upToInvalid (o1 ++ o2))).
Proof.
  intros E1 E2. unfold bind. rewrite E1.
  rewrite outcome_app, upToInvalid_app. unfold outcome at 1.
  destruct (forallb validMetric o1) eqn:Hvalid; [|reflexivity].
  now rewrite (upToInvalid_all _ Hvalid), E2, sends_app.
Qed.

Lemma sentBy_finishes (m : Go unit) (st : State) (obs : list Metric) :
  finishes m st obs ->
  sentBy m st = upToInvalid obs /\ fst (m st) = outcome obs.
Proof.
  intros [k E]. unfold sentBy. rewrite E. simpl. split; [|reflexivity].
  rewrite skipn_app, skipn_all, Nat.sub_diag. reflexivity.
Qed.

Arguments sentBy_finishes {m st obs} _.

Lemma must_build (d : Desc) (valueType : ValueType) (value : float)
    (labels : list string) :
  List.length labels = List.length (variableLabels d) ->
  MustNewConstMetric d valueType value labels
  = if forallb utf8.ValidString labels
    then Return (observation d valueType value labels)
    else Panic errInvalidUTF8.
Proof.
  intros Hlen. unfold MustNewConstMetric, NewConstMetric, validateLabelValues.
  rewrite Hlen, Nat.eqb_refl. simpl.
  now destruct (forallb utf8.ValidString labels).
Qed.

Lemma send_last (d : Desc) (valueType : ValueType) (value : float)
    (labels : list string) (st : State) :
  List.length labels = List.length (variableLabels d) ->
  bind (must (MustNewConstMetric d valueType value labels)) send st
  = (outcome [observation d valueType value labels],
     sends st (upToInvalid [observation d valueType value labels])).
Proof.
  intros Hlen. unfold bind, must, outcome. rewrite (must_build _ _ _ _ Hlen).
  simpl. unfold validMetric. simpl.
  destruct (forallb utf8.ValidString labels); simpl.
  - reflexivity.
  - now rewrite sends_nil.
Qed.

Lemma bind_send (m : Metric) (k : Go unit) (st : State) :
  bind (send m) (fun _ => k) st = k (sends st [m]).
Proof. reflexivity. Qed.

Lemma send_then (d : Desc) (valueType : ValueType) (value : float)
    (labels : list string) (k : Go unit) (st : State) (rest : list Metric) :
  List.length labels = List.length (variableLabels d) ->
  k (sends st [observation d valueType value labels])
  = (outcome rest,
     sends (sends st [observation d valueType value labels]) (upToInvalid rest)) ->
  bind (must (MustNewConstMetric d valueType value labels))
    (fun m => bind (send m) (fun _ => k)) st
  = (outcome (observation d valueType value labels :: rest),
     sends st (upToInvalid (observation d valueType value labels :: rest))).
Proof.
  intros Hlen Hk. unfold bind at 1. unfold must. rewrite (must_build _ _ _ _ Hlen).
  unfold outcome. cbn [forallb upToInvalid].
  change (validMetric (observation d valueType value labels))
    with (forallb utf8.ValidString labels).
  destruct (forallb utf8.ValidString labels).
  - rewrite bind_send, Hk, sends_app. reflexivity.
  - now rewrite sends_nil.
Qed.

Lemma forRange_sends {A : Type} (f : A -> list Metric) (body : A -> Go unit)
    (xs : list A) :
  (forall x st, body x st = (outcome (f x), sends st (upToInvalid (f x)))) ->
  forall st,
    forRange xs body st
    = (outcome (flat_map f xs), sends st (upToInvalid (flat_map f xs))).
Proof.
  intros Hbody. induction xs as [|x rest IH]; intros st; simpl.
  - unfold ret. now rewrite sends_nil.
  - apply seq_sends; [apply Hbody | apply IH].
Qed.

Lemma forEachEntry_sends (g : gjson.Result * gjson.Result -> Metric)
    (iterator : gjson.Result -> gjson.Result -> Go bool)
    (es : list (gjson.Result * gjson.Result)) :
  (forall key value st,
      iterator key value st
      = (if validMetric (g (key, value)) then Return true else Panic errInvalidUTF8,
         sends st (upToInvalid [g (key, value)]))) ->
  forall st,
    forEachEntry es iterator st
    = (outcome (map g es), sends st (upToInvalid (map g es))).
Proof.
  intros Hit. induction es as [|[key value] rest IH]; intros st; simpl.
  - unfold ret. now rewrite sends_nil.
  - unfold bind. rewrite Hit. unfold outcome. simpl.
    destruct (validMetric (g (key, value))); simpl.
    + rewrite IH, sends_app. reflexivity.
    + reflexivity.
Qed.

(** ** Map iteration orders *)

Lemma insertAt_perm {A : Type} (i : nat) (x : A) (l : list A) :
  Permutation (insertAt i x l) (x :: l).
Proof.
  revert i. induction l as [|y l IH]; intros [|i]; simpl; auto.
  rewrite IH. apply perm_swap.
Qed.

Lemma permute_perm {A : Type} (seed : nat) (l : list A) :
  Permutation (permute seed l) l.
Proof.
  revert seed. induction l as [|x l IH]; intros seed; simpl; auto.
  rewrite insertAt_perm. constructor. apply IH.
Qed.

Lemma permute_zero {A : Type} (l : list A) : permute 0 l = l.
Proof.
  induction l as [|x l IH]; simpl; auto.
  rewrite Nat.sub_diag. simpl. now rewrite IH.
Qed.

(** ** The sub-steps, one by one *)

Lemma bind_receiver {A : Type} (k : SMARTctl -> Go A) (st : State) :
  bind receiver k st = k (self st) st.
Proof. reflexivity. Qed.

Lemma send_ret_true (d : Desc) (valueType : ValueType) (value : float)
    (labels : list string) (st : State) :
  List.length labels = List.length (variableLabels d) ->
  bind (must (MustNewConstMetric d valueType value labels))
    (fun m => bind (send m) (fun _ => ret true)) st
  = (if validMetric (observation d valueType value labels)
     then Return true else Panic errInvalidUTF8,
     sends st (upToInvalid [observation d valueType value labels])).
Proof.
  intros Hlen. unfold bind at 1. unfold must. rewrite (must_build _ _ _ _ Hlen).
  cbn [upToInvalid].
  change (validMetric (observation d valueType value labels))
    with (forallb utf8.ValidString labels).
  destruct (forallb utf8.ValidString labels).
  - reflexivity.
  - now rewrite sends_nil.
Qed.

Section SubSteps.

Context `{GoLib}.

Lemma mineExitStatus_sends (st : State) :
  mineExitStatus st
  = (outcome (exitStatusObservations (self st)),
     sends st (upToInvalid (exitStatusObservations (self st)))).
Proof.
  unfold mineExitStatus. rewrite bind_receiver.
  unfold exitStatusObservations, gauge. now apply send_last.
Qed.

Lemma mineDevice_sends (st : State) :
  mineDevice st
  = (outcome (deviceObservations (self st)),
     sends st (upToInvalid (deviceObservations (self st)))).
Proof.
  unfold mineDevice. rewrite bind_receiver.
  unfold deviceObservations, gauge. now apply send_last.
Qed.

Lemma mineCapacity_sends (st : State) :
  mineCapacity st
  = (outcome (capacityObservations (self st)),
     sends st (upToInvalid (capacityObservations (self st)))).
Proof.
  unfold mineCapacity. rewrite bind_receiver.
  unfold capacityObservations, gauge, identity.
  apply send_then; [reflexivity|].
  apply send_then; [reflexivity|].
  change [blockSizeObservation (self st) "logical";
          blockSizeObservation (self st) "physical"]
    with (flat_map (fun blockType => [blockSizeObservation (self st) blockType])
            ["logical"; "physical"]).
  apply forRange_sends.
  intros blockType st'. unfold blockSizeObservation, gauge, identity.
  now apply send_last.
Qed.

Lemma mineInterfaceSpeed_sends (st : State) :
  mineInterfaceSpeed st
  = (outcome (interfaceSpeedObservations (self st)),
     sends st (upToInvalid (interfaceSpeedObservations (self st)))).
Proof.
  unfold mineInterfaceSpeed. rewrite bind_receiver.
  change (interfaceSpeedObservations (self st))
    with (flat_map (fun speedType => [interfaceSpeedObservation (self st) speedType])
            ["max"; "current"]).
  apply forRange_sends.
  intros speedType st'. unfold interfaceSpeedObservation, gauge, identity.
  now apply send_last.
Qed.

Lemma forRangeMap_attribute (smart : SMARTctl) (attribute : gjson.Result)
    (body : string -> string -> Go unit) :
  (forall key path st,
      body key path st
      = (outcome [attributeObservation smart attribute (key, path)],
         sends st (upToInvalid [attributeObservation smart attribute (key, path)]))) ->
  forall st,
    forRangeMap attributeValueTypes body st
    = (outcome (map (attributeObservation smart attribute)
                  (permute (fastrand st 0) attributeValueTypes)),
       draws 1 (sends st
                  (upToInvalid
                     (map (attributeObservation smart attribute)
                        (permute (fastrand st 0) attributeValueTypes))))).
Proof.
  intros Hbody st. unfold forRangeMap, bind, mapiterinit.
  rewrite (forRange_sends (fun kv => [attributeObservation smart attribute kv])).
  - rewrite flat_map_single. reflexivity.
  - intros [key path] st'. apply Hbody.
Qed.

Lemma forRange_attributes (smart : SMARTctl) (body : gjson.Result -> Go unit)
    (attributes : list gjson.Result) :
  (forall attribute st,
      body attribute st
      = (outcome (map (attributeObservation smart attribute)
                    (permute (fastrand st 0) attributeValueTypes)),
         draws 1 (sends st
                    (upToInvalid
                       (map (attributeObservation smart attribute)
                          (permute (fastrand st 0) attributeValueTypes)))))) ->
  forall st,
    finishes (forRange attributes body) st
      (attributeObservations smart (fastrand st) attributes).
Proof.
  intros Hbody. induction attributes as [|attribute rest IH]; intros st;
    cbn [forRange attributeObservations].
  - apply finishes_exact. unfold ret. now rewrite sends_nil.
  - unfold finishes, bind. rewrite Hbody.
    rewrite outcome_app, upToInvalid_app. unfold outcome at 1.
    destruct (forallb validMetric
                (map (attributeObservation smart attribute)
                   (permute (fastrand st 0) attributeValueTypes))) eqn:Hvalid.
    + rewrite (upToInvalid_all _ Hvalid).
      destruct (IH (draws 1
                      (sends st
                         (map (attributeObservation smart attribute)
                            (permute (fastrand st 0) attributeValueTypes)))))
        as [k E].
      rewrite E, draws_sends. now exists (S k).
    + now exists 1.
Qed.

Lemma mineDeviceAttribute_finishes (st : State) :
  finishes mineDeviceAttribute st
    (attributeObservations (self st) (fastrand st) (attributeTable (self st))).
Proof.
  unfold mineDeviceAttribute, finishes. rewrite bind_receiver.
  apply (forRange_attributes (self st)).
  intros attribute st'. cbv zeta.
  apply (forRangeMap_attribute (self st) attribute).
  intros key path st''. unfold attributeObservation, gauge, identity.
  now apply send_last.
Qed.

Lemma minePowerOnSeconds_sends (st : State) :
  minePowerOnSeconds st
  = (outcome (powerOnObservations (self st)),
     sends st (upToInvalid (powerOnObservations (self st)))).
Proof.
  unfold minePowerOnSeconds. rewrite bind_receiver.
  unfold powerOnObservations, counter. now apply send_last.
Qed.

Lemma mineRotationRate_sends (st : State) :
  mineRotationRate st
  = (outcome (rotationRateObservations (self st)),
     sends st (upToInvalid (rotationRateObservations (self st)))).
Proof.
  unfold mineRotationRate. rewrite bind_receiver.
  unfold rotationRateObservations.
  destruct (0 <? _)%float.
  - unfold gauge. now apply send_last.
  - unfold ret. now rewrite sends_nil.
Qed.

Lemma mineTemperatures_sends (st : State) :
  mineTemperatures st
  = (outcome (temperatureObservations (self st)),
     sends st (upToInvalid (temperatureObservations (self st)))).
Proof.
  unfold mineTemperatures. rewrite bind_receiver.
  unfold temperatureObservations.
  destruct (gjson.Get (json (self st)) "temperature") as [|v] eqn:E;
    cbn [gjson.Exists].
  - unfold ret. now rewrite sends_nil.
  - unfold ForEach.
    apply (forEachEntry_sends (temperatureObservation (self st))).
    intros key value st'. unfold temperatureObservation, gauge, identity.
    now apply send_ret_true.
Qed.

Lemma minePowerCycleCount_sends (st : State) :
  minePowerCycleCount st
  = (outcome (powerCycleObservations (self st)),
     sends st (upToInvalid (powerCycleObservations (self st)))).
Proof.
  unfold minePowerCycleCount. rewrite bind_receiver.
  unfold powerCycleObservations, counter. now apply send_last.
Qed.

Lemma mineDeviceStatistics_sends (st : State) :
  mineDeviceStatistics st
  = (outcome (statisticsObservations (self st)),
     sends st (upToInvalid (statisticsObservations (self st)))).
Proof.
  unfold mineDeviceStatistics. rewrite bind_receiver.
  unfold statisticsObservations.
  apply forRange_sends. intros page st'.
  rewrite <- flat_map_single.
  apply forRange_sends. intros statistic st''.
  unfold statisticObservation, gauge, identity. now apply send_last.
Qed.

Lemma mineNvmeSmartHealthInformationLog_sends (st : State) :
  mineNvmeSmartHealthInformationLog st
  = (outcome (nvmeObservations (self st)),
     sends st (upToInvalid (nvmeObservations (self st)))).
Proof.
  unfold mineNvmeSmartHealthInformationLog. rewrite bind_receiver.
  cbn [gjson.is_nil]. unfold nvmeObservations, gauge.
  apply send_then; [reflexivity|].
  apply send_then; [reflexivity|].
  apply send_then; [reflexivity|].
  now apply send_last.
Qed.

Lemma mineSmartStatus_sends (st : State) :
  mineSmartStatus st
  = (outcome (smartStatusObservations (self st)),
     sends st (upToInvalid (smartStatusObservations (self st)))).
Proof.
  unfold mineSmartStatus. rewrite bind_receiver.
  unfold smartStatusObservations, gauge. now apply send_last.
Qed.

End SubSteps.

(** ** The whole pass *)

Lemma sentBy_exact (m : Go unit) (st : State) (obs : list Metric) :
  m st = (outcome obs, sends st (upToInvalid obs)) ->
  sentBy m st = upToInvalid obs /\ fst (m st) = outcome obs.
Proof.
  intros E. apply sentBy_finishes. now apply finishes_exact.
Qed.

Arguments sentBy_exact {m st obs} _.

Section Pass.

Context `{GoLib}.

(** No sub-step reads the channel: what the attribute step observes is
    the same after more has been sent. *)
Lemma attributeObservations_emit (smart : SMARTctl) (obs : list Metric)
    (rnd : nat -> nat) (attributes : list gjson.Result) :
  attributeObservations (emit smart obs) rnd attributes
  = attributeObservations smart rnd attributes.
Proof.
  revert rnd. induction attributes as [|attribute rest IH]; intros rnd; simpl; auto.
  now rewrite IH.
Qed.

(** A pass builds and sends the observations of the twelve sub-steps in
    their order, one after the other; it returns when all could be built,
    and panics at the first that could not. *)
Lemma Collect_finishes (st : State) :
  finishes Collect st (observations (self st) (fastrand st)).
Proof.
  unfold Collect, observations.
  apply exact_seq; [exact (mineExitStatus_sends st)|].
  apply exact_seq; [exact (mineDevice_sends _)|].
  apply exact_seq; [exact (mineCapacity_sends _)|].
  apply exact_seq; [exact (mineInterfaceSpeed_sends _)|].
  apply finishes_seq.
  { rewrite <- (attributeObservations_emit (self st)
                  (exitStatusObservations (self st) ++ deviceObservations (self st)
                   ++ capacityObservations (self st)
                   ++ interfaceSpeedObservations (self st))).
    repeat rewrite sends_app.
    exact (mineDeviceAttribute_finishes _). }
  intros n.
  apply exact_seq; [exact (minePowerOnSeconds_sends _)|].
  apply exact_seq; [exact (mineRotationRate_sends _)|].
  apply exact_seq; [exact (mineTemperatures_sends _)|].
  apply exact_seq; [exact (minePowerCycleCount_sends _)|].
  apply exact_seq; [exact (mineDeviceStatistics_sends _)|].
  apply exact_seq; [exact (mineNvmeSmartHealthInformationLog_sends _)|].
  apply finishes_exact. exact (mineSmartStatus_sends _).
Qed.

Lemma sentBy_Collect (st : State) :
  sentBy Collect st = upToInvalid (observations (self st) (fastrand st))
  /\ fst (Collect st) = outcome (observations (self st) (fastrand st)).
Proof.
  apply sentBy_finishes, Collect_finishes.
Qed.

End Pass.

(** ** Label values that cannot be built *)

Lemma outcome_single (m : Metric) :
  outcome [m] = if validMetric m then Return tt else Panic errInvalidUTF8.
Proof.
  unfold outcome. simpl. now destruct (validMetric m).
Qed.

Lemma upToInvalid_single (m : Metric) :
  upToInvalid [m] = if validMetric m then [m] else [].
Proof. reflexivity. Qed.

(** Observations that are valid together or not at all are sent together
    or not at all. *)
Lemma all_or_nothing (b : bool) (m : Metric) (obs : list Metric) :
  Forall (fun m' => validMetric m' = b) (m :: obs) ->
  upToInvalid (m :: obs) = (if b then m :: obs else [])
  /\ outcome (m :: obs) = (if b then Return tt else Panic errInvalidUTF8)
  /\ forallb validMetric (m :: obs) = b.
Proof.
  intros Hall. inversion Hall as [|? ? Hm Hobs]; subst.
  destruct (validMetric m) eqn:Hvalid.
  - assert (Hrest : forallb validMetric obs = true).
    { apply forallb_forall. intros m' Hin.
      apply (proj1 (Forall_forall _ obs) Hobs m' Hin). }
    unfold outcome. cbn [upToInvalid forallb]. rewrite Hvalid, Hrest.
    now rewrite (upToInvalid_all _ Hrest).
  - unfold outcome. cbn [upToInvalid forallb]. now rewrite Hvalid.
Qed.

Lemma returns_all_valid (obs : list Metric) :
  outcome obs = Return tt -> forallb validMetric obs = true.
Proof.
  unfold outcome. now destruct (forallb validMetric obs).
Qed.

Lemma outcome_cases (obs : list Metric) :
  outcome obs = Return tt \/ outcome obs = Panic errInvalidUTF8.
Proof.
  unfold outcome. destruct (forallb validMetric obs); auto.
Qed.

(** ** Long flags *)

Section LongFlags.

Context `{GoLib}.

Lemma fold_flags (json : gjson.Result) (flags acc : list string) :
  fold_left
    (fun (result : list string) (flag : string) =>
       let jFlag := gjson.Get json flag in
       if gjson.Exists jFlag && gjson.Bool jFlag then result ++ [flag] else result)
    flags acc
  = acc ++ filter (flagSet json) flags.
Proof.
  revert acc. induction flags as [|flag rest IH]; intros acc; simpl.
  - now rewrite app_nil_r.
  - rewrite IH. unfold flagSet.
    destruct (gjson.Exists (gjson.Get json flag) && gjson.Bool (gjson.Get json flag)).
    + now rewrite <- app_assoc.
    + reflexivity.
Qed.

Lemma mineLongFlags_filter (json : gjson.Result) (flags : list string) :
  mineLongFlags json flags = strings.Join (filter (flagSet json) flags) ",".
Proof.
  unfold mineLongFlags. now rewrite fold_flags.
Qed.

Lemma filter_none {A : Type} (p : A -> bool) (l : list A) :
  existsb p l = false -> filter p l = [].
Proof.
  induction l as [|x l IH]; simpl; auto.
  destruct (p x); simpl; [discriminate | exact IH].
Qed.

(** C5.  [mineLongFlags] returns the names of the candidates that exist
    and are true in the flags sub-tree, in the order of the candidate
    list, joined by commas; for an absent sub-tree, and when no candidate
    is true, it returns the empty string; for the flags
    [{prefailure: true, performance: false, auto_keep: true}] and the six
    attribute candidates it returns ["prefailure,auto_keep"]. *)
Theorem mineLongFlags_joins_set_flags (json : gjson.Result) (flags : list string) :
  mineLongFlags json flags = strings.Join (filter (flagSet json) flags) ","
  /\ mineLongFlags gjson.Missing flags = ""
  /\ (existsb (flagSet json) flags = false -> mineLongFlags json flags = "")
  /\ mineLongFlags flagsExample
       ["prefailure"; "updated_online"; "performance"; "error_rate";
        "event_count"; "auto_keep"]
     = "prefailure,auto_keep".
Proof.
  split; [|split; [|split]].
  - apply mineLongFlags_filter.
  - rewrite mineLongFlags_filter, filter_none; [reflexivity|].
    induction flags as [|flag rest IH]; simpl; auto.
  - intros Hnone. now rewrite mineLongFlags_filter, filter_none.
  - reflexivity.
Qed.

End LongFlags.

(** No candidate is true in [{prefailure: false}]: the long flags are empty. *)
Lemma mineLongFlags_joins_set_flags_witness :
  existsb (@flagSet asciiLib (gjson.Found (JObject [("prefailure", JFalse)])))
    attributeFlags = false
  /\ @mineLongFlags asciiLib (gjson.Found (JObject [("prefailure", JFalse)]))
       attributeFlags = "".
Proof.
  split.
  - reflexivity.
  - apply (proj1 (proj2 (proj2
      (@mineLongFlags_joins_set_flags asciiLib
         (gjson.Found (JObject [("prefailure", JFalse)])) attributeFlags)))).
    reflexivity.
Defined.

(** ** Power-on time *)

Lemma checkNext_fst (n : N) (z0 : Z) (b : bool) :
  fst (N.iter n checkNext (z0, b)) = (z0 + Z.of_N n)%Z.
Proof.
  induction n as [|n IH] using N.peano_ind.
  - simpl. lia.
  - rewrite N.iter_succ. simpl. rewrite IH. lia.
Qed.

Lemma checkNext_snd (n : N) (z0 : Z) (b : bool) :
  snd (N.iter n checkNext (z0, b)) = true ->
  b = true
  /\ forall z, (z0 <= z < z0 + Z.of_N n)%Z -> sameSeconds z = true.
Proof.
  induction n as [|n IH] using N.peano_ind.
  - simpl. intros ->. split; [reflexivity | intros z Hz; lia].
  - rewrite N.iter_succ. simpl. intros Hand.
    apply andb_prop in Hand. destruct Hand as [Hrest Hlast].
    destruct (IH Hrest) as [Hb Hbelow]. split; [exact Hb|].
    intros z Hz. rewrite checkNext_fst in Hlast.
    destruct (Z.eq_dec z (z0 + Z.of_N n)) as [->|Hne]; [exact Hlast|].
    apply Hbelow. lia.
Qed.

Lemma sameSeconds_checked :
  snd (N.iter 1048577 checkNext (0%Z, true)) = true.
Proof. vm_compute. reflexivity. Qed.

Lemma whole_hours_fold (z : Z) :
  (0 <= z <= 1048576)%Z -> (whole z * 60 * 60 = whole z * 3600)%float.
Proof.
  intros Hz. apply Leibniz.eqb_spec.
  apply (proj2 (checkNext_snd _ _ _ sameSeconds_checked)). lia.
Qed.

Section PowerOn.

Context `{GoLib}.

(** C6, amended.  When the four identity label values are valid UTF-8,
    the power-on-time sub-step sends exactly one counter, with the
    identity labels, whose value is [hours*60*60 + minutes*60] in
    [float64], where hours and minutes are read from
    ["power_on_time.hours"] and ["power_on_time.minutes"] and each is 0 on
    its own when absent; otherwise it panics and sends nothing.  For
    whole hours (up to 2^20) the value is [hours*3600 + minutes*60]; for
    100 hours and 30 minutes it is 361800. *)
Theorem minePowerOnSeconds_converts (st : State) :
  let pot := gjson.Get (json (self st)) "power_on_time" in
  let hours :=
    if gjson.Exists (gjson.Get pot "hours")
    then gjson.Float (gjson.Get pot "hours") else 0%float in
  let minutes :=
    if gjson.Exists (gjson.Get pot "minutes")
    then gjson.Float (gjson.Get pot "minutes") else 0%float in
  let seconds := fun value =>
    counter metricDevicePowerOnSeconds value (identity (self st)) in
  (minePowerOnSeconds st
   = if validIdentity (self st)
     then (Return tt, sends st [seconds (hours * 60 * 60 + minutes * 60)%float])
     else (Panic errInvalidUTF8, st))
  /\ sentBy minePowerOnSeconds st
     = (if validIdentity (self st)
        then [seconds (hours * 60 * 60 + minutes * 60)%float]
        else [])
  /\ (forall z rawH,
        (0 <= z <= 1048576)%Z ->
        gjson.Get pot "hours" = gjson.Found (JNumber rawH (whole z)) ->
        sentBy minePowerOnSeconds st
        = if validIdentity (self st)
          then [seconds (whole z * 3600 + minutes * 60)%float]
          else [])
  /\ (forall rawH rawM,
        gjson.Get pot "hours" = gjson.Found (JNumber rawH 100) ->
        gjson.Get pot "minutes" = gjson.Found (JNumber rawM 30) ->
        sentBy minePowerOnSeconds st
        = if validIdentity (self st) then [seconds 361800%float] else []).
Proof.
  intros pot hours minutes seconds.
  assert (Hrun := minePowerOnSeconds_sends st).
  assert (Hsent : sentBy minePowerOnSeconds st
                  = (if validIdentity (self st)
                     then [seconds (hours * 60 * 60 + minutes * 60)%float]
                     else []))
    by exact (proj1 (sentBy_exact Hrun)).
  split; [|split; [exact Hsent|split]].
  - rewrite Hrun. unfold powerOnObservations.
    rewrite outcome_single, upToInvalid_single.
    change (validMetric _) with (validIdentity (self st)).
    destruct (validIdentity (self st)); [reflexivity | now rewrite sends_nil].
  - intros z rawH Hz Hh. rewrite Hsent. subst hours. rewrite Hh. simpl.
    now rewrite (whole_hours_fold Hz).
  - intros rawH rawM Hh Hm. rewrite Hsent. subst hours minutes.
    rewrite Hh, Hm. reflexivity.
Qed.

End PowerOn.

(** The full report has 100 hours and 30 minutes: 361800 seconds, which
    is also 100*3600 + 30*60. *)
Lemma minePowerOnSeconds_converts_witness :
  ((0 <= 100 <= 1048576)%Z
   /\ gjson.Get (gjson.Get fullReport "power_on_time") "hours"
      = gjson.Found (JNumber "100" (whole 100))
   /\ sentBy (@minePowerOnSeconds asciiLib) (@start asciiLib fullReport (fun _ => 0))
      = [counter metricDevicePowerOnSeconds (whole 100 * 3600 + 30 * 60)%float
           ["/dev/sda"; "Seagate Barracuda"; "ST1000DM003"; "Z1D5XXXX"]])
  /\ (gjson.Get (gjson.Get fullReport "power_on_time") "hours"
      = gjson.Found (JNumber "100" 100)
      /\ gjson.Get (gjson.Get fullReport "power_on_time") "minutes"
         = gjson.Found (JNumber "30" 30)
      /\ sentBy (@minePowerOnSeconds asciiLib)
           (@start asciiLib fullReport (fun _ => 0))
         = [counter metricDevicePowerOnSeconds 361800
              ["/dev/sda"; "Seagate Barracuda"; "ST1000DM003"; "Z1D5XXXX"]]).
Proof.
  pose proof (@minePowerOnSeconds_converts asciiLib
                (@start asciiLib fullReport (fun _ => 0)))
    as (_ & _ & Hwhole & Hexample).
  split.
  - split; [lia|]. split; [reflexivity|].
    apply (Hwhole 100%Z "100"); [lia | reflexivity].
  - split; [reflexivity|]. split; [reflexivity|].
    apply (Hexample "100" "30"); reflexivity.
Defined.

(** C6, as stated, fails: for 1.1 hours and no minutes the counter sent
    has the value [1.1*60*60 + 0*60], which is 3960 in [float64], while
    [1.1*3600 + 0*60] is 3960.0000000000005; and for a serial number that
    is not valid UTF-8 no counter is sent: the sub-step panics. *)
Lemma minePowerOnSeconds_not_hours_times_3600 :
  gjson.Get (gjson.Get fractionalHoursReport "power_on_time") "hours"
  = gjson.Found (JNumber "1.1" 0x1.199999999999ap+0)
  /\ gjson.Exists (gjson.Get (gjson.Get fractionalHoursReport "power_on_time") "minutes")
     = false
  /\ ~ (forall m,
          In m (sentBy (@minePowerOnSeconds asciiLib)
                  (@start asciiLib fractionalHoursReport (fun _ => 0))) ->
          val m = (0x1.199999999999ap+0 * 3600 + 0 * 60)%float)
  /\ sentBy (@minePowerOnSeconds asciiLib)
       (@start asciiLib badSerialReport (fun _ => 0)) = [].
Proof.
  split; [reflexivity|]. split; [reflexivity|]. split; [|reflexivity].
  intros Hvalue.
  specialize (Hvalue (counter metricDevicePowerOnSeconds 3960 [""; ""; ""; ""])).
  assert (Hin : In (counter metricDevicePowerOnSeconds 3960 [""; ""; ""; ""])
                  (sentBy (@minePowerOnSeconds asciiLib)
                     (@start asciiLib fractionalHoursReport (fun _ => 0)))).
  { left. reflexivity. }
  specialize (Hvalue Hin).
  apply (f_equal (fun x => Leibniz.eqb x 3960%float)) in Hvalue.
  vm_compute in Hvalue. discriminate Hvalue.
Qed.

(** ** Rotation rate *)

Section RotationRate.

Context `{GoLib}.

(** C8, amended.  When ["rotation_rate"] is absent or not greater than 0,
    the rotation-rate sub-step sends nothing and returns.  When it is
    present with a value greater than 0, the sub-step sends exactly one
    gauge, carrying the rotation rate and the identity labels, provided
    the four identity label values are valid UTF-8; if they are not, it
    panics and sends nothing.  For a rotation rate of 7200 and a valid
    identity it sends exactly one observation, with value 7200. *)
Theorem mineRotationRate_gate (st : State) :
  let rate := gjson.Get (json (self st)) "rotation_rate" in
  let spinning := gjson.Exists rate && (0 <? gjson.Float rate)%float in
  let rotation := fun value =>
    gauge metricDeviceRotationRate value (identity (self st)) in
  (mineRotationRate st
   = if spinning
     then if validIdentity (self st)
          then (Return tt, sends st [rotation (gjson.Float rate)])
          else (Panic errInvalidUTF8, st)
     else (Return tt, st))
  /\ sentBy mineRotationRate st
     = (if spinning && validIdentity (self st)
        then [rotation (gjson.Float rate)]
        else [])
  /\ (List.length (sentBy mineRotationRate st) = 1
      <-> spinning && validIdentity (self st) = true)
  /\ (gjson.Exists rate = false ->
      sentBy mineRotationRate st = [] /\ fst (mineRotationRate st) = Return tt)
  /\ (gjson.Float rate = 0%float ->
      sentBy mineRotationRate st = [] /\ fst (mineRotationRate st) = Return tt)
  /\ (forall raw,
        rate = gjson.Found (JNumber raw 7200) ->
        sentBy mineRotationRate st
        = if validIdentity (self st) then [rotation 7200%float] else []).
Proof.
  intros rate spinning rotation.
  assert (Hobs : rotationRateObservations (self st)
                 = if spinning then [rotation (gjson.Float rate)] else []).
  { unfold rotationRateObservations, GetFloatIfExists, spinning.
    fold rate. destruct (gjson.Exists rate); reflexivity. }
  assert (Hrun : mineRotationRate st
                 = if spinning
                   then if validIdentity (self st)
                        then (Return tt, sends st [rotation (gjson.Float rate)])
                        else (Panic errInvalidUTF8, st)
                   else (Return tt, st)).
  { rewrite mineRotationRate_sends, Hobs. destruct spinning.
    - rewrite outcome_single, upToInvalid_single.
      change (validMetric _) with (validIdentity (self st)).
      destruct (validIdentity (self st)); [reflexivity | now rewrite sends_nil].
    - now rewrite sends_nil. }
  assert (Hsent : sentBy mineRotationRate st
                  = (if spinning && validIdentity (self st)
                     then [rotation (gjson.Float rate)]
                     else [])).
  { rewrite (proj1 (sentBy_exact (mineRotationRate_sends st))), Hobs.
    destruct spinning; [|reflexivity].
    rewrite upToInvalid_single.
    change (validMetric _) with (validIdentity (self st)).
    now destruct (validIdentity (self st)). }
  split; [exact Hrun|]. split; [exact Hsent|].
  rewrite Hsent, Hrun. split; [|split; [|split]].
  - destruct (spinning && validIdentity (self st)); simpl; split; congruence.
  - intros Habsent. unfold spinning. now rewrite Habsent.
  - intros Hzero. unfold spinning. rewrite Hzero.
    now destruct (gjson.Exists rate).
  - intros raw Hrate. unfold spinning. rewrite Hrate. reflexivity.
Qed.

End RotationRate.

(** The empty report has no rotation rate and the solid-state disk a rate
    of 0: nothing is sent; the full report has a rotation rate of 7200. *)
Lemma mineRotationRate_gate_witness :
  (gjson.Exists (gjson.Get emptyReport "rotation_rate") = false
   /\ sentBy (@mineRotationRate asciiLib) (@start asciiLib emptyReport (fun _ => 0))
      = [])
  /\ (@gjson.Float asciiLib (gjson.Get failedSsdReport "rotation_rate") = 0%float
      /\ sentBy (@mineRotationRate asciiLib)
           (@start asciiLib failedSsdReport (fun _ => 0)) = [])
  /\ (gjson.Get fullReport "rotation_rate" = gjson.Found (JNumber "7200" 7200)
      /\ sentBy (@mineRotationRate asciiLib) (@start asciiLib fullReport (fun _ => 0))
         = [gauge metricDeviceRotationRate 7200
              ["/dev/sda"; "Seagate Barracuda"; "ST1000DM003"; "Z1D5XXXX"]]).
Proof.
  split; [|split].
  - split; [reflexivity|].
    apply (proj1 (proj2 (proj2 (proj2
             (@mineRotationRate_gate asciiLib
                (@start asciiLib emptyReport (fun _ => 0))))))).
    reflexivity.
  - split; [reflexivity|].
    apply (proj1 (proj2 (proj2 (proj2 (proj2
             (@mineRotationRate_gate asciiLib
                (@start asciiLib failedSsdReport (fun _ => 0)))))))).
    reflexivity.
  - split; [reflexivity|].
    apply (proj2 (proj2 (proj2 (proj2 (proj2
             (@mineRotationRate_gate asciiLib
                (@start asciiLib fullReport (fun _ => 0)))))))
             "7200").
    reflexivity.
Defined.

(** C8, as stated, fails: the report of a disk that spins at 7200 and
    whose serial number is not valid UTF-8 has a rotation rate greater
    than 0, yet the sub-step sends nothing: it panics. *)
Lemma mineRotationRate_panics_on_invalid_serial :
  gjson.Get badSerialReport "rotation_rate" = gjson.Found (JNumber "7200" 7200)
  /\ (0 <? @gjson.Float asciiLib (gjson.Get badSerialReport "rotation_rate"))%float
     = true
  /\ sentBy (@mineRotationRate asciiLib) (@start asciiLib badSerialReport (fun _ => 0))
     = []
  /\ fst (@mineRotationRate asciiLib (@start asciiLib badSerialReport (fun _ => 0)))
     = Panic errInvalidUTF8.
Proof.
  split; [reflexivity|]. split; [reflexivity|]. split; reflexivity.
Qed.

(** ** Interface speed *)

(** In IEEE 754 the product of 0 and a finite number is a zero. *)
Lemma zero_times_finite (x : float) :
  is_finite x = true ->
  PrimFloat.is_zero (0 * x)%float = true /\ PrimFloat.is_zero (x * 0)%float = true.
Proof.
  unfold is_finite, is_nan, is_infinity, PrimFloat.is_zero.
  rewrite !FloatAxioms.eqb_spec, FloatAxioms.abs_spec, !FloatAxioms.mul_spec.
  change (Prim2SF 0) with (S754_zero false).
  change (Prim2SF infinity) with (S754_infinity false).
  destruct (Prim2SF x) as [s|s| |s m e]; simpl; try discriminate; auto.
  all: destruct s; simpl; auto; discriminate.
Qed.

(** C7, as stated, fails: with ["units_per_second"] missing and
    ["bits_per_unit"] read as +Inf, the observation for the maximum speed
    is sent with the value 0 * +Inf, which is NaN and not 0; and for a
    serial number that is not valid UTF-8 no observation is sent for
    either kind: the sub-step panics. *)
Lemma mineInterfaceSpeed_missing_factor_not_zero :
  gjson.Exists
    (gjson.Get (gjson.Get (gjson.Get overflowSpeedReport "interface_speed") "max")
       "units_per_second") = false
  /\ ~ (forall m,
          In m (sentBy (@mineInterfaceSpeed asciiLib)
                  (@start asciiLib overflowSpeedReport (fun _ => 0))) ->
          PrimFloat.is_zero (val m) = true)
  /\ sentBy (@mineInterfaceSpeed asciiLib)
       (@start asciiLib badSerialReport (fun _ => 0)) = [].
Proof.
  split; [reflexivity|]. split; [|reflexivity].
  intros Hzero.
  specialize (Hzero (gauge metricDeviceInterfaceSpeed nan [""; ""; ""; ""; "max"])).
  assert (Hin : In (gauge metricDeviceInterfaceSpeed nan [""; ""; ""; ""; "max"])
                  (sentBy (@mineInterfaceSpeed asciiLib)
                     (@start asciiLib overflowSpeedReport (fun _ => 0)))).
  { left. reflexivity. }
  specialize (Hzero Hin). discriminate Hzero.
Qed.

Section InterfaceSpeed.

Context `{GoLib}.

Lemma validMetric_kind (smart : SMARTctl) (d : Desc) (value : float)
    (kind : string) :
  utf8.ValidString kind = true ->
  validMetric (gauge d value (identity smart ++ [kind])) = validIdentity smart.
Proof.
  intros Hkind. unfold validMetric, validIdentity, identity. simpl.
  rewrite Hkind. reflexivity.
Qed.

(** C7, amended.  When the four identity label values are valid UTF-8,
    the interface-speed sub-step sends, for each of the speed kinds max
    and current, in this order, exactly one gauge labelled with the kind,
    whose value is the [float64] product of ["units_per_second"] and
    ["bits_per_unit"] under ["interface_speed.<kind>"]; otherwise it
    panics and sends nothing.  A missing sub-field is read as 0 and the
    observation is sent all the same, with a value of 0 whenever the other
    sub-field is finite.  For 6 and 1000000000 the value is 6000000000. *)
Theorem mineInterfaceSpeed_products (st : State) :
  let speed := fun kind =>
    gjson.Get (gjson.Get (json (self st)) "interface_speed") kind in
  let units := fun kind => gjson.Get (speed kind) "units_per_second" in
  let bits := fun kind => gjson.Get (speed kind) "bits_per_unit" in
  let speedGauge := fun kind =>
    gauge metricDeviceInterfaceSpeed
      (gjson.Float (units kind) * gjson.Float (bits kind))%float
      (identity (self st) ++ [kind]) in
  (mineInterfaceSpeed st
   = if validIdentity (self st)
     then (Return tt, sends st [speedGauge "max"; speedGauge "current"])
     else (Panic errInvalidUTF8, st))
  /\ sentBy mineInterfaceSpeed st
     = (if validIdentity (self st)
        then [speedGauge "max"; speedGauge "current"]
        else [])
  /\ (forall kind,
        gjson.Exists (units kind) = false ->
        gjson.Float (units kind) = 0%float
        /\ (is_finite (gjson.Float (bits kind)) = true ->
            PrimFloat.is_zero (val (speedGauge kind)) = true))
  /\ (forall kind,
        gjson.Exists (bits kind) = false ->
        gjson.Float (bits kind) = 0%float
        /\ (is_finite (gjson.Float (units kind)) = true ->
            PrimFloat.is_zero (val (speedGauge kind)) = true))
  /\ (forall kind rawU rawB,
        units kind = gjson.Found (JNumber rawU 6) ->
        bits kind = gjson.Found (JNumber rawB 1000000000) ->
        val (speedGauge kind) = 6000000000%float).
Proof.
  intros speed units bits speedGauge.
  assert (Hrun := mineInterfaceSpeed_sends st).
  destruct (@all_or_nothing (validIdentity (self st)) (speedGauge "max")
              [speedGauge "current"]) as (Hsent & Houtcome & _).
  { repeat constructor; now apply validMetric_kind. }
  change (interfaceSpeedObservations (self st))
    with [speedGauge "max"; speedGauge "current"] in Hrun.
  split; [|split; [|split; [|split]]].
  - rewrite Hrun, Hsent, Houtcome.
    destruct (validIdentity (self st)); [reflexivity | now rewrite sends_nil].
  - now rewrite (proj1 (sentBy_exact Hrun)), Hsent.
  - intros kind Hmissing.
    assert (Hzero : gjson.Float (units kind) = 0%float)
      by (destruct (units kind); [reflexivity | discriminate]).
    split; [exact Hzero|]. intros Hfinite. simpl. rewrite Hzero.
    now apply zero_times_finite.
  - intros kind Hmissing.
    assert (Hzero : gjson.Float (bits kind) = 0%float)
      by (destruct (bits kind); [reflexivity | discriminate]).
    split; [exact Hzero|]. intros Hfinite. simpl. rewrite Hzero.
    now apply zero_times_finite.
  - intros kind rawU rawB Hu Hb. simpl. rewrite Hu, Hb. reflexivity.
Qed.

End InterfaceSpeed.

(** With ["units_per_second"] missing and 1000000000 bits per unit, and
    with ["bits_per_unit"] missing and 6 units per second, the value sent
    is a zero; with 6 units per second and 1000000000 bits per unit it is
    6000000000. *)
Lemma mineInterfaceSpeed_products_witness :
  (gjson.Exists
     (gjson.Get (gjson.Get (gjson.Get halfSpeedReport "interface_speed") "max")
        "units_per_second") = false
   /\ is_finite 1000000000 = true
   /\ PrimFloat.is_zero (0 * 1000000000)%float = true)
  /\ (gjson.Exists
        (gjson.Get (gjson.Get (gjson.Get failedSsdReport "interface_speed") "max")
           "bits_per_unit") = false
      /\ is_finite 6 = true
      /\ PrimFloat.is_zero (6 * 0)%float = true)
  /\ (gjson.Get (gjson.Get (gjson.Get sataSpeedReport "interface_speed") "max")
        "units_per_second" = gjson.Found (JNumber "6" 6)
      /\ gjson.Get (gjson.Get (gjson.Get sataSpeedReport "interface_speed") "max")
           "bits_per_unit" = gjson.Found (JNumber "1000000000" 1000000000)
      /\ (6 * 1000000000)%float = 6000000000%float).
Proof.
  split; [|split].
  - split; [reflexivity | split; [reflexivity|]].
    apply (proj2 (proj1 (proj2 (proj2
             (@mineInterfaceSpeed_products asciiLib
                (@start asciiLib halfSpeedReport (fun _ => 0))))) "max" eq_refl)).
    reflexivity.
  - split; [reflexivity | split; [reflexivity|]].
    apply (proj2 (proj1 (proj2 (proj2 (proj2
             (@mineInterfaceSpeed_products asciiLib
                (@start asciiLib failedSsdReport (fun _ => 0)))))) "max" eq_refl)).
    reflexivity.
  - split; [reflexivity | split; [reflexivity|]].
    apply (proj2 (proj2 (proj2 (proj2
             (@mineInterfaceSpeed_products asciiLib
                (@start asciiLib sataSpeedReport (fun _ => 0)))))) "max" "6"
             "1000000000"); reflexivity.
Defined.

(** ** What holds of every observation of a pass *)

Section Every.

Context `{GoLib}.

Lemma attributeObservations_Forall (P : Metric -> Prop) (smart : SMARTctl)
    (attributes : list gjson.Result) :
  (forall attribute kv,
      In attribute attributes -> In kv attributeValueTypes ->
      P (attributeObservation smart attribute kv)) ->
  forall rnd, Forall P (attributeObservations smart rnd attributes).
Proof.
  induction attributes as [|attribute rest IH]; intros HP rnd; simpl.
  - constructor.
  - apply Forall_app. split.
    + apply Forall_forall. intros m Hm.
      apply in_map_iff in Hm. destruct Hm as (kv & <- & Hkv).
      apply HP; [now left|].
      apply (Permutation_in _ (permute_perm (rnd 0) attributeValueTypes) Hkv).
    + apply IH. intros a kv Ha Hkv. apply HP; [now right | exact Hkv].
Qed.

Lemma statisticsObservations_Forall (P : Metric -> Prop) (smart : SMARTctl) :
  (forall page statistic,
      In page (gjson.Array (gjson.Get (json smart) "ata_device_statistics.pages")) ->
      In statistic (gjson.Array (gjson.Get page "table")) ->
      P (statisticObservation smart page statistic)) ->
  Forall P (statisticsObservations smart).
Proof.
  intros HP. apply Forall_forall. intros m Hm.
  unfold statisticsObservations in Hm. apply in_flat_map in Hm.
  destruct Hm as (page & Hpage & Hm).
  apply in_map_iff in Hm. destruct Hm as (statistic & <- & Hstat).
  now apply HP.
Qed.

Lemma temperatureObservations_Forall (P : Metric -> Prop) (smart : SMARTctl) :
  (forall entry,
      In entry (gjson.entries (gjson.Get (json smart) "temperature")) ->
      P (temperatureObservation smart entry)) ->
  Forall P (temperatureObservations smart).
Proof.
  intros HP. apply Forall_forall. intros m Hm.
  apply in_map_iff in Hm. destruct Hm as (entry & <- & Hentry).
  now apply HP.
Qed.

(** A property of every observation a pass can send follows from the
    property of the observations of each sub-step, whatever the map
    iteration orders. *)
Lemma observations_Forall (P : Metric -> Prop) (smart : SMARTctl) :
  Forall P (exitStatusObservations smart) ->
  Forall P (deviceObservations smart) ->
  Forall P (capacityObservations smart) ->
  Forall P (interfaceSpeedObservations smart) ->
  (forall attribute kv,
      In attribute (attributeTable smart) -> In kv attributeValueTypes ->
      P (attributeObservation smart attribute kv)) ->
  Forall P (powerOnObservations smart) ->
  Forall P (rotationRateObservations smart) ->
  (forall entry,
      In entry (gjson.entries (gjson.Get (json smart) "temperature")) ->
      P (temperatureObservation smart entry)) ->
  Forall P (powerCycleObservations smart) ->
  (forall page statistic,
      In page (gjson.Array (gjson.Get (json smart) "ata_device_statistics.pages")) ->
      In statistic (gjson.Array (gjson.Get page "table")) ->
      P (statisticObservation smart page statistic)) ->
  Forall P (nvmeObservations smart) ->
  Forall P (smartStatusObservations smart) ->
  forall rnd, Forall P (observations smart rnd).
Proof.
  intros H1 H2 H3 H4 H5 H6 H7 H8 H9 H10 H11 H12 rnd. unfold observations.
  repeat (apply Forall_app; split); auto.
  - now apply attributeObservations_Forall.
  - now apply temperatureObservations_Forall.
  - now apply statisticsObservations_Forall.
Qed.

(** What holds of every observation a pass could send holds of every
    observation it sends. *)
Lemma sentBy_Collect_Forall (P : Metric -> Prop) (st : State) :
  Forall P (observations (self st) (fastrand st)) ->
  Forall (fun m => P m /\ validMetric m = true) (sentBy Collect st).
Proof.
  intros HP. rewrite (proj1 (sentBy_Collect st)). now apply upToInvalid_Forall.
Qed.

End Every.

(** ** The NVMe health log *)

Section Nvme.

Context `{GoLib}.

Lemma nvme_all_or_nothing (smart : SMARTctl) :
  upToInvalid (nvmeObservations smart)
  = if validIdentity smart then nvmeObservations smart else [].
Proof.
  unfold nvmeObservations.
  apply (@all_or_nothing (validIdentity smart)). repeat constructor.
Qed.

Lemma sentBy_nvme (st : State) :
  sentBy mineNvmeSmartHealthInformationLog st
  = if validIdentity (self st) then nvmeObservations (self st) else [].
Proof.
  rewrite (proj1 (sentBy_exact (mineNvmeSmartHealthInformationLog_sends st))).
  apply nvme_all_or_nothing.
Qed.

(** The identity of a mapper built for the report [{}] is valid UTF-8:
    four times the trimmed empty string. *)
Lemma validIdentity_emptyReport (ch0 : list Metric) :
  validIdentity (NewSMARTctl emptyReport ch0) = true.
Proof.
  unfold validIdentity, identity, NewSMARTctl. simpl.
  unfold strings.TrimSpace. now rewrite (lib_TrimSpace_valid "" eq_refl).
Qed.

(** When the health log is there, and the identity label values are valid
    UTF-8, the sub-step sends one observation for each of the four NVMe
    metrics, with the identity labels only. *)
Lemma nvme_sent_with_health_log (st : State) :
  let iHealth := gjson.Get (json (self st)) "nvme_smart_health_information_log" in
  gjson.Exists iHealth = true ->
  validIdentity (self st) = true ->
  sentBy mineNvmeSmartHealthInformationLog st
  = [gauge metricCriticalWarning
       (gjson.Float (gjson.Get iHealth "critical_warning")) (identity (self st));
     gauge metricAvailableSpare
       (gjson.Float (gjson.Get iHealth "available_spare")) (identity (self st));
     gauge metricMediaErrors
       (gjson.Float (gjson.Get iHealth "media_errors")) (identity (self st));
     gauge metricPercentageUsed
       (gjson.Float (gjson.Get iHealth "percentage_used")) (identity (self st))].
Proof.
  intros iHealth _ Hvalid. rewrite sentBy_nvme, Hvalid. reflexivity.
Qed.

(** C1, on the code.  The guard [iHealth == nil] never holds, so the
    sub-step builds its four observations whether or not the report has a
    health log, and sends them (all four, the identity label values being
    valid UTF-8; none, the first panicking, when they are not); for the
    report [{}], which has no health log, it sends the four NVMe metrics
    with the value 0. *)
Theorem nvme_sent_without_health_log (st : State) (rnd : nat -> nat) :
  sentBy mineNvmeSmartHealthInformationLog st
  = (if validIdentity (self st) then nvmeObservations (self st) else [])
  /\ gjson.Exists (gjson.Get emptyReport "nvme_smart_health_information_log") = false
  /\ sentBy mineNvmeSmartHealthInformationLog (start emptyReport rnd)
     = [gauge metricCriticalWarning 0 (identity (NewSMARTctl emptyReport []));
        gauge metricAvailableSpare 0 (identity (NewSMARTctl emptyReport []));
        gauge metricMediaErrors 0 (identity (NewSMARTctl emptyReport []));
        gauge metricPercentageUsed 0 (identity (NewSMARTctl emptyReport []))].
Proof.
  split; [|split].
  - apply sentBy_nvme.
  - reflexivity.
  - rewrite sentBy_nvme.
    change (self (start emptyReport rnd)) with (NewSMARTctl emptyReport []).
    now rewrite validIdentity_emptyReport.
Qed.

End Nvme.

(** ** Labels *)

Ltac in_catalog := simpl; repeat (first [left; reflexivity | right]).

Ltac other_desc :=
  let E := fresh "E" in intros E; cbv in E; discriminate E.

Ltac conjuncts := repeat match goal with |- _ /\ _ => split end.

Ltac one_label :=
  unfold wellLabelled, carriesIdentity, carriesOwnLabels;
  (split; [in_catalog|]);
  (split; [reflexivity|]);
  (split; [repeat split; reflexivity|]);
  conjuncts; try other_desc.

Ltac fixed_labels :=
  repeat (apply Forall_cons; [one_label|]); try apply Forall_nil.

Section Labels.

Context `{GoLib}.

Lemma exitStatus_declared (smart : SMARTctl) :
  Forall (wellLabelled smart) (exitStatusObservations smart).
Proof. fixed_labels. Qed.

Lemma device_declared (smart : SMARTctl) :
  Forall (wellLabelled smart) (deviceObservations smart).
Proof. fixed_labels. intros _. repeat split; reflexivity. Qed.

Lemma capacity_declared (smart : SMARTctl) :
  Forall (wellLabelled smart) (capacityObservations smart).
Proof.
  fixed_labels.
  - intros _. exists "logical". simpl. auto.
  - intros _. exists "physical". simpl. auto.
Qed.

Lemma interfaceSpeed_declared (smart : SMARTctl) :
  Forall (wellLabelled smart) (interfaceSpeedObservations smart).
Proof.
  fixed_labels.
  - intros _. exists "max". simpl. auto.
  - intros _. exists "current". simpl. auto.
Qed.

Lemma attribute_declared (smart : SMARTctl) (attribute : gjson.Result)
    (kv : string * string) :
  In attribute (attributeTable smart) -> In kv attributeValueTypes ->
  wellLabelled smart (attributeObservation smart attribute kv).
Proof.
  intros Hattribute Hkv.
  unfold wellLabelled, carriesIdentity, carriesOwnLabels.
  split; [in_catalog|]. split; [reflexivity|].
  split; [repeat split; reflexivity|].
  conjuncts; try other_desc.
  intros _. exists attribute, kv. repeat split; auto.
Qed.

Lemma powerOn_declared (smart : SMARTctl) :
  Forall (wellLabelled smart) (powerOnObservations smart).
Proof. fixed_labels. Qed.

Lemma rotationRate_declared (smart : SMARTctl) :
  Forall (wellLabelled smart) (rotationRateObservations smart).
Proof.
  unfold rotationRateObservations.
  destruct (0 <? _)%float; [|constructor]. fixed_labels.
Qed.

Lemma temperature_declared (smart : SMARTctl)
    (entry : gjson.Result * gjson.Result) :
  In entry (gjson.entries (gjson.Get (json smart) "temperature")) ->
  wellLabelled smart (temperatureObservation smart entry).
Proof.
  intros Hentry.
  unfold wellLabelled, carriesIdentity, carriesOwnLabels.
  split; [in_catalog|]. split; [reflexivity|].
  split; [repeat split; reflexivity|].
  conjuncts; try other_desc.
  intros _. exists entry. repeat split; auto.
Qed.

Lemma powerCycle_declared (smart : SMARTctl) :
  Forall (wellLabelled smart) (powerCycleObservations smart).
Proof. fixed_labels. Qed.

Lemma statistic_declared (smart : SMARTctl) (page statistic : gjson.Result) :
  In page (gjson.Array (gjson.Get (json smart) "ata_device_statistics.pages")) ->
  In statistic (gjson.Array (gjson.Get page "table")) ->
  wellLabelled smart (statisticObservation smart page statistic).
Proof.
  intros Hpage Hstatistic.
  unfold wellLabelled, carriesIdentity, carriesOwnLabels.
  split; [in_catalog|]. split; [reflexivity|].
  split; [repeat split; reflexivity|].
  conjuncts; try other_desc.
  intros _. exists page, statistic. repeat split; auto.
Qed.

Lemma nvme_declared (smart : SMARTctl) :
  Forall (wellLabelled smart) (nvmeObservations smart).
Proof. fixed_labels. Qed.

Lemma smartStatus_declared (smart : SMARTctl) :
  Forall (wellLabelled smart) (smartStatusObservations smart).
Proof. fixed_labels. Qed.

Lemma observations_declared (smart : SMARTctl) (rnd : nat -> nat) :
  Forall (wellLabelled smart) (observations smart rnd).
Proof.
  apply observations_Forall.
  - apply exitStatus_declared.
  - apply device_declared.
  - apply capacity_declared.
  - apply interfaceSpeed_declared.
  - apply attribute_declared.
  - apply powerOn_declared.
  - apply rotationRate_declared.
  - apply temperature_declared.
  - apply powerCycle_declared.
  - apply statistic_declared.
  - apply nvme_declared.
  - apply smartStatus_declared.
Qed.

(** [NewConstMetric] builds an observation that has as many label values
    as its descriptor has label names, all of them valid UTF-8. *)
Lemma NewConstMetric_builds (m : Metric) :
  List.length (labelValues m) = List.length (variableLabels (desc m)) ->
  validMetric m = true ->
  NewConstMetric (desc m) (valType m) (val m) (labelValues m) = inl m.
Proof.
  intros Hlen Hvalid. unfold NewConstMetric, validateLabelValues.
  rewrite Hlen, Nat.eqb_refl. simpl.
  unfold validMetric in Hvalid. rewrite Hvalid. now destruct m.
Qed.

(** [NewConstMetric] never reports a wrong number of label values for a
    well labelled observation. *)
Lemma NewConstMetric_cardinality (smart : SMARTctl) (m : Metric) :
  wellLabelled smart m ->
  NewConstMetric (desc m) (valType m) (val m) (labelValues m)
  <> inr errInconsistentCardinality.
Proof.
  intros (_ & Hlen & _). unfold NewConstMetric, validateLabelValues.
  rewrite Hlen, Nat.eqb_refl. simpl.
  destruct (forallb utf8.ValidString (labelValues m)); discriminate.
Qed.

End Labels.

Section Whole.

Context `{GoLib}.

(** Every sub-step finishes on a sequence of well labelled observations. *)
Lemma subSteps_finish :
  Forall
    (fun step : Go unit =>
       forall st,
       exists obs, finishes step st obs /\ Forall (wellLabelled (self st)) obs)
    subSteps.
Proof.
  unfold subSteps.
  apply Forall_cons;
    [intros st; eexists; split;
     [exact (finishes_exact (mineExitStatus_sends st))
     | apply exitStatus_declared]|].
  apply Forall_cons;
    [intros st; eexists; split;
     [exact (finishes_exact (mineDevice_sends st)) | apply device_declared]|].
  apply Forall_cons;
    [intros st; eexists; split;
     [exact (finishes_exact (mineCapacity_sends st)) | apply capacity_declared]|].
  apply Forall_cons;
    [intros st; eexists; split;
     [exact (finishes_exact (mineInterfaceSpeed_sends st))
     | apply interfaceSpeed_declared]|].
  apply Forall_cons;
    [intros st; eexists; split;
     [exact (mineDeviceAttribute_finishes st)
     | apply attributeObservations_Forall; apply attribute_declared]|].
  apply Forall_cons;
    [intros st; eexists; split;
     [exact (finishes_exact (minePowerOnSeconds_sends st))
     | apply powerOn_declared]|].
  apply Forall_cons;
    [intros st; eexists; split;
     [exact (finishes_exact (mineRotationRate_sends st))
     | apply rotationRate_declared]|].
  apply Forall_cons;
    [intros st; eexists; split;
     [exact (finishes_exact (mineTemperatures_sends st))
     | apply temperatureObservations_Forall; apply temperature_declared]|].
  apply Forall_cons;
    [intros st; eexists; split;
     [exact (finishes_exact (minePowerCycleCount_sends st))
     | apply powerCycle_declared]|].
  apply Forall_cons;
    [intros st; eexists; split;
     [exact (finishes_exact (mineDeviceStatistics_sends st))
     | apply statisticsObservations_Forall; apply statistic_declared]|].
  apply Forall_cons;
    [intros st; eexists; split;
     [exact (finishes_exact (mineNvmeSmartHealthInformationLog_sends st))
     | apply nvme_declared]|].
  apply Forall_cons;
    [intros st; eexists; split;
     [exact (finishes_exact (mineSmartStatus_sends st))
     | apply smartStatus_declared]|].
  apply Forall_nil.
Qed.

(** C2.  Every observation a pass builds, or tries to build, goes against
    a descriptor of the catalog with exactly as many label values as the
    descriptor declares label names, each at the position of the label
    name it is meant for: [NewConstMetric] never fails on the number of
    label values, in the pass or in any sub-step, whatever the report;
    the one failure left to it, a label value that is not valid UTF-8, is
    the only panic a pass can end with.  Every observation sent is one
    [NewConstMetric] accepted. *)
Theorem Collect_labels_as_declared (st : State) :
  finishes Collect st (observations (self st) (fastrand st))
  /\ Forall
       (fun m =>
          wellLabelled (self st) m
          /\ NewConstMetric (desc m) (valType m) (val m) (labelValues m)
             <> inr errInconsistentCardinality)
       (observations (self st) (fastrand st))
  /\ Forall (labelledAsDeclared (self st)) (sentBy Collect st)
  /\ fst (Collect st) <> Panic errInconsistentCardinality
  /\ (fst (Collect st) = Return tt \/ fst (Collect st) = Panic errInvalidUTF8)
  /\ Forall
       (fun step : Go unit =>
          forall st',
            fst (step st') <> Panic errInconsistentCardinality
            /\ Forall (labelledAsDeclared (self st')) (sentBy step st'))
       subSteps.
Proof.
  assert (Hdeclared := observations_declared (self st) (fastrand st)).
  split; [apply Collect_finishes|]. split; [|split; [|split; [|split]]].
  - eapply Forall_impl; [|exact Hdeclared].
    intros m Hm. split; [exact Hm|]. now apply (NewConstMetric_cardinality Hm).
  - eapply Forall_impl; [|apply (sentBy_Collect_Forall st Hdeclared)].
    intros m [Hm Hvalid]. split; [exact Hm|].
    apply NewConstMetric_builds; [apply Hm | exact Hvalid].
  - rewrite (proj2 (sentBy_Collect st)).
    destruct (outcome_cases (observations (self st) (fastrand st))) as [-> | ->];
      discriminate.
  - rewrite (proj2 (sentBy_Collect st)). apply outcome_cases.
  - eapply Forall_impl; [|apply subSteps_finish].
    intros step Hstep st'. destruct (Hstep st') as (obs & Hfinishes & Hobs).
    destruct (sentBy_finishes Hfinishes) as [-> ->]. split.
    + destruct (outcome_cases obs) as [-> | ->]; discriminate.
    + eapply Forall_impl; [|apply (upToInvalid_Forall Hobs)].
      intros m [Hm Hvalid]. split; [exact Hm|].
      apply NewConstMetric_builds; [apply Hm | exact Hvalid].
Qed.

(** C9.  The four identity values are the trimmed strings at
    ["device.name"], ["serial_number"], ["model_family"] and
    ["model_name"], taken when the mapper is built; every observation of a
    pass carries them under the labels [device], [model_family],
    [model_name] and [serial_number]; no sub-step changes them, or the
    report, and they are the same after the pass. *)
Theorem Collect_carries_identity (json_ : gjson.Result) (ch0 : list Metric)
    (rnd : nat -> nat) :
  let smart := NewSMARTctl json_ ch0 in
  let st := {| self := smart; fastrand := rnd |} in
  smartDevice smart
  = {| device := strings.TrimSpace (gjson.String (gjson.Get json_ "device.name"));
       serial := strings.TrimSpace (gjson.String (gjson.Get json_ "serial_number"));
       family := strings.TrimSpace (gjson.String (gjson.Get json_ "model_family"));
       model := strings.TrimSpace (gjson.String (gjson.Get json_ "model_name")) |}
  /\ Forall
       (fun m =>
          label m "device"
          = Some (strings.TrimSpace (gjson.String (gjson.Get json_ "device.name")))
          /\ label m "model_family"
             = Some (strings.TrimSpace (gjson.String (gjson.Get json_ "model_family")))
          /\ label m "model_name"
             = Some (strings.TrimSpace (gjson.String (gjson.Get json_ "model_name")))
          /\ label m "serial_number"
             = Some (strings.TrimSpace
                       (gjson.String (gjson.Get json_ "serial_number"))))
       (sentBy Collect st)
  /\ smartDevice (self (snd (Collect st))) = smartDevice smart
  /\ Forall
       (fun step : Go unit =>
          forall st',
            smartDevice (self (snd (step st'))) = smartDevice (self st')
            /\ json (self (snd (step st'))) = json (self st'))
       subSteps.
Proof.
  intros smart st. split; [reflexivity|]. split; [|split].
  - eapply Forall_impl;
      [|apply (sentBy_Collect_Forall st (observations_declared smart rnd))].
    intros m [(_ & _ & Hid & _) _]. exact Hid.
  - destruct (Collect_finishes st) as [k E]. now rewrite E.
  - eapply Forall_impl; [|apply subSteps_finish].
    intros step Hstep st'. destruct (Hstep st') as (obs & [k E] & _).
    now rewrite E.
Qed.

(** C10.  No observation of a pass is built against the descriptor of
    [smartctl_version], whatever the report. *)
Theorem Collect_never_sends_version (st : State) :
  Forall
    (fun m =>
       desc m <> metricSmartctlVersion /\ fqName (desc m) <> "smartctl_version")
    (sentBy Collect st).
Proof.
  assert (Hother : forall m,
             In (desc m) (tl catalog) ->
             desc m <> metricSmartctlVersion
             /\ fqName (desc m) <> "smartctl_version").
  { intros m Hin. simpl in Hin.
    repeat (destruct Hin as [<-|Hin]; [split; intros E; cbv in E; discriminate E|]).
    destruct Hin. }
  assert (Hall : Forall
                   (fun m =>
                      desc m <> metricSmartctlVersion
                      /\ fqName (desc m) <> "smartctl_version")
                   (observations (self st) (fastrand st))).
  { apply observations_Forall;
      try (unfold rotationRateObservations; destruct (0 <? _)%float);
      repeat (apply Forall_cons; [apply Hother; in_catalog|]);
      try apply Forall_nil;
      intros; apply Hother; in_catalog. }
  eapply Forall_impl; [|apply (sentBy_Collect_Forall st Hall)].
  intros m [Hm _]. exact Hm.
Qed.

End Whole.

(** ** The order of a pass *)

(** C3, as stated, fails: on the full report, a pass whose map iteration
    starts at the entry [worst] sends the four observations of the
    attribute in another order than a pass that starts at [value]. *)
Lemma Collect_order_follows_map_iteration : ~ @deterministicPass asciiLib fullReport.
Proof.
  intros Hsame. specialize (Hsame (fun _ => 0) (fun _ => 3)).
  apply (f_equal (map (fun m => label m "attribute_value_type"))) in Hsame.
  vm_compute in Hsame. discriminate Hsame.
Qed.


Lemma upToInvalid_prefix_perm (a b1 b2 : list Metric) :
  Permutation (upToInvalid b1) (upToInvalid b2) ->
  Permutation (upToInvalid (a ++ b1)) (upToInvalid (a ++ b2)).
Proof.
  intros Hperm. rewrite !upToInvalid_app.
  destruct (forallb validMetric a); [|reflexivity].
  now apply Permutation_app_head.
Qed.

Lemma sendsOnly_ret : sendsOnly (ret tt).
Proof.
  intros st. exists []. apply finishes_exact. unfold ret. now rewrite sends_nil.
Qed.

Lemma sendsOnly_bind (m k : Go unit) :
  sendsOnly m -> sendsOnly k -> sendsOnly (m ;; k).
Proof.
  intros Hm Hk st. destruct (Hm st) as (o1 & n & E1).
  destruct (forallb validMetric o1) eqn:Hvalid.
  - destruct (Hk (draws n (sends st (upToInvalid o1)))) as (o2 & n' & E2).
    exists (o1 ++ o2), (n' + n). unfold bind. rewrite E1.
    rewrite outcome_app, upToInvalid_app. unfold outcome at 1.
    rewrite Hvalid, E2.
    rewrite (upToInvalid_all _ Hvalid). now rewrite draws_draws.
  - exists o1, n. unfold bind. rewrite E1. unfold outcome. now rewrite Hvalid.
Qed.

Lemma skipn_prefix {A : Type} (a b : list A) :
  skipn (List.length a) (a ++ b) = b.
Proof.
  induction a as [|x a IH]; simpl; auto.
Qed.

(** What two computations called one after the other send. *)
Lemma sentBy_bind (m k : Go unit) (st : State) :
  sendsOnly m -> sendsOnly k ->
  sentBy (m ;; k) st
  = sentBy m st
    ++ match m st with
       | (Return _, st') => sentBy k st'
       | (Panic _, _) => []
       end.
Proof.
  intros Hm Hk. destruct (Hm st) as (o1 & n & E1).
  unfold sentBy at 1 2. unfold bind. rewrite E1.
  unfold outcome. destruct (forallb validMetric o1) eqn:Hvalid.
  - destruct (Hk (draws n (sends st (upToInvalid o1)))) as (o2 & n' & E2).
    unfold sentBy. rewrite E2. cbn [snd self draws sends emit ch].
    rewrite (skipn_prefix (ch (self st) ++ upToInvalid o1)).
    now rewrite <- app_assoc, !skipn_prefix.
  - now rewrite app_nil_r.
Qed.

Lemma inTurn_sends (steps : list (Go unit)) :
  Forall sendsOnly steps ->
  sendsOnly (inTurn steps)
  /\ forall st, sentBy (inTurn steps) st = sentInTurn steps st.
Proof.
  induction steps as [|step rest IH]; intros Hsteps.
  - split; [apply sendsOnly_ret|]. intros st. unfold sentBy. simpl.
    now rewrite skipn_all.
  - inversion Hsteps as [|? ? Hstep Hrest]; subst.
    destruct (IH Hrest) as [IHonly IHsent].
    destruct rest as [|next rest'].
    + split; [exact Hstep|]. intros st. cbn [inTurn sentInTurn].
      destruct (step st) as [[u|err] st']; now rewrite app_nil_r.
    + split; [now apply sendsOnly_bind|]. intros st.
      change (inTurn (step :: next :: rest'))
        with (step ;; inTurn (next :: rest')).
      rewrite (sentBy_bind st Hstep IHonly). cbn [sentInTurn].
      destruct (step st) as [[u|err] st']; [|reflexivity].
      now rewrite IHsent.
Qed.

Section Order.

Context `{GoLib}.

Lemma attributeObservations_blocks (smart : SMARTctl) (attributes : list gjson.Result) :
  forall rnd,
    attributeObservations smart rnd attributes
    = List.concat (attributeBlocks smart rnd attributes)
    /\ Forall2
         (fun attribute block =>
            Permutation block
              (map (attributeObservation smart attribute) attributeValueTypes))
         attributes (attributeBlocks smart rnd attributes).
Proof.
  induction attributes as [|attribute rest IH]; intros rnd; cbn [attributeObservations attributeBlocks List.concat].
  - split; constructor.
  - destruct (IH (fun n => rnd (S n))) as [Hcat Hblocks]. split.
    + now rewrite Hcat.
    + constructor; [|exact Hblocks].
      apply Permutation_map, permute_perm.
Qed.

Lemma attributeObservations_ext (smart : SMARTctl) (attributes : list gjson.Result) :
  forall rnd1 rnd2,
    (forall n, rnd1 n = rnd2 n) ->
    attributeObservations smart rnd1 attributes
    = attributeObservations smart rnd2 attributes.
Proof.
  induction attributes as [|attribute rest IH]; intros rnd1 rnd2 Hsame; cbn [attributeObservations].
  - reflexivity.
  - rewrite (Hsame 0). f_equal. apply IH. intros n. apply Hsame.
Qed.

Lemma subSteps_sendOnly : Forall sendsOnly subSteps.
Proof.
  eapply Forall_impl; [|apply subSteps_finish].
  intros step Hstep st. destruct (Hstep st) as (obs & Hfinishes & _).
  now exists obs.
Qed.

(** What a pass sends is what its sub-steps send, each run in turn on the
    state the one before it left, up to the first that panics. *)
Lemma sentBy_subSteps (st : State) :
  sentBy Collect st = sentInTurn subSteps st.
Proof.
  exact (proj2 (inTurn_sends subSteps_sendOnly) st).
Qed.

(** The four observations of an attribute row carry the same label values
    but for the value type: all four can be built, or none. *)
Lemma attribute_row_valid (smart : SMARTctl) (attribute : gjson.Result)
    (kv : string * string) :
  In kv attributeValueTypes ->
  validMetric (attributeObservation smart attribute kv)
  = validMetric (attributeObservation smart attribute ("value", "value")).
Proof.
  intros Hkv. simpl in Hkv.
  repeat (destruct Hkv as [<-|Hkv]; [reflexivity|]). destruct Hkv.
Qed.

Lemma attribute_block (smart : SMARTctl) (attribute : gjson.Result) (seed : nat) :
  let block :=
    map (attributeObservation smart attribute) (permute seed attributeValueTypes) in
  let valid :=
    validMetric (attributeObservation smart attribute ("value", "value")) in
  upToInvalid block = (if valid then block else [])
  /\ forallb validMetric block = valid
  /\ existsb validMetric block = valid.
Proof.
  intros block valid.
  assert (Hall : Forall (fun m => validMetric m = valid) block).
  { apply Forall_forall. intros m Hm. apply in_map_iff in Hm.
    destruct Hm as (kv & <- & Hkv). apply attribute_row_valid.
    apply (Permutation_in _ (permute_perm seed attributeValueTypes) Hkv). }
  assert (Hlen : List.length block = 4).
  { unfold block. rewrite length_map.
    now rewrite (Permutation_length (permute_perm seed attributeValueTypes)). }
  clearbody valid block.
  destruct block as [|m rest]; [discriminate Hlen|].
  destruct (all_or_nothing Hall) as (Hsent & _ & Hevery).
  split; [exact Hsent|]. split; [exact Hevery|].
  pose proof (Forall_inv Hall) as Hm. pose proof (Forall_inv_tail Hall) as Hrest.
  cbn beta in Hm. cbn [existsb]. rewrite Hm. destruct valid; [reflexivity|].
  simpl. apply not_true_is_false. intros Hsome.
  apply existsb_exists in Hsome. destruct Hsome as (m' & Hin & Hvalid).
  rewrite (proj1 (Forall_forall _ rest) Hrest m' Hin) in Hvalid.
  discriminate.
Qed.

(** Up to the order within each row, the attribute step sends what it
    would send with the entries taken in the order of the map literal. *)
Lemma attributeObservations_upTo_perm (smart : SMARTctl)
    (attributes : list gjson.Result) (rest : list Metric) :
  forall rnd,
    Permutation
      (upToInvalid (attributeObservations smart rnd attributes ++ rest))
      (upToInvalid
         (flat_map
            (fun attribute =>
               map (attributeObservation smart attribute) attributeValueTypes)
            attributes
          ++ rest)).
Proof.
  induction attributes as [|attribute others IH]; intros rnd;
    cbn [attributeObservations flat_map].
  - reflexivity.
  - rewrite <- !app_assoc.
    rewrite (upToInvalid_app
               (map (attributeObservation smart attribute)
                  (permute (rnd 0) attributeValueTypes))).
    rewrite (upToInvalid_app
               (map (attributeObservation smart attribute) attributeValueTypes)).
    destruct (attribute_block smart attribute (rnd 0)) as (Hsent & Hevery & _).
    destruct (attribute_block smart attribute 0) as (Hsent0 & Hevery0 & _).
    rewrite permute_zero in Hsent0, Hevery0.
    cbv zeta in Hsent, Hevery, Hsent0, Hevery0.
    rewrite Hevery, Hevery0, Hsent, Hsent0.
    destruct (validMetric (attributeObservation smart attribute ("value", "value"))).
    + apply Permutation_app; [|apply IH].
      apply Permutation_map, permute_perm.
    + reflexivity.
Qed.

Lemma attributeObservations_runs_perm (smart : SMARTctl)
    (attributes : list gjson.Result) (rest : list Metric) (rnd1 rnd2 : nat -> nat) :
  Permutation
    (upToInvalid (attributeObservations smart rnd1 attributes ++ rest))
    (upToInvalid (attributeObservations smart rnd2 attributes ++ rest)).
Proof.
  rewrite (attributeObservations_upTo_perm smart attributes rest rnd1).
  now rewrite (attributeObservations_upTo_perm smart attributes rest rnd2).
Qed.

Lemma attributeBlocks_uniform (smart : SMARTctl) (attributes : list gjson.Result) :
  forall rnd,
    Forall (fun block => forallb validMetric block = existsb validMetric block)
      (attributeBlocks smart rnd attributes).
Proof.
  induction attributes as [|attribute others IH]; intros rnd;
    cbn [attributeBlocks]; constructor; [|apply IH].
  destruct (attribute_block smart attribute (rnd 0)) as (_ & Hevery & Hsome).
  cbv zeta in Hevery, Hsome. now rewrite Hevery, Hsome.
Qed.

(** C3, amended.  What a pass sends is what its twelve sub-steps send, one
    after the other in the fixed order, each on the state the one before
    it left, up to the first sub-step that panics (on a label value that
    is not valid UTF-8), which ends the pass.  Every sub-step but the
    attribute table sends the same sequence, and ends the same way,
    whatever the runtime draws and whatever was sent before; the
    attribute table sends its rows in table order, the four observations
    of a row (all four, or none when they cannot be built) in the order
    of that row's map iteration.  So two passes over a report send the
    same observations, in the same order up to the order within each
    attribute row, and in the same order outright when the runtime draws
    the same. *)
Theorem Collect_order_up_to_map_iteration (json_ : gjson.Result)
    (rnd1 rnd2 : nat -> nat) :
  let smart := NewSMARTctl json_ [] in
  (forall rnd, sentBy Collect (start json_ rnd) = sentInTurn subSteps (start json_ rnd))
  /\ Forall
       (fun step : Go unit =>
          forall obs n,
            sentBy step (draws n (sends (start json_ rnd1) obs))
            = sentBy step (start json_ rnd2)
            /\ fst (step (draws n (sends (start json_ rnd1) obs)))
               = fst (step (start json_ rnd2)))
       mapFreeSubSteps
  /\ Forall
       (fun step : Go unit =>
          forall st, exists n obs, snd (step st) = draws n (sends st obs))
       subSteps
  /\ (forall rnd obs,
        sentBy mineDeviceAttribute (sends (start json_ rnd) obs)
        = upToInvalid (List.concat (attributeBlocks smart rnd (attributeTable smart)))
        /\ Forall2
             (fun attribute block =>
                Permutation block
                  (map (attributeObservation smart attribute) attributeValueTypes))
             (attributeTable smart)
             (attributeBlocks smart rnd (attributeTable smart))
        /\ Forall
             (fun block => forallb validMetric block = existsb validMetric block)
             (attributeBlocks smart rnd (attributeTable smart)))
  /\ Permutation (sentBy Collect (start json_ rnd1))
       (sentBy Collect (start json_ rnd2))
  /\ ((forall n, rnd1 n = rnd2 n) ->
      sentBy Collect (start json_ rnd1) = sentBy Collect (start json_ rnd2)).
Proof.
  intros smart. split; [|split; [|split; [|split; [|split]]]].
  - intros rnd. apply sentBy_subSteps.
  - unfold mapFreeSubSteps.
    apply Forall_cons;
      [intros obs n;
       now rewrite !(proj1 (sentBy_exact (mineExitStatus_sends _))),
         !(proj2 (sentBy_exact (mineExitStatus_sends _)))|].
    apply Forall_cons;
      [intros obs n;
       now rewrite !(proj1 (sentBy_exact (mineDevice_sends _))),
         !(proj2 (sentBy_exact (mineDevice_sends _)))|].
    apply Forall_cons;
      [intros obs n;
       now rewrite !(proj1 (sentBy_exact (mineCapacity_sends _))),
         !(proj2 (sentBy_exact (mineCapacity_sends _)))|].
    apply Forall_cons;
      [intros obs n;
       now rewrite !(proj1 (sentBy_exact (mineInterfaceSpeed_sends _))),
         !(proj2 (sentBy_exact (mineInterfaceSpeed_sends _)))|].
    apply Forall_cons;
      [intros obs n;
       now rewrite !(proj1 (sentBy_exact (minePowerOnSeconds_sends _))),
         !(proj2 (sentBy_exact (minePowerOnSeconds_sends _)))|].
    apply Forall_cons;
      [intros obs n;
       now rewrite !(proj1 (sentBy_exact (mineRotationRate_sends _))),
         !(proj2 (sentBy_exact (mineRotationRate_sends _)))|].
    apply Forall_cons;
      [intros obs n;
       now rewrite !(proj1 (sentBy_exact (mineTemperatures_sends _))),
         !(proj2 (sentBy_exact (mineTemperatures_sends _)))|].
    apply Forall_cons;
      [intros obs n;
       now rewrite !(proj1 (sentBy_exact (minePowerCycleCount_sends _))),
         !(proj2 (sentBy_exact (minePowerCycleCount_sends _)))|].
    apply Forall_cons;
      [intros obs n;
       now rewrite !(proj1 (sentBy_exact (mineDeviceStatistics_sends _))),
         !(proj2 (sentBy_exact (mineDeviceStatistics_sends _)))|].
    apply Forall_cons;
      [intros obs n;
       now rewrite
         !(proj1 (sentBy_exact (mineNvmeSmartHealthInformationLog_sends _))),
         !(proj2 (sentBy_exact (mineNvmeSmartHealthInformationLog_sends _)))|].
    apply Forall_cons;
      [intros obs n;
       now rewrite !(proj1 (sentBy_exact (mineSmartStatus_sends _))),
         !(proj2 (sentBy_exact (mineSmartStatus_sends _)))|].
    apply Forall_nil.
  - eapply Forall_impl; [|apply subSteps_finish].
    intros step Hstep st. destruct (Hstep st) as (obs & [n E] & _).
    exists n, (upToInvalid obs). now rewrite E.
  - intros rnd obs.
    rewrite (proj1 (sentBy_finishes
                      (mineDeviceAttribute_finishes (sends (start json_ rnd) obs)))).
    cbn [self sends fastrand start]. rewrite attributeObservations_emit.
    change (attributeTable (emit (NewSMARTctl json_ []) obs))
      with (attributeTable smart).
    destruct (attributeObservations_blocks smart (attributeTable smart) rnd)
      as [Hconcat Hblocks].
    fold smart. rewrite Hconcat. split; [reflexivity|]. split; [exact Hblocks|].
    apply attributeBlocks_uniform.
  - rewrite !(proj1 (sentBy_Collect _)). unfold observations.
    do 4 apply upToInvalid_prefix_perm.
    apply attributeObservations_runs_perm.
  - intros Hsame. rewrite !(proj1 (sentBy_Collect _)).
    cbn [self fastrand start]. unfold observations.
    now rewrite attributeObservations_ext with (rnd2 := rnd2) by exact Hsame.
Qed.

End Order.

(** Two runtimes that draw the same give the same pass over the full
    report. *)
Lemma Collect_order_up_to_map_iteration_witness :
  (forall n : nat, (fun _ : nat => 3) n = (fun _ : nat => 3) n)
  /\ sentBy (@Collect asciiLib) (@start asciiLib fullReport (fun _ => 3))
     = sentBy (@Collect asciiLib) (@start asciiLib fullReport (fun _ => 3)).
Proof.
  split; [reflexivity|].
  apply (proj2 (proj2 (proj2 (proj2 (proj2
           (@Collect_order_up_to_map_iteration asciiLib fullReport
              (fun _ => 3) (fun _ => 3))))))).
  reflexivity.
Defined.

(** ** How many observations *)

(** C4, as stated, fails: on the full report the capacity sub-step sends
    four observations, not three (and the attribute table four for its
    one row, not one); and on the same report with a serial number that
    is not valid UTF-8 the exit-status sub-step sends none, not one: it
    panics. *)
Lemma Collect_counts_not_as_claimed :
  ~ @countsAsClaimed asciiLib fullReport
  /\ ~ @countsAsClaimed asciiLib badSerialFullReport.
Proof.
  split.
  - intros Hclaimed. destruct (Hclaimed (fun _ => 0)) as (_ & _ & Hcapacity & _).
    vm_compute in Hcapacity. discriminate Hcapacity.
  - intros Hclaimed. destruct (Hclaimed (fun _ => 0)) as (Hexit & _).
    vm_compute in Hexit. discriminate Hexit.
Qed.

Section Counts.

Context `{GoLib}.

Lemma attributeObservations_length (smart : SMARTctl)
    (attributes : list gjson.Result) :
  forall rnd,
    List.length (attributeObservations smart rnd attributes)
    = 4 * List.length attributes.
Proof.
  induction attributes as [|attribute rest IH]; intros rnd;
    cbn [attributeObservations].
  - reflexivity.
  - rewrite length_app, length_map, IH.
    rewrite (Permutation_length (permute_perm (rnd 0) attributeValueTypes)).
    simpl. lia.
Qed.

Lemma statisticsObservations_length (smart : SMARTctl) :
  List.length (statisticsObservations smart)
  = statisticsEntries
      (gjson.Array (gjson.Get (json smart) "ata_device_statistics.pages")).
Proof.
  unfold statisticsObservations, statisticsEntries.
  induction (gjson.Array (gjson.Get (json smart) "ata_device_statistics.pages"))
    as [|page rest IH]; simpl.
  - reflexivity.
  - now rewrite length_app, length_map, IH.
Qed.

(** The number of observations a pass builds, or tries to. *)
Lemma observations_length (smart : SMARTctl) (rnd : nat -> nat) :
  List.length (observations smart rnd)
  = 1 + 1 + 4 + 2
    + 4 * List.length (attributeTable smart)
    + 1
    + List.length (rotationRateObservations smart)
    + List.length (gjson.entries (gjson.Get (json smart) "temperature"))
    + 1
    + statisticsEntries
        (gjson.Array (gjson.Get (json smart) "ata_device_statistics.pages"))
    + 4 + 1.
Proof.
  unfold observations. repeat rewrite length_app.
  rewrite attributeObservations_length, statisticsObservations_length.
  unfold temperatureObservations. rewrite length_map. simpl. lia.
Qed.

(** A sub-step whose observations can all be built sends them all and
    returns. *)
Lemma all_built (m : Go unit) (st : State) (obs : list Metric) :
  finishes m st obs ->
  forallb validMetric obs = true ->
  sentBy m st = obs /\ fst (m st) = Return tt.
Proof.
  intros Hfinishes Hvalid. destruct (sentBy_finishes Hfinishes) as [-> ->].
  split; [now apply upToInvalid_all|]. unfold outcome. now rewrite Hvalid.
Qed.

(** In a pass that returns, every sub-step sends all its observations,
    and returns. *)
Lemma returning_pass (st : State) :
  fst (Collect st) = Return tt ->
  sentBy Collect st = observations (self st) (fastrand st)
  /\ (sentBy mineExitStatus st = exitStatusObservations (self st)
      /\ fst (mineExitStatus st) = Return tt)
  /\ (sentBy mineDevice st = deviceObservations (self st)
      /\ fst (mineDevice st) = Return tt)
  /\ (sentBy mineCapacity st = capacityObservations (self st)
      /\ fst (mineCapacity st) = Return tt)
  /\ (sentBy mineInterfaceSpeed st = interfaceSpeedObservations (self st)
      /\ fst (mineInterfaceSpeed st) = Return tt)
  /\ (sentBy mineDeviceAttribute st
      = attributeObservations (self st) (fastrand st) (attributeTable (self st))
      /\ fst (mineDeviceAttribute st) = Return tt)
  /\ (sentBy minePowerOnSeconds st = powerOnObservations (self st)
      /\ fst (minePowerOnSeconds st) = Return tt)
  /\ (sentBy mineRotationRate st = rotationRateObservations (self st)
      /\ fst (mineRotationRate st) = Return tt)
  /\ (sentBy mineTemperatures st = temperatureObservations (self st)
      /\ fst (mineTemperatures st) = Return tt)
  /\ (sentBy minePowerCycleCount st = powerCycleObservations (self st)
      /\ fst (minePowerCycleCount st) = Return tt)
  /\ (sentBy mineDeviceStatistics st = statisticsObservations (self st)
      /\ fst (mineDeviceStatistics st) = Return tt)
  /\ (sentBy mineNvmeSmartHealthInformationLog st = nvmeObservations (self st)
      /\ fst (mineNvmeSmartHealthInformationLog st) = Return tt)
  /\ (sentBy mineSmartStatus st = smartStatusObservations (self st)
      /\ fst (mineSmartStatus st) = Return tt).
Proof.
  intros Hreturns. rewrite (proj2 (sentBy_Collect st)) in Hreturns.
  apply returns_all_valid in Hreturns.
  split; [rewrite (proj1 (sentBy_Collect st)); now apply upToInvalid_all|].
  unfold observations in Hreturns. repeat rewrite forallb_app in Hreturns.
  repeat (apply andb_prop in Hreturns;
          let Hstep := fresh "Hstep" in destruct Hreturns as [Hstep Hreturns]).
  split;
    [apply all_built; [apply finishes_exact, mineExitStatus_sends | assumption]|].
  split;
    [apply all_built; [apply finishes_exact, mineDevice_sends | assumption]|].
  split;
    [apply all_built; [apply finishes_exact, mineCapacity_sends | assumption]|].
  split;
    [apply all_built; [apply finishes_exact, mineInterfaceSpeed_sends | assumption]|].
  split; [apply all_built; [apply mineDeviceAttribute_finishes | assumption]|].
  split;
    [apply all_built; [apply finishes_exact, minePowerOnSeconds_sends | assumption]|].
  split;
    [apply all_built; [apply finishes_exact, mineRotationRate_sends | assumption]|].
  split;
    [apply all_built; [apply finishes_exact, mineTemperatures_sends | assumption]|].
  split;
    [apply all_built; [apply finishes_exact, minePowerCycleCount_sends | assumption]|].
  split;
    [apply all_built; [apply finishes_exact, mineDeviceStatistics_sends | assumption]|].
  split;
    [apply all_built; [apply finishes_exact, mineNvmeSmartHealthInformationLog_sends | assumption]|].
  apply all_built; [apply finishes_exact, mineSmartStatus_sends|].
  unfold smartStatusObservations. cbn [forallb]. now rewrite Hstep10.
Qed.

(** C4, amended.  A pass that returns (no label value being invalid
    UTF-8) sends what its twelve sub-steps send, one after the other, and
    each of them returns: exactly one observation for each of the steps
    1, 2, 6, 9 and 12, exactly four for step 3 (blocks, bytes, and a block
    size for each of the two kinds), exactly two for step 4, exactly four
    for each row of the attribute table for step 5, at most one for step
    7, one for each entry of the temperature sub-tree for step 8, one for
    each entry of each statistics page for step 10, and exactly four for
    step 11.  For a report with every documented field, the rows, entries
    and pages are those of its arrays and objects. *)
Theorem Collect_counts (st : State) :
  fst (Collect st) = Return tt ->
  let report := json (self st) in
  (sentBy Collect st = sentInTurn subSteps st
   /\ sentBy Collect st = flat_map (fun step : Go unit => sentBy step st) subSteps
   /\ Forall (fun step : Go unit => fst (step st) = Return tt) subSteps)
  /\ (List.length (sentBy mineExitStatus st) = 1
      /\ List.length (sentBy mineDevice st) = 1
      /\ List.length (sentBy mineCapacity st) = 4
      /\ List.length (sentBy mineInterfaceSpeed st) = 2
      /\ List.length (sentBy mineDeviceAttribute st)
         = 4 * List.length (attributeTable (self st))
      /\ List.length (sentBy minePowerOnSeconds st) = 1
      /\ List.length (sentBy mineRotationRate st) <= 1
      /\ List.length (sentBy mineTemperatures st)
         = List.length (gjson.entries (gjson.Get report "temperature"))
      /\ List.length (sentBy minePowerCycleCount st) = 1
      /\ List.length (sentBy mineDeviceStatistics st)
         = statisticsEntries
             (gjson.Array (gjson.Get report "ata_device_statistics.pages"))
      /\ List.length (sentBy mineNvmeSmartHealthInformationLog st) = 4
      /\ List.length (sentBy mineSmartStatus st) = 1)
  /\ List.length (sentBy Collect st)
     = 1 + 1 + 4 + 2
       + 4 * List.length (attributeTable (self st))
       + 1
       + List.length (sentBy mineRotationRate st)
       + List.length (gjson.entries (gjson.Get report "temperature"))
       + 1
       + statisticsEntries
           (gjson.Array (gjson.Get report "ata_device_statistics.pages"))
       + 4 + 1
  /\ (forall rows,
        gjson.Get report "ata_smart_attributes.table" = gjson.Found (JArray rows) ->
        List.length (sentBy mineDeviceAttribute st) = 4 * List.length rows)
  /\ (forall members,
        gjson.Get report "temperature" = gjson.Found (JObject members) ->
        List.length (sentBy mineTemperatures st) = List.length members)
  /\ (forall pages,
        gjson.Get report "ata_device_statistics.pages"
        = gjson.Found (JArray pages) ->
        List.length (sentBy mineDeviceStatistics st)
        = statisticsEntries (map gjson.Found pages)).
Proof.
  intros Hreturns report.
  destruct (returning_pass st Hreturns)
    as (Hpass & [Hexit Rexit] & [Hdevice Rdevice] & [Hcapacity Rcapacity]
        & [Hspeed Rspeed] & [Hattr Rattr] & [Hpower Rpower] & [Hrot Rrot]
        & [Htemp Rtemp] & [Hcycle Rcycle] & [Hstat Rstat] & [Hnvme Rnvme]
        & [Hstatus Rstatus]).
  assert (Hrows : List.length (sentBy mineDeviceAttribute st)
                  = 4 * List.length (attributeTable (self st)))
    by (rewrite Hattr; apply attributeObservations_length).
  assert (Htemps : List.length (sentBy mineTemperatures st)
                   = List.length (gjson.entries (gjson.Get report "temperature")))
    by (rewrite Htemp; unfold temperatureObservations; now rewrite length_map).
  assert (Hstats : List.length (sentBy mineDeviceStatistics st)
                   = statisticsEntries
                       (gjson.Array
                          (gjson.Get report "ata_device_statistics.pages")))
    by (rewrite Hstat; apply statisticsObservations_length).
  split; [|split; [|split; [|split; [|split]]]].
  - split; [apply sentBy_subSteps|]. split.
    + rewrite Hpass. unfold subSteps, observations. cbn [flat_map].
      rewrite Hexit, Hdevice, Hcapacity, Hspeed, Hattr, Hpower, Hrot, Htemp, Hcycle,
        Hstat, Hnvme, Hstatus.
      now rewrite app_nil_r.
    + unfold subSteps. repeat (apply Forall_cons; [assumption|]). apply Forall_nil.
  - split; [now rewrite Hexit|]. split; [now rewrite Hdevice|].
    split; [now rewrite Hcapacity|]. split; [now rewrite Hspeed|].
    split; [exact Hrows|]. split; [now rewrite Hpower|].
    split; [rewrite Hrot; unfold rotationRateObservations;
            destruct (0 <? _)%float; simpl; lia|].
    split; [exact Htemps|]. split; [now rewrite Hcycle|].
    split; [exact Hstats|]. split; [now rewrite Hnvme|]. now rewrite Hstatus.
  - rewrite Hpass, Hrot. apply observations_length.
  - intros rows Hrows'. rewrite Hrows. unfold attributeTable. fold report.
    rewrite Hrows'. simpl. now rewrite length_map.
  - intros members Hmembers. rewrite Htemps, Hmembers. simpl.
    now rewrite length_map.
  - intros pages Hpages. rewrite Hstats, Hpages. reflexivity.
Qed.

End Counts.

(** A pass over the full report returns; the report has one attribute
    row, one temperature and one statistics page with one entry: four,
    one and one observations, and 22 in all. *)
Lemma Collect_counts_witness :
  fst (@Collect asciiLib (@start asciiLib fullReport (fun _ => 0))) = Return tt
  /\ List.length
       (sentBy (@Collect asciiLib) (@start asciiLib fullReport (fun _ => 0))) = 22
  /\ List.length
       (sentBy (@mineDeviceAttribute asciiLib)
          (@start asciiLib fullReport (fun _ => 0))) = 4 * 1
  /\ List.length
       (sentBy (@mineTemperatures asciiLib)
          (@start asciiLib fullReport (fun _ => 0))) = 1
  /\ List.length
       (sentBy (@mineDeviceStatistics asciiLib)
          (@start asciiLib fullReport (fun _ => 0))) = 1.
Proof.
  assert (Hreturns :
            fst (@Collect asciiLib (@start asciiLib fullReport (fun _ => 0)))
            = Return tt) by (vm_compute; reflexivity).
  pose proof (@Collect_counts asciiLib (@start asciiLib fullReport (fun _ => 0))
                Hreturns)
    as (_ & _ & Htotal & Hrows & Hmembers & Hpages).
  split; [exact Hreturns|]. split; [|split; [|split]].
  - rewrite Htotal. vm_compute. reflexivity.
  - eapply (Hrows [_]). reflexivity.
  - eapply (Hmembers [_]). reflexivity.
  - etransitivity; [eapply (Hpages [_]); reflexivity | reflexivity].
Defined.

(** * Further properties of the sub-steps *)

Section Further.

Context `{GoLib}.

(** X1.  When the identity label values are valid UTF-8, the SMART status
    sub-step sends one gauge: 1 when ["smart_status.passed"] is [true], 0
    when it is [false], and 0 as well when the field is missing;
    otherwise it panics and sends nothing. *)
Theorem mineSmartStatus_passed (st : State) :
  let passed := gjson.Get (gjson.Get (json (self st)) "smart_status") "passed" in
  let status := fun value =>
    if validIdentity (self st)
    then [gauge metricSmartStatus value (identity (self st))]
    else [] in
  sentBy mineSmartStatus st = status (gjson.Float passed)
  /\ fst (mineSmartStatus st)
     = (if validIdentity (self st) then Return tt else Panic errInvalidUTF8)
  /\ (passed = gjson.Found JTrue -> sentBy mineSmartStatus st = status 1%float)
  /\ (passed = gjson.Found JFalse -> sentBy mineSmartStatus st = status 0%float)
  /\ (gjson.Exists passed = false -> sentBy mineSmartStatus st = status 0%float).
Proof.
  intros passed status.
  destruct (sentBy_exact (mineSmartStatus_sends st)) as [Hsent Hends].
  assert (Hsent' : sentBy mineSmartStatus st = status (gjson.Float passed)).
  { rewrite Hsent. unfold status. fold (validIdentity (self st)).
    unfold smartStatusObservations. rewrite upToInvalid_single.
    change (validMetric _) with (validIdentity (self st)). reflexivity. }
  split; [exact Hsent'|]. split.
  - rewrite Hends. unfold smartStatusObservations. rewrite outcome_single.
    reflexivity.
  - rewrite Hsent'. split; [|split].
    + now intros ->.
    + now intros ->.
    + destruct passed; [reflexivity | discriminate].
Qed.

(** A gauge whose labels are the identity and one more value can be built
    when the identity and the value are valid UTF-8. *)
Lemma validMetric_extra (smart : SMARTctl) (d : Desc) (value : float)
    (extra : string) :
  validMetric (gauge d value (identity smart ++ [extra]))
  = validIdentity smart && utf8.ValidString extra.
Proof.
  unfold validMetric, validIdentity, identity. simpl.
  destruct (utf8.ValidString (device (smartDevice smart)));
    destruct (utf8.ValidString (family (smartDevice smart)));
    destruct (utf8.ValidString (model (smartDevice smart)));
    destruct (utf8.ValidString (serial (smartDevice smart)));
    destruct (utf8.ValidString extra); reflexivity.
Qed.

(** X2.  The temperature sub-step sends nothing when the report has no
    ["temperature"]; for a temperature object it builds one gauge per
    member, in document order, labelled with the member's key and valued
    with the member's number, and sends them up to the first whose labels
    are not valid UTF-8, where it panics (all of them when the identity
    and the keys are valid); for a temperature that is a bare number it
    sends one gauge with an empty [temperature_type]. *)
Theorem mineTemperatures_per_member (st : State) :
  let temperature := gjson.Get (json (self st)) "temperature" in
  let reading := fun (kv : string * JSON) =>
    gauge metricDeviceTemperature
      (gjson.Float (gjson.Found (snd kv)))
      (identity (self st) ++ [fst kv]) in
  (gjson.Exists temperature = false ->
   sentBy mineTemperatures st = [] /\ fst (mineTemperatures st) = Return tt)
  /\ (forall members,
        temperature = gjson.Found (JObject members) ->
        sentBy mineTemperatures st = upToInvalid (map reading members)
        /\ fst (mineTemperatures st) = outcome (map reading members)
        /\ (validIdentity (self st) = true ->
            forallb (fun kv => utf8.ValidString (fst kv)) members = true ->
            sentBy mineTemperatures st = map reading members
            /\ fst (mineTemperatures st) = Return tt))
  /\ (forall raw degrees,
        temperature = gjson.Found (JNumber raw degrees) ->
        sentBy mineTemperatures st
        = if validIdentity (self st)
          then [gauge metricDeviceTemperature degrees (identity (self st) ++ [""])]
          else []).
Proof.
  intros temperature reading.
  destruct (sentBy_exact (mineTemperatures_sends st)) as [Hsent Hends].
  rewrite Hsent, Hends. unfold temperatureObservations. fold temperature.
  split; [|split].
  - destruct temperature; [split; reflexivity | discriminate].
  - intros members ->. cbn [gjson.entries]. rewrite map_map.
    change (map _ members) with (map reading members).
    split; [reflexivity|]. split; [reflexivity|].
    intros Hidentity Hkeys.
    assert (Hvalid : forallb validMetric (map reading members) = true).
    { apply forallb_forall. intros m Hm. apply in_map_iff in Hm.
      destruct Hm as (kv & <- & Hkv). unfold reading.
      rewrite validMetric_extra, Hidentity.
      apply (proj1 (forallb_forall _ members) Hkeys kv Hkv). }
    split; [now apply upToInvalid_all|]. unfold outcome. now rewrite Hvalid.
  - intros raw degrees ->. cbn [gjson.entries map]. rewrite upToInvalid_single.
    unfold temperatureObservation. cbn [fst snd].
    rewrite validMetric_extra. cbn [gjson.String gjson.Float].
    now rewrite andb_true_r.
Qed.

(** X3.  The statistics sub-step sends nothing when the report has no
    statistics pages; for an array of pages it builds one gauge per table
    entry, page after page and entry after entry, and sends them up to the
    first whose labels are not valid UTF-8, where it panics; a page
    without a table contributes nothing. *)
Theorem mineDeviceStatistics_per_entry (st : State) :
  let pages := gjson.Get (json (self st)) "ata_device_statistics.pages" in
  let gauges := fun elems =>
    flat_map
      (fun page =>
         map (statisticObservation (self st) (gjson.Found page))
           (gjson.Array (gjson.Get (gjson.Found page) "table")))
      elems in
  (gjson.Exists pages = false ->
   sentBy mineDeviceStatistics st = [] /\ fst (mineDeviceStatistics st) = Return tt)
  /\ (forall elems,
        pages = gjson.Found (JArray elems) ->
        sentBy mineDeviceStatistics st = upToInvalid (gauges elems)
        /\ fst (mineDeviceStatistics st) = outcome (gauges elems)
        /\ (forallb validMetric (gauges elems) = true ->
            sentBy mineDeviceStatistics st = gauges elems))
  /\ (forall elems,
        pages = gjson.Found (JArray elems) ->
        Forall
          (fun page =>
             gjson.Exists (gjson.Get (gjson.Found page) "table") = false)
          elems ->
        sentBy mineDeviceStatistics st = []
        /\ fst (mineDeviceStatistics st) = Return tt).
Proof.
  intros pages gauges.
  destruct (sentBy_exact (mineDeviceStatistics_sends st)) as [Hsent Hends].
  rewrite Hsent, Hends. unfold statisticsObservations. fold pages.
  assert (Harray : forall elems,
             flat_map
               (fun page =>
                  map (statisticObservation (self st) page)
                    (gjson.Array (gjson.Get page "table")))
               (gjson.Array (gjson.Found (JArray elems)))
             = gauges elems).
  { intros elems. unfold gauges. cbn [gjson.Array].
    now rewrite flat_map_concat_map, map_map, <- flat_map_concat_map. }
  split; [|split].
  - destruct pages; [split; reflexivity | discriminate].
  - intros elems ->. rewrite Harray.
    split; [reflexivity|]. split; [reflexivity|]. apply upToInvalid_all.
  - intros elems -> Hnone. rewrite Harray.
    assert (Hempty : gauges elems = []).
    { unfold gauges. induction Hnone as [|page rest Hpage _ IH]; [reflexivity|].
      cbn [flat_map]. rewrite IH.
      destruct (gjson.Get (gjson.Found page) "table"); [reflexivity | discriminate]. }
    rewrite Hempty. split; reflexivity.
Qed.

End Further.

(** The full report passed its self-test: the status sent is 1; the
    solid-state disk failed it, and the empty report does not say: the
    status sent is 0. *)
Lemma mineSmartStatus_passed_witness :
  (gjson.Get (gjson.Get fullReport "smart_status") "passed" = gjson.Found JTrue
   /\ sentBy (@mineSmartStatus asciiLib) (@start asciiLib fullReport (fun _ => 0))
      = [gauge metricSmartStatus 1
           ["/dev/sda"; "Seagate Barracuda"; "ST1000DM003"; "Z1D5XXXX"]])
  /\ (gjson.Get (gjson.Get failedSsdReport "smart_status") "passed"
      = gjson.Found JFalse
      /\ sentBy (@mineSmartStatus asciiLib)
           (@start asciiLib failedSsdReport (fun _ => 0))
         = [gauge metricSmartStatus 0 [""; ""; ""; ""]])
  /\ (gjson.Exists (gjson.Get (gjson.Get emptyReport "smart_status") "passed")
      = false
      /\ sentBy (@mineSmartStatus asciiLib) (@start asciiLib emptyReport (fun _ => 0))
         = [gauge metricSmartStatus 0 [""; ""; ""; ""]]).
Proof.
  split; [|split].
  - split; [reflexivity|].
    apply (proj1 (proj2 (proj2 (@mineSmartStatus_passed asciiLib
                                  (@start asciiLib fullReport (fun _ => 0)))))).
    reflexivity.
  - split; [reflexivity|].
    apply (proj1 (proj2 (proj2 (proj2
             (@mineSmartStatus_passed asciiLib
                (@start asciiLib failedSsdReport (fun _ => 0))))))).
    reflexivity.
  - split; [reflexivity|].
    apply (proj2 (proj2 (proj2 (proj2
             (@mineSmartStatus_passed asciiLib
                (@start asciiLib emptyReport (fun _ => 0))))))).
    reflexivity.
Defined.

(** The empty report has no temperature: nothing is sent; the full report
    has the temperature object [{current: 35}]: one gauge labelled
    [current]; the solid-state disk has the bare temperature 35: one gauge
    with an empty label. *)
Lemma mineTemperatures_per_member_witness :
  (gjson.Exists (gjson.Get emptyReport "temperature") = false
   /\ sentBy (@mineTemperatures asciiLib) (@start asciiLib emptyReport (fun _ => 0))
      = [])
  /\ (gjson.Get fullReport "temperature"
      = gjson.Found (JObject [("current", JNumber "35" 35)])
      /\ sentBy (@mineTemperatures asciiLib) (@start asciiLib fullReport (fun _ => 0))
         = [gauge metricDeviceTemperature 35
              ["/dev/sda"; "Seagate Barracuda"; "ST1000DM003"; "Z1D5XXXX";
               "current"]])
  /\ (gjson.Get failedSsdReport "temperature" = gjson.Found (JNumber "35" 35)
      /\ sentBy (@mineTemperatures asciiLib)
           (@start asciiLib failedSsdReport (fun _ => 0))
         = [gauge metricDeviceTemperature 35 [""; ""; ""; ""; ""]]).
Proof.
  split; [|split].
  - split; [reflexivity|].
    apply (proj1 (@mineTemperatures_per_member asciiLib
                    (@start asciiLib emptyReport (fun _ => 0)))).
    reflexivity.
  - split; [reflexivity|].
    apply (proj2 (proj2
             (proj1 (proj2 (@mineTemperatures_per_member asciiLib
                              (@start asciiLib fullReport (fun _ => 0))))
                [("current", JNumber "35" 35)] eq_refl)));
      reflexivity.
  - split; [reflexivity|].
    apply (proj2 (proj2 (@mineTemperatures_per_member asciiLib
                           (@start asciiLib failedSsdReport (fun _ => 0))))
             "35" 35%float).
    reflexivity.
Defined.

(** The empty report has no statistics pages, and the one page of the
    solid-state disk has no table: nothing is sent; the one page of the
    full report has one entry: one gauge is sent. *)
Lemma mineDeviceStatistics_per_entry_witness :
  (gjson.Exists (gjson.Get emptyReport "ata_device_statistics.pages") = false
   /\ sentBy (@mineDeviceStatistics asciiLib)
        (@start asciiLib emptyReport (fun _ => 0)) = [])
  /\ (gjson.Get failedSsdReport "ata_device_statistics.pages"
      = gjson.Found (JArray [JObject [("name", JString "General Statistics")]])
      /\ sentBy (@mineDeviceStatistics asciiLib)
           (@start asciiLib failedSsdReport (fun _ => 0)) = [])
  /\ List.length
       (sentBy (@mineDeviceStatistics asciiLib)
          (@start asciiLib fullReport (fun _ => 0))) = 1.
Proof.
  split; [|split].
  - split; [reflexivity|].
    apply (proj1 (@mineDeviceStatistics_per_entry asciiLib
                    (@start asciiLib emptyReport (fun _ => 0)))).
    reflexivity.
  - split; [reflexivity|].
    apply (proj2 (proj2 (@mineDeviceStatistics_per_entry asciiLib
                           (@start asciiLib failedSsdReport (fun _ => 0))))
             [JObject [("name", JString "General Statistics")]] eq_refl).
    repeat constructor.
  - rewrite (proj2 (proj2
               (proj1 (proj2 (@mineDeviceStatistics_per_entry asciiLib
                                (@start asciiLib fullReport (fun _ => 0))))
                  [_] eq_refl)) eq_refl).
    reflexivity.
Defined.

Section FurtherPass.

Context `{GoLib}.

(** X4.  The attribute sub-step builds, for each row of the attribute
    table and each of [value], [worst], [thresh] and [raw], one gauge:
    its value is read in the row at ["value"], ["worst"], ["thresh"] and
    ["raw.value"], and its labels are the identity, the row's trimmed
    name, its trimmed short flags, its long flags, the value type and the
    row's id, so that the four observations of a row differ in the value
    type (and the value) only, and can be built all four or not at all.
    The sub-step sends the rows in table order, the four gauges of a row
    in the order of the map iteration, up to the first row whose labels
    are not valid UTF-8, where it panics.  Without an attribute table it
    sends nothing. *)
Theorem mineDeviceAttribute_rows (st : State) :
  let smart := self st in
  let reading := fun (row : gjson.Result) (kv : string * string) =>
    gauge metricDeviceAttribute
      (gjson.Float (gjson.Get row (snd kv)))
      [device (smartDevice smart); family (smartDevice smart);
       model (smartDevice smart); serial (smartDevice smart);
       strings.TrimSpace (gjson.String (gjson.Get row "name"));
       strings.TrimSpace (gjson.String (gjson.Get row "flags.string"));
       mineLongFlags (gjson.Get row "flags")
         ["prefailure"; "updated_online"; "performance"; "error_rate";
          "event_count"; "auto_keep"];
       fst kv;
       gjson.String (gjson.Get row "id")] in
  let rows := fun table =>
    flat_map
      (fun row =>
         [reading row ("value", "value");
          reading row ("worst", "worst");
          reading row ("thresh", "thresh");
          reading row ("raw", "raw.value")])
      table in
  let table := gjson.Array (gjson.Get (json smart) "ata_smart_attributes.table") in
  Permutation (sentBy mineDeviceAttribute st) (upToInvalid (rows table))
  /\ fst (mineDeviceAttribute st) = outcome (rows table)
  /\ (fst (mineDeviceAttribute st) = Return tt ->
      Permutation (sentBy mineDeviceAttribute st) (rows table))
  /\ (gjson.Exists (gjson.Get (json smart) "ata_smart_attributes.table") = false ->
      sentBy mineDeviceAttribute st = []
      /\ fst (mineDeviceAttribute st) = Return tt).
Proof.
  intros smart reading rows table.
  destruct (sentBy_finishes (mineDeviceAttribute_finishes st)) as [Hsent Hends].
  assert (Hperm : Permutation (sentBy mineDeviceAttribute st)
                    (upToInvalid (rows table))).
  { rewrite Hsent.
    pose proof (attributeObservations_upTo_perm smart table [] (fastrand st))
      as Hrows.
    rewrite !app_nil_r in Hrows. exact Hrows. }
  assert (Hsame : forall l rnd,
             forallb validMetric (attributeObservations smart rnd l)
             = forallb validMetric (rows l)).
  { unfold rows. intros l. induction l as [|row rest IH]; intros rnd;
      cbn [attributeObservations flat_map]; [reflexivity|].
    rewrite forallb_app, (IH (fun n => rnd (S n))).
    destruct (attribute_block smart row (rnd 0)) as (_ & Hevery & _).
    destruct (attribute_block smart row 0) as (_ & Hevery0 & _).
    rewrite permute_zero in Hevery0. cbv zeta in Hevery, Hevery0.
    rewrite Hevery, <- Hevery0.
    change (reading row ("value", "value") :: reading row ("worst", "worst")
            :: reading row ("thresh", "thresh") :: reading row ("raw", "raw.value")
            :: flat_map
                 (fun row0 =>
                    [reading row0 ("value", "value");
                     reading row0 ("worst", "worst");
                     reading row0 ("thresh", "thresh");
                     reading row0 ("raw", "raw.value")])
                 rest)
      with (map (attributeObservation smart row) attributeValueTypes
            ++ flat_map
                 (fun row0 =>
                    [reading row0 ("value", "value");
                     reading row0 ("worst", "worst");
                     reading row0 ("thresh", "thresh");
                     reading row0 ("raw", "raw.value")])
                 rest).
    now rewrite forallb_app. }
  assert (Hends' : fst (mineDeviceAttribute st) = outcome (rows table)).
  { rewrite Hends. unfold outcome. fold smart.
    change (attributeTable smart) with table. now rewrite Hsame. }
  split; [exact Hperm|]. split; [exact Hends'|]. split.
  - intros Hreturns. rewrite Hends' in Hreturns.
    apply returns_all_valid in Hreturns.
    now rewrite (upToInvalid_all _ Hreturns) in Hperm.
  - intros Hmissing. rewrite Hsent, Hends. fold smart.
    unfold attributeTable.
    destruct (gjson.Get (json smart) "ata_smart_attributes.table");
      [split; reflexivity | discriminate].
Qed.


(** X6.  In a pass, the observations of the power-on seconds and of the
    power cycle count are counters, and every other observation is a
    gauge. *)
Theorem Collect_value_types (st : State) :
  Forall
    (fun m =>
       if orb (String.eqb (fqName (desc m)) "smartctl_device_power_on_seconds")
              (String.eqb (fqName (desc m)) "smartctl_device_power_cycle_count")
       then valType m = CounterValue
       else valType m = GaugeValue)
    (sentBy Collect st).
Proof.
  assert (Hall : Forall
                   (fun m =>
                      if orb (String.eqb (fqName (desc m))
                                "smartctl_device_power_on_seconds")
                             (String.eqb (fqName (desc m))
                                "smartctl_device_power_cycle_count")
                      then valType m = CounterValue
                      else valType m = GaugeValue)
                   (observations (self st) (fastrand st))).
  { apply observations_Forall;
      try (unfold rotationRateObservations; destruct (0 <? _)%float);
      repeat (apply Forall_cons; [reflexivity|]);
      try apply Forall_nil;
      intros; reflexivity. }
  eapply Forall_impl; [|apply (sentBy_Collect_Forall st Hall)].
  intros m [Hm _]. exact Hm.
Qed.

End FurtherPass.

(** The empty report has no attribute table: nothing is sent; over the
    full report the sub-step returns, and sends the four gauges of the
    one row. *)
Lemma mineDeviceAttribute_rows_witness :
  (gjson.Exists (gjson.Get emptyReport "ata_smart_attributes.table") = false
   /\ sentBy (@mineDeviceAttribute asciiLib)
        (@start asciiLib emptyReport (fun _ => 3)) = [])
  /\ (fst (@mineDeviceAttribute asciiLib (@start asciiLib fullReport (fun _ => 3)))
      = Return tt
      /\ map (fun m => label m "attribute_value_type")
           (sentBy (@mineDeviceAttribute asciiLib)
              (@start asciiLib fullReport (fun _ => 3)))
         = [Some "worst"; Some "thresh"; Some "raw"; Some "value"]
      /\ List.length
           (sentBy (@mineDeviceAttribute asciiLib)
              (@start asciiLib fullReport (fun _ => 3))) = 4).
Proof.
  split.
  - split; [reflexivity|].
    apply (proj1 (proj2 (proj2 (proj2
             (@mineDeviceAttribute_rows asciiLib
                (@start asciiLib emptyReport (fun _ => 3)))))
             eq_refl)).
  - split; [reflexivity|]. split; [reflexivity|].
    rewrite (Permutation_length
               (proj1 (proj2 (proj2
                  (@mineDeviceAttribute_rows asciiLib
                     (@start asciiLib fullReport (fun _ => 3)))))
                  eq_refl)).
    reflexivity.
Defined.


(** ** Paths *)

Lemma splitPath_nonempty (path : string) : gjson.splitPath path <> [].
Proof.
  destruct path as [|c rest]; simpl; [discriminate|].
  destruct (Ascii.eqb c "."); [discriminate|].
  destruct (gjson.splitPath rest); discriminate.
Qed.

(** Among members with distinct keys, the lookup of a key follows the
    path in the value of the one member with that key. *)
Lemma lookupWith_In (descend : JSON -> gjson.Result) (key : string)
    (members : list (string * JSON)) (v : JSON) :
  NoDup (map fst members) -> In (key, v) members ->
  gjson.lookupWith descend key members = descend v.
Proof.
  induction members as [|[k w] rest IH]; simpl; intros Hnodup Hin; [tauto|].
  inversion Hnodup as [|? ? Hfresh Hrest]; subst.
  destruct Hin as [E|Hin].
  - injection E as -> ->. rewrite String.eqb_refl.
    destruct (descend v) eqn:Ev; [|reflexivity].
    clear IH Hnodup Hrest. induction rest as [|[k' w'] rest IH]; [reflexivity|].
    simpl. destruct (String.eqb_spec k' key) as [->|Hne].
    + destruct Hfresh. now left.
    + apply IH. intros Hin. apply Hfresh. now right.
  - destruct (String.eqb_spec k key) as [->|Hne].
    + destruct Hfresh. apply (in_map fst) in Hin. exact Hin.
    + now apply IH.
Qed.

Lemma lookupWith_absent (descend : JSON -> gjson.Result) (key : string)
    (members : list (string * JSON)) :
  ~ In key (map fst members) ->
  gjson.lookupWith descend key members = gjson.Missing.
Proof.
  induction members as [|[k w] rest IH]; simpl; intros Habsent; [reflexivity|].
  destruct (String.eqb_spec k key) as [->|Hne]; [destruct Habsent; now left|].
  apply IH. intros Hin. apply Habsent. now right.
Qed.

Lemma lookupWith_perm (descend : JSON -> gjson.Result) (key : string)
    (members members' : list (string * JSON)) :
  NoDup (map fst members) -> Permutation members members' ->
  gjson.lookupWith descend key members = gjson.lookupWith descend key members'.
Proof.
  intros Hnodup Hperm.
  assert (Hnodup' : NoDup (map fst members'))
    by (eapply Permutation_NoDup; [apply Permutation_map, Hperm | exact Hnodup]).
  destruct (in_dec string_dec key (map fst members)) as [Hin|Hout].
  - apply in_map_iff in Hin. destruct Hin as ([k v] & Hk & Hin).
    simpl in Hk. subst k.
    rewrite (@lookupWith_In descend key members v Hnodup Hin).
    now rewrite (@lookupWith_In descend key members' v Hnodup'
                   (Permutation_in _ Hperm Hin)).
  - rewrite (@lookupWith_absent descend key members Hout).
    rewrite lookupWith_absent; [reflexivity|].
    intros Hin. apply Hout.
    apply (Permutation_in _ (Permutation_sym (Permutation_map fst Hperm)) Hin).
Qed.

Section FurtherFields.

Context `{GoLib}.

(** X7.  The device sub-step builds exactly one gauge, of value 1
    whatever the report, and sends it when its label values are valid
    UTF-8 (it panics otherwise): its [interface] and [protocol] labels
    are the strings at ["type"] and ["protocol"] of what the report has
    at ["device"], its [ata_additional_product_id] label the string at
    that key, or ["unknown"] when the report has none, and its
    [firmware_version], [ata_version] and [sata_version] labels the
    strings at ["firmware_version"], ["ata_version.string"] and
    ["sata_version.string"]; a string the report lacks is empty. *)
Theorem mineDevice_presence (st : State) :
  let report := json (self st) in
  (exists m,
      sentBy mineDevice st = (if validMetric m then [m] else [])
      /\ fst (mineDevice st)
         = (if validMetric m then Return tt else Panic errInvalidUTF8)
      /\ desc m = metricDeviceModel
      /\ valType m = GaugeValue
      /\ val m = 1%float
      /\ label m "interface"
         = Some (gjson.String (gjson.Get (gjson.Get report "device") "type"))
      /\ label m "protocol"
         = Some (gjson.String (gjson.Get (gjson.Get report "device") "protocol"))
      /\ label m "ata_additional_product_id"
         = Some (if gjson.Exists (gjson.Get report "ata_additional_product_id")
                 then gjson.String (gjson.Get report "ata_additional_product_id")
                 else "unknown")
      /\ label m "firmware_version"
         = Some (gjson.String (gjson.Get report "firmware_version"))
      /\ label m "ata_version"
         = Some (gjson.String (gjson.Get report "ata_version.string"))
      /\ label m "sata_version"
         = Some (gjson.String (gjson.Get report "sata_version.string")))
  /\ (forall t path, gjson.Exists (gjson.Get t path) = false ->
      gjson.String (gjson.Get t path) = "").
Proof.
  intros report. split.
  - destruct (sentBy_exact (mineDevice_sends st)) as [Hsent Hends].
    unfold deviceObservations in Hsent, Hends.
    rewrite upToInvalid_single in Hsent. rewrite outcome_single in Hends.
    eexists. split; [exact Hsent|]. split; [exact Hends|].
    repeat split.
  - intros t path Hmissing. now destruct (gjson.Get t path).
Qed.

(** X8.  A number the report lacks is sent as 0, not left out: the exit
    status, the power cycle count, the capacity in blocks, the capacity
    in bytes and each of the two block sizes, each on its own, whatever
    the report has of the others.  (Each sub-step sends its observations
    when the identity label values are valid UTF-8, and nothing
    otherwise.) *)
Theorem missing_numbers_are_zero (st : State) :
  let report := json (self st) in
  let ids := identity (self st) in
  let capacity := gjson.Get report "user_capacity" in
  let sending := fun (obs : list Metric) =>
    if validIdentity (self st) then obs else [] in
  let capacities := fun blocks bytes logical physical =>
    sending
      [gauge metricDeviceCapacityBlocks blocks ids;
       gauge metricDeviceCapacityBytes bytes ids;
       gauge metricDeviceBlockSize logical (ids ++ ["logical"]);
       gauge metricDeviceBlockSize physical (ids ++ ["physical"])] in
  let blocks := gjson.Float (gjson.Get capacity "blocks") in
  let bytes := gjson.Float (gjson.Get capacity "bytes") in
  let logical := gjson.Float (gjson.Get report "logical_block_size") in
  let physical := gjson.Float (gjson.Get report "physical_block_size") in
  (sentBy mineExitStatus st
   = sending [gauge metricDeviceExitStatus
                (gjson.Float (gjson.Get report "smartctl.exit_status")) ids]
   /\ sentBy minePowerCycleCount st
      = sending [counter metricDevicePowerCycleCount
                   (gjson.Float (gjson.Get report "power_cycle_count")) ids]
   /\ sentBy mineCapacity st = capacities blocks bytes logical physical)
  /\ (gjson.Exists (gjson.Get report "smartctl.exit_status") = false ->
      sentBy mineExitStatus st = sending [gauge metricDeviceExitStatus 0 ids])
  /\ (gjson.Exists (gjson.Get report "power_cycle_count") = false ->
      sentBy minePowerCycleCount st
      = sending [counter metricDevicePowerCycleCount 0 ids])
  /\ (gjson.Exists (gjson.Get capacity "blocks") = false ->
      sentBy mineCapacity st = capacities 0%float bytes logical physical)
  /\ (gjson.Exists (gjson.Get capacity "bytes") = false ->
      sentBy mineCapacity st = capacities blocks 0%float logical physical)
  /\ (gjson.Exists (gjson.Get report "logical_block_size") = false ->
      sentBy mineCapacity st = capacities blocks bytes 0%float physical)
  /\ (gjson.Exists (gjson.Get report "physical_block_size") = false ->
      sentBy mineCapacity st = capacities blocks bytes logical 0%float).
Proof.
  intros report ids capacity sending capacities blocks bytes logical physical.
  assert (Hzero : forall r, gjson.Exists r = false -> gjson.Float r = 0%float)
    by (intros r Hr; destruct r; [reflexivity | discriminate]).
  assert (Hexit : sentBy mineExitStatus st
                  = sending [gauge metricDeviceExitStatus
                               (gjson.Float (gjson.Get report "smartctl.exit_status"))
                               ids]).
  { rewrite (proj1 (sentBy_exact (mineExitStatus_sends st))).
    apply upToInvalid_single. }
  assert (Hcycle : sentBy minePowerCycleCount st
                   = sending [counter metricDevicePowerCycleCount
                                (gjson.Float (gjson.Get report "power_cycle_count"))
                                ids]).
  { rewrite (proj1 (sentBy_exact (minePowerCycleCount_sends st))).
    apply upToInvalid_single. }
  assert (Hcapacity : sentBy mineCapacity st
                      = capacities blocks bytes logical physical).
  { rewrite (proj1 (sentBy_exact (mineCapacity_sends st))).
    unfold capacityObservations.
    apply (@all_or_nothing (validIdentity (self st))).
    repeat constructor. }
  split; [repeat split; assumption|].
  split; [intros Hmissing; rewrite Hexit; now rewrite (Hzero _ Hmissing)|].
  split; [intros Hmissing; rewrite Hcycle; now rewrite (Hzero _ Hmissing)|].
  split; [intros Hmissing; rewrite Hcapacity; unfold blocks;
          now rewrite (Hzero _ Hmissing)|].
  split; [intros Hmissing; rewrite Hcapacity; unfold bytes;
          now rewrite (Hzero _ Hmissing)|].
  split; [intros Hmissing; rewrite Hcapacity; unfold logical;
          now rewrite (Hzero _ Hmissing)|].
  intros Hmissing. rewrite Hcapacity. unfold physical.
  now rewrite (Hzero _ Hmissing).
Qed.

(** X9.  The long flags do not depend on the order in which the flags
    object lists its members, as long as no key occurs twice. *)
Theorem mineLongFlags_member_order (members members' : list (string * JSON))
    (flags : list string) :
  NoDup (map fst members) ->
  Permutation members members' ->
  mineLongFlags (gjson.Found (JObject members)) flags
  = mineLongFlags (gjson.Found (JObject members')) flags.
Proof.
  intros Hnodup Hperm. rewrite !mineLongFlags_filter. f_equal.
  apply filter_ext. intros flag. unfold flagSet.
  assert (Hget : gjson.Get (gjson.Found (JObject members)) flag
                 = gjson.Get (gjson.Found (JObject members')) flag).
  { simpl. destruct (gjson.splitPath flag) as [|k ks] eqn:E.
    - now destruct (splitPath_nonempty flag).
    - simpl. now apply lookupWith_perm. }
  now rewrite Hget.
Qed.

End FurtherFields.

(** The empty report has no exit status, no power cycle count and no
    capacity in bytes, and the report with a partial capacity neither a
    capacity in blocks nor a physical block size: each is sent as 0,
    beside the numbers the report has. *)
Lemma missing_numbers_are_zero_witness :
  (gjson.Exists (gjson.Get emptyReport "smartctl.exit_status") = false
   /\ sentBy (@mineExitStatus asciiLib) (@start asciiLib emptyReport (fun _ => 0))
      = [gauge metricDeviceExitStatus 0 [""; ""; ""; ""]])
  /\ (gjson.Exists (gjson.Get emptyReport "power_cycle_count") = false
      /\ sentBy (@minePowerCycleCount asciiLib)
           (@start asciiLib emptyReport (fun _ => 0))
         = [counter metricDevicePowerCycleCount 0 [""; ""; ""; ""]])
  /\ (gjson.Exists (gjson.Get (gjson.Get partialCapacityReport "user_capacity")
                       "blocks") = false
      /\ gjson.Exists (gjson.Get partialCapacityReport "physical_block_size") = false
      /\ sentBy (@mineCapacity asciiLib)
           (@start asciiLib partialCapacityReport (fun _ => 0))
         = [gauge metricDeviceCapacityBlocks 0 [""; ""; ""; ""];
            gauge metricDeviceCapacityBytes 1000204886016 [""; ""; ""; ""];
            gauge metricDeviceBlockSize 512 [""; ""; ""; ""; "logical"];
            gauge metricDeviceBlockSize 0 [""; ""; ""; ""; "physical"]]
      /\ sentBy (@mineCapacity asciiLib)
           (@start asciiLib partialCapacityReport (fun _ => 0))
         = [gauge metricDeviceCapacityBlocks 0 [""; ""; ""; ""];
            gauge metricDeviceCapacityBytes 1000204886016 [""; ""; ""; ""];
            gauge metricDeviceBlockSize 512 [""; ""; ""; ""; "logical"];
            gauge metricDeviceBlockSize 0 [""; ""; ""; ""; "physical"]])
  /\ (gjson.Exists (gjson.Get (gjson.Get failedSsdReport "user_capacity") "bytes")
      = false
      /\ gjson.Exists (gjson.Get failedSsdReport "logical_block_size") = false
      /\ sentBy (@mineCapacity asciiLib)
           (@start asciiLib failedSsdReport (fun _ => 0))
         = [gauge metricDeviceCapacityBlocks 0 [""; ""; ""; ""];
            gauge metricDeviceCapacityBytes 0 [""; ""; ""; ""];
            gauge metricDeviceBlockSize 0 [""; ""; ""; ""; "logical"];
            gauge metricDeviceBlockSize 0 [""; ""; ""; ""; "physical"]]
      /\ sentBy (@mineCapacity asciiLib)
           (@start asciiLib failedSsdReport (fun _ => 0))
         = [gauge metricDeviceCapacityBlocks 0 [""; ""; ""; ""];
            gauge metricDeviceCapacityBytes 0 [""; ""; ""; ""];
            gauge metricDeviceBlockSize 0 [""; ""; ""; ""; "logical"];
            gauge metricDeviceBlockSize 0 [""; ""; ""; ""; "physical"]]).
Proof.
  pose proof (@missing_numbers_are_zero asciiLib
                (@start asciiLib emptyReport (fun _ => 0)))
    as (_ & Hexit & Hcycle & _).
  pose proof (@missing_numbers_are_zero asciiLib
                (@start asciiLib partialCapacityReport (fun _ => 0)))
    as (_ & _ & _ & Hblocks & _ & _ & Hphysical).
  pose proof (@missing_numbers_are_zero asciiLib
                (@start asciiLib failedSsdReport (fun _ => 0)))
    as (_ & _ & _ & _ & Hbytes & Hlogical & _).
  split; [|split; [|split]].
  - split; [reflexivity|]. apply Hexit. reflexivity.
  - split; [reflexivity|]. apply Hcycle. reflexivity.
  - split; [reflexivity|]. split; [reflexivity|]. split.
    + apply Hblocks. reflexivity.
    + apply Hphysical. reflexivity.
  - split; [reflexivity|]. split; [reflexivity|]. split.
    + apply Hbytes. reflexivity.
    + apply Hlogical. reflexivity.
Defined.

(** The flags [{auto_keep: true, prefailure: true}], in either order. *)
Lemma mineLongFlags_member_order_witness :
  NoDup (map fst [("auto_keep", JTrue); ("prefailure", JTrue)])
  /\ Permutation [("auto_keep", JTrue); ("prefailure", JTrue)]
       [("prefailure", JTrue); ("auto_keep", JTrue)]
  /\ @mineLongFlags asciiLib
       (gjson.Found (JObject [("auto_keep", JTrue); ("prefailure", JTrue)]))
       attributeFlags
     = @mineLongFlags asciiLib
         (gjson.Found (JObject [("prefailure", JTrue); ("auto_keep", JTrue)]))
         attributeFlags.
Proof.
  assert (Hnodup : NoDup (map fst [("auto_keep", JTrue); ("prefailure", JTrue)])).
  { repeat constructor; simpl; intuition discriminate. }
  assert (Hperm : Permutation [("auto_keep", JTrue); ("prefailure", JTrue)]
                    [("prefailure", JTrue); ("auto_keep", JTrue)])
    by apply perm_swap.
  split; [exact Hnodup|]. split; [exact Hperm|].
  exact (@mineLongFlags_member_order asciiLib _ _ attributeFlags Hnodup Hperm).
Defined.

(** ** The catalog *)

Ltac distinct_strings :=
  repeat (apply NoDup_cons;
          [simpl; intros Hin;
           repeat (destruct Hin as [Hin|Hin]; [discriminate Hin|]);
           exact Hin|]);
  apply NoDup_nil.

(** X10.  No two descriptors of the catalog have the same metric name, no
    descriptor lists a label name twice, and every descriptor but that of
    the smartctl version lists the four identity labels. *)
Theorem catalog_well_formed :
  NoDup (map fqName catalog)
  /\ Forall (fun d => NoDup (variableLabels d)) catalog
  /\ Forall
       (fun d =>
          d = metricSmartctlVersion
          \/ (In "device" (variableLabels d)
              /\ In "model_family" (variableLabels d)
              /\ In "model_name" (variableLabels d)
              /\ In "serial_number" (variableLabels d)))
       (catalog).
Proof.
  split; [|split].
  - simpl. distinct_strings.
  - unfold catalog. repeat (apply Forall_cons; [simpl; distinct_strings|]).
    apply Forall_nil.
  - unfold catalog. apply Forall_cons; [now left|].
    repeat (apply Forall_cons; [right; simpl; tauto|]).
    apply Forall_nil.
Qed.

(** The empty report has no firmware version: the label is empty. *)
Lemma mineDevice_presence_witness :
  gjson.Exists (gjson.Get emptyReport "firmware_version") = false
  /\ @gjson.String asciiLib (gjson.Get emptyReport "firmware_version") = "".
Proof.
  split; [reflexivity|].
  apply (proj2 (@mineDevice_presence asciiLib
                  (@start asciiLib emptyReport (fun _ => 0)))).
  reflexivity.
Defined.
